(** * Footfall generator and congestion prediction: a shallow embedding

    The development follows the two services of the repository:
    - [DataGen]    embeds [src/data/main.py] (series generator and statistics);
    - [Prediction] embeds [src/main.py] (congestion estimator, area aggregator).

    Conventions of the embedding.
    - Python [int] values are [Z].  A finite Python [float] is the rational
      [Q] it denotes.  The products, sums and quotients behind a footfall
      ([calculate_current_footfall] and its inlined copies, the loop of
      [generate_transport_data]) are rounded to the nearest double after
      every operation, as the code computes them ([fmul], [fadd], [fdiv]).
      The comparisons with the thresholds, the mean of the level codes and
      the statistics of a series are taken on the exact values.  The one
      non-finite value the code can produce, the NaN of an undefined standard
      deviation, is explicit in [pyfloat].
    - A date is its day number; the model covers the dates of the calendar
      (day 1 to day 3652059), where [datetime] arithmetic does not overflow.
    - [int(x)] on a float is [py_int] (truncation toward zero); the builtin
      [round(x)] is [py_round] (nearest integer, ties to even).
    - Dictionaries that are only read are association lists in source order
      ([dict_get] is [dict.get(key, default)]).
    - The wall clock, the random source, [np.sin], the square root behind
      [Series.std] and the HTTP exchange with the sibling service are inputs
      of the functions that use them. *)

From Stdlib Require Import ZArith QArith Qabs Qround Qpower List Ascii String Bool.
From Stdlib Require Import Lia Lqa.
From Stdlib Require Import Sorting.Sorted Sorting.Permutation.
Import ListNotations.

Local Open Scope Z_scope.

(** ** Python numerics *)

Module Py.

(** Strict comparison [x < y] on floats, as a boolean. *)
Definition Qltb (x y : Q) : bool := negb (Qle_bool y x).

(** [int(x)] for a float [x]: the integer part, rounding toward zero. *)
Definition py_int (x : Q) : Z :=
  if Qle_bool 0 x then Qfloor x else Qceiling x.

(** [round(x)]: nearest integer, exact ties go to the even neighbour. *)
Definition py_round (x : Q) : Z :=
  let f := Qfloor x in
  match Qcompare (x - inject_Z f) (1 # 2) with
  | Lt => f
  | Gt => f + 1
  | Eq => if Z.even f then f else f + 1
  end.

(** [round(x, 2)]: [x] rounded to two decimals. *)
Definition py_round2 (x : Q) : Q :=
  (inject_Z (py_round (x * 100)) / 100)%Q.

(** *** Doubles

    A finite double is kept as the rational it denotes.  [to_double x] is the
    double nearest to [x], exact ties going to the even significand: 53
    significant bits, and the fixed spacing [2 ^ -1074] of the subnormal
    range.  Overflow to infinity is outside the model. *)

Definition pow2 (e : Z) : Q := (2 ^ e)%Q.

(** The integer part of the binary logarithm of a positive rational. *)
Definition ilog2 (x : Q) : Z :=
  let k := Z.log2 (Qnum x) - Z.log2 (Zpos (Qden x)) in
  if Qle_bool (pow2 k) x then k else k - 1.

(** The exponent of the last place of the double nearest to [x > 0]. *)
Definition ulp_exponent (x : Q) : Z := Z.max (ilog2 x - 52) (-1074).

Definition round_positive (x : Q) : Q :=
  (inject_Z (py_round (x / pow2 (ulp_exponent x))) * pow2 (ulp_exponent x))%Q.

Definition to_double (x : Q) : Q :=
  match Qcompare x 0 with
  | Gt => round_positive x
  | Lt => (- round_positive (- x))%Q
  | Eq => 0%Q
  end.

(** [x * y], [x + y] and [x / y] on floats: the exact result of the operation
    on the two doubles, rounded to a double.  An operand written as a decimal
    literal stands for the double nearest to it. *)
Definition fmul (x y : Q) : Q := to_double (to_double x * to_double y).

Definition fadd (x y : Q) : Q := to_double (to_double x + to_double y).

Definition fdiv (x y : Q) : Q := to_double (to_double x / to_double y).

(** [x < y] on floats. *)
Definition fltb (x y : Q) : bool := Qltb (to_double x) (to_double y).

(** A float that may be NaN. *)
Inductive pyfloat : Type :=
| Fin (q : Q)
| NaN.

(** Outcome of a call that may raise. *)
Inductive result (E A : Type) : Type :=
| Ok (a : A)
| Raise (e : E).
Arguments Ok {E A} a.
Arguments Raise {E A} e.

Definition bind {E A B} (r : result E A) (k : A -> result E B) : result E B :=
  match r with
  | Ok a => k a
  | Raise e => Raise e
  end.

(** [d.get(k, default)] on a dictionary kept in insertion order. *)
Fixpoint dict_get {K V : Type} (eqb : K -> K -> bool)
         (d : list (K * V)) (k : K) (default : V) : V :=
  match d with
  | [] => default
  | (k', v) :: rest => if eqb k' k then v else dict_get eqb rest k default
  end.

(** [x in l] for a list of strings. *)
Definition str_in (x : string) (l : list string) : bool :=
  existsb (String.eqb x) l.

(** [sum(l)] over integers. *)
Definition py_sum (l : list Z) : Z := fold_left Z.add l 0.

(** [HTTPException(status_code, detail)]. *)
Record HTTPException : Type := mkHTTPException {
  status_code : Z;
  detail : string
}.

End Py.

Import Py.

(** ** The data generator service, [src/data/main.py] *)

Module DataGen.

Local Open Scope string_scope.

Definition BASE_FOOTFALL : list (string * Z) :=
  [ ("metro", 5000); ("railway", 8000); ("bus", 3000); ("signal", 4000) ].

Definition LOCATION_MULTIPLIERS : list (string * Q) :=
  [ ("Ghatkopar", 1.2); ("Andheri", 1.5); ("Versova", 0.9); ("Aarey", 0.7);
    ("Dahisar East", 0.8); ("DN Nagar", 1.0); ("Azad Nagar", 0.85);
    ("Western Express Highway", 1.1); ("Marol Naka", 1.3);
    ("Airport Road", 1.4);
    ("Andheri West", 1.6); ("Bandra", 1.7); ("Dadar", 1.8); ("Borivali", 1.5);
    ("Malad", 1.3); ("Goregaon", 1.2); ("Jogeshwari", 1.1);
    ("Vile Parle", 1.3);
    ("Santa Cruz", 1.2); ("Khar Road", 1.4); ("Andheri Bus Depot", 1.2);
    ("Kurla Bus Station", 1.3); ("Borivali Bus Depot", 1.1);
    ("Ghatkopar Bus Stand", 1.0); ("Bandra Bus Stand", 1.2);
    ("Dadar Bus Terminal", 1.4); ("Malad Bus Depot", 1.0);
    ("Goregaon Bus Depot", 0.9); ("Versova Bus Stand", 0.8);
    ("DN Nagar Bus Stop", 0.9); ("Amboli Naka", 1.3);
    ("Andheri Station Signal", 1.5);
    ("Western Express Highway Junction", 1.6);
    ("Versova Junction", 1.0); ("DN Nagar Signal", 0.9);
    ("Azad Nagar Junction", 0.85); ("Ghatkopar Junction", 1.2);
    ("Airport Road Signal", 1.4); ("Marol Naka Signal", 1.3);
    ("Aarey Signal", 0.7) ]%Q.

(** [class TransportType(str, Enum)] and its [.value]. *)
Inductive TransportType : Type := metro | railway | bus | signal.

Definition value (t : TransportType) : string :=
  match t with
  | metro => "metro"
  | railway => "railway"
  | bus => "bus"
  | signal => "signal"
  end.

Definition TransportType_of (s : string) : option TransportType :=
  if String.eqb s "metro" then Some metro
  else if String.eqb s "railway" then Some railway
  else if String.eqb s "bus" then Some bus
  else if String.eqb s "signal" then Some signal
  else None.

(** *** Request validation

    [DataGenerationRequest] declares [transport_type : TransportType] and
    [days : int = Field(default=90, ge=1, le=365)].  A body that breaks a
    constraint never reaches the endpoint function: the framework answers
    with the list of offending fields. *)

Record RequestBody : Type := mkRequestBody {
  body_location_name : string;
  body_transport_type : string;
  body_days : option Z
}.

Record DataGenerationRequest : Type := mkDataGenerationRequest {
  location_name : string;
  transport_type : TransportType;
  days : Z
}.

Inductive ValidationError : Type :=
| InvalidFields (fields : list string).

Definition days_in_range (d : Z) : bool := ((1 <=? d) && (d <=? 365))%Z.

Definition validate (body : RequestBody)
  : result ValidationError DataGenerationRequest :=
  let d := match body_days body with Some d => d | None => 90 end in
  match TransportType_of (body_transport_type body), days_in_range d with
  | Some t, true => Ok (mkDataGenerationRequest (body_location_name body) t d)
  | Some _, false => Raise (InvalidFields ["days"])
  | None, true => Raise (InvalidFields ["transport_type"])
  | None, false => Raise (InvalidFields ["transport_type"; "days"])
  end.

(** *** Dates

    A [datetime] is kept as its proleptic Gregorian day number
    ([date.toordinal()]); adding [timedelta(days=k)] adds [k], and
    [weekday()] is 0 on Monday. The ['ds'] string of a row is kept as the
    day number of the date it prints. *)

Definition weekday (date : Z) : Z := (date + 6) mod 7.

(** *** NumPy

    The functions of NumPy the service calls.  [G] is the state of the
    process-wide generator behind [np.random]; each draw returns the value
    and the next state. *)

Class NumPy (G : Type) : Type := {
  (** [np.sin(2 * np.pi * w / 7)] *)
  np_sin_week : Z -> Q;
  (** the square root taken by [Series.std] *)
  np_sqrt : Q -> Q;
  (** [np.random.normal(loc, scale)] *)
  np_random_normal : Q -> Q -> G -> Q * G;
  (** [np.random.random()] *)
  np_random_random : G -> Q * G;
  (** [np.random.uniform(low, high)] *)
  np_random_uniform : Q -> Q -> G -> Q * G
}.

(** One row of the frame: ['ds'] and ['y']. *)
Record Row : Type := mkRow {
  ds : Z;
  y : Z
}.

Inductive PyError : Type :=
| KeyError (key : string)
| ValueError (message : string).

(** [str(e)]: a [KeyError] prints its key between quotes. *)
Definition error_message (e : PyError) : string :=
  match e with
  | KeyError key => "'" ++ key ++ "'"
  | ValueError message => message
  end.

Section Generator.

Context {G : Type} `{NumPy G}.

(** Body of the loop of [generate_transport_data] for one [day]. *)
Definition generate_day (base : Z) (multiplier : Q) (days start_date : Z)
           (day : Z) (g : G) : Row * G :=
  let current_date := start_date + day in
  let base_footfall := fmul (inject_Z base) multiplier in
  let base_footfall :=
    if (weekday current_date <? 5)%Z
    then fmul base_footfall 1.3
    else fmul base_footfall 0.7 in
  let month_factor :=
    fadd 1 (fmul (fdiv (inject_Z day) (inject_Z days)) 0.2) in
  let base_footfall := fmul base_footfall month_factor in
  let week_pattern :=
    fmul (np_sin_week (weekday current_date)) (fmul (inject_Z base) 0.1) in
  let '(noise, g) := np_random_normal 0 (fmul (inject_Z base) 0.05) g in
  let '(r, g) := np_random_random g in
  let '(base_footfall, g) :=
    if fltb r 0.05
    then let '(event_boost, g) := np_random_uniform 1.2 1.5 g in
         (fmul base_footfall event_boost, g)
    else (base_footfall, g) in
  let footfall := py_int (fadd (fadd base_footfall week_pattern) noise) in
  let footfall := Z.max (py_int (fmul (inject_Z base) 0.2)) footfall in
  (mkRow current_date footfall, g).

(** [range(days)]. *)
Definition py_range (n : Z) : list Z :=
  map Z.of_nat (seq 0 (Z.to_nat n)).

(** The loop, appending to [data] and threading the generator state. *)
Fixpoint generate_loop (base : Z) (multiplier : Q) (days start_date : Z)
         (range : list Z) (data : list Row) (g : G) : list Row * G :=
  match range with
  | [] => (data, g)
  | day :: rest =>
      let '(row, g) := generate_day base multiplier days start_date day g in
      generate_loop base multiplier days start_date rest (data ++ [row])%list g
  end.

(** The rows the loop appends from generator state [g] on, and the state it
    leaves: [generate_loop] without its accumulator. *)
Fixpoint rows_from (base : Z) (multiplier : Q) (days start_date : Z)
         (range : list Z) (g : G) : list Row :=
  match range with
  | [] => []
  | day :: rest =>
      let '(row, g) := generate_day base multiplier days start_date day g in
      row :: rows_from base multiplier days start_date rest g
  end.

Fixpoint state_after (base : Z) (multiplier : Q) (days start_date : Z)
         (range : list Z) (g : G) : G :=
  match range with
  | [] => g
  | day :: rest =>
      state_after base multiplier days start_date rest
                  (snd (generate_day base multiplier days start_date day g))
  end.

(** The draws of one day, in the order the loop takes them: the noise, then
    the event decision, then the boost when the event fires. *)
Definition day_draws (base : Z) (g : G) : Q * option Q :=
  let '(noise, g) := np_random_normal 0 (fmul (inject_Z base) 0.05) g in
  let '(r, g) := np_random_random g in
  if fltb r 0.05
  then (noise, Some (fst (np_random_uniform 1.2 1.5 g)))
  else (noise, None).

Fixpoint dict_subscript {V : Type} (d : list (string * V)) (k : string)
  : result PyError V :=
  match d with
  | [] => Raise (KeyError k)
  | (k', v) :: rest => if String.eqb k' k then Ok v else dict_subscript rest k
  end.

(** [generate_transport_data]; [now] is the day of [datetime.now()].  The
    start date is computed on day numbers; [datetime] computes it without
    [OverflowError] when the window lies in the calendar
    ([Spec.in_calendar]). *)
Definition generate_transport_data (now : Z)
           (location_name transport_type : string) (days : Z) (g : G)
  : result PyError (list Row) * G :=
  let start_date := now - days in
  match dict_subscript BASE_FOOTFALL transport_type with
  | Raise e => (Raise e, g)
  | Ok base =>
      let multiplier :=
        dict_get String.eqb LOCATION_MULTIPLIERS location_name 1.0%Q in
      let '(data, g) :=
        generate_loop base multiplier days start_date (py_range days) [] g in
      (Ok data, g)
  end.

(** *** Statistics of the ['y'] column, as pandas computes them *)

Fixpoint insert_sorted (x : Z) (l : list Z) : list Z :=
  match l with
  | [] => [x]
  | h :: t => if (x <=? h)%Z then x :: l else h :: insert_sorted x t
  end.

Fixpoint sort_values (l : list Z) : list Z :=
  match l with
  | [] => []
  | h :: t => insert_sorted h (sort_values t)
  end.

Definition count (l : list Z) : Q := inject_Z (Z.of_nat (List.length l)).

(** [Series.mean()]: NaN on an empty column. *)
Definition Series_mean (l : list Z) : pyfloat :=
  match l with
  | [] => NaN
  | _ :: _ => Fin (inject_Z (py_sum l) / count l)
  end.

(** [Series.median()]: the middle of the sorted values, the mean of the two
    middle ones when their number is even. *)
Definition Series_median (l : list Z) : pyfloat :=
  let s := sort_values l in
  let n := List.length s in
  match n with
  | O => NaN
  | S _ =>
      if Nat.even n
      then Fin ((inject_Z (nth (n / 2 - 1) s 0) + inject_Z (nth (n / 2) s 0)) / 2)
      else Fin (inject_Z (nth (n / 2) s 0))
  end.

(** [Series.min()] and [Series.max()]: [None] stands for the NaN of an
    empty column. *)
Definition Series_min (l : list Z) : option Z :=
  match l with
  | [] => None
  | h :: t => Some (fold_left Z.min t h)
  end.

Definition Series_max (l : list Z) : option Z :=
  match l with
  | [] => None
  | h :: t => Some (fold_left Z.max t h)
  end.

(** Sum of the squared deviations from [m]. *)
Definition sum_sq_dev (m : Q) (l : list Z) : Q :=
  fold_left (fun acc x => (acc + (inject_Z x - m) * (inject_Z x - m))%Q) l 0%Q.

(** The unbiased variance ([ddof = 1]) of a column of two values or more. *)
Definition Series_var (l : list Z) : Q :=
  let m := (inject_Z (py_sum l) / count l)%Q in
  (sum_sq_dev m l / (count l - 1))%Q.

(** [Series.std()], with the default [ddof = 1]: NaN as soon as the number
    of values is not above [ddof]. *)
Definition Series_std (l : list Z) : pyfloat :=
  if (List.length l <=? 1)%nat then NaN
  else Fin (np_sqrt (Series_var l)).

Record Statistics : Type := mkStatistics {
  mean : pyfloat;
  median : pyfloat;
  min : Z;
  max : Z;
  std : pyfloat
}.

(** [df['y']]: a frame built from no rows has no column. *)
Definition column_y (df : list Row) : result PyError (list Z) :=
  match df with
  | [] => Raise (KeyError "y")
  | _ :: _ => Ok (map y df)
  end.

(** [int(x)] of a reduction that may be NaN. *)
Definition int_of (x : option Z) : result PyError Z :=
  match x with
  | Some z => Ok z
  | None => Raise (ValueError "cannot convert float NaN to integer")
  end.

(** The [stats] dictionary of [generate_data]. *)
Definition statistics_of (df : list Row) : result PyError Statistics :=
  bind (column_y df) (fun col =>
  bind (int_of (Series_min col)) (fun mn =>
  bind (int_of (Series_max col)) (fun mx =>
  Ok {| mean := Series_mean col;
        median := Series_median col;
        min := mn;
        max := mx;
        std := Series_std col |}))).

Record GenerateResponse : Type := mkGenerateResponse {
  r_success : bool;
  r_location : string;
  r_transport_type : string;
  r_days : Z;
  r_records : Z;
  r_statistics : Statistics;
  r_data : list Row
}.

(** [POST /api/generate/data] on a validated request. *)
Definition generate_data (now : Z) (request : DataGenerationRequest) (g : G)
  : result HTTPException GenerateResponse * G :=
  let '(df, g) :=
    generate_transport_data now (location_name request)
                            (value (transport_type request))
                            (days request) g in
  match bind df (fun df => bind (statistics_of df) (fun stats => Ok (df, stats))) with
  | Ok (df, stats) =>
      (Ok {| r_success := true;
             r_location := location_name request;
             r_transport_type := value (transport_type request);
             r_days := days request;
             r_records := Z.of_nat (List.length df);
             r_statistics := stats;
             r_data := df |}, g)
  | Raise e => (Raise (mkHTTPException 500 (error_message e)), g)
  end.

(** What a caller of the service gets for a request body. *)
Inductive Answer : Type :=
| Rejected (e : ValidationError)
| Handled (r : result HTTPException GenerateResponse).

Definition post_generate_data (now : Z) (body : RequestBody) (g : G)
  : Answer * G :=
  match validate body with
  | Raise e => (Rejected e, g)
  | Ok request =>
      let '(r, g) := generate_data now request g in (Handled r, g)
  end.

End Generator.

End DataGen.

(** ** A scripted NumPy

    A concrete [NumPy] to run the model on: every random draw pops the next
    value of a script.  Once the script is used up a normal draw is its mean,
    [random()] is 0.5 and a uniform draw is its lower bound.  The weekly sine
    is tabulated to 16 digits and the square root is taken to 52 binary
    places. *)

Module Scripted.

Import DataGen.

Definition sin_week_table (w : Z) : Q :=
  match w with
  | 0%Z => 0
  | 1%Z => 0.7818314824680298
  | 2%Z => 0.9749279121818236
  | 3%Z => 0.43388373911755823
  | 4%Z => -0.433883739117558
  | 5%Z => -0.9749279121818236
  | _ => -0.7818314824680299
  end%Q.

Definition sqrt_fixed (q : Q) : Q :=
  (inject_Z (Z.sqrt (Qfloor (q * inject_Z (2 ^ 104)))) / inject_Z (2 ^ 52))%Q.

Definition draw (default : Q) (script : list Q) : Q * list Q :=
  match script with
  | [] => (default, [])
  | x :: rest => (x, rest)
  end.

#[export] Instance scripted_numpy : NumPy (list Q) := {|
  np_sin_week := sin_week_table;
  np_sqrt := sqrt_fixed;
  np_random_normal := fun loc _ => draw loc;
  np_random_random := draw 0.5%Q;
  np_random_uniform := fun low _ => draw low
|}.

End Scripted.

(** ** The prediction service, [src/main.py] *)

Module Prediction.

Local Open Scope string_scope.

Definition DATA_GEN_SERVICE_URL : string :=
  "https://traffic-data-genrator.onrender.com".

Definition METRO_STATIONS : list string :=
  [ "Ghatkopar"; "Andheri"; "Versova"; "Aarey"; "Dahisar East";
    "DN Nagar"; "Azad Nagar"; "Western Express Highway"; "Marol Naka";
    "Airport Road" ].

Definition RAILWAY_STATIONS : list string :=
  [ "Andheri West"; "Bandra"; "Dadar"; "Borivali"; "Malad";
    "Goregaon"; "Jogeshwari"; "Vile Parle"; "Santa Cruz"; "Khar Road" ].

Definition BUS_STATIONS : list string :=
  [ "Andheri Bus Depot"; "Kurla Bus Station"; "Borivali Bus Depot";
    "Ghatkopar Bus Stand"; "Bandra Bus Stand"; "Dadar Bus Terminal";
    "Malad Bus Depot"; "Goregaon Bus Depot"; "Versova Bus Stand";
    "DN Nagar Bus Stop" ].

Definition TRAFFIC_SIGNALS : list string :=
  [ "Amboli Naka"; "Andheri Station Signal";
    "Western Express Highway Junction"; "Versova Junction";
    "DN Nagar Signal"; "Azad Nagar Junction"; "Ghatkopar Junction";
    "Airport Road Signal"; "Marol Naka Signal"; "Aarey Signal" ].

(** [AREA_MAPPING]: area name to (transport type key, member names), both
    levels in the order of the dictionary literal. *)
Definition AREA_MAPPING : list (string * list (string * list string)) :=
  [ ("Andheri",
     [ ("metro", ["Andheri"]);
       ("railway", ["Andheri West"]);
       ("bus", ["Andheri Bus Depot"]);
       ("signals", ["Andheri Station Signal"; "Amboli Naka"]) ]);
    ("Versova",
     [ ("metro", ["Versova"]);
       ("railway", []);
       ("bus", ["Versova Bus Stand"]);
       ("signals", ["Versova Junction"]) ]);
    ("Ghatkopar",
     [ ("metro", ["Ghatkopar"]);
       ("railway", []);
       ("bus", ["Ghatkopar Bus Stand"]);
       ("signals", ["Ghatkopar Junction"]) ]);
    ("DN Nagar",
     [ ("metro", ["DN Nagar"]);
       ("railway", []);
       ("bus", ["DN Nagar Bus Stop"]);
       ("signals", ["DN Nagar Signal"]) ]);
    ("Bandra",
     [ ("metro", []);
       ("railway", ["Bandra"]);
       ("bus", ["Bandra Bus Stand"]);
       ("signals", []) ]);
    ("Dadar",
     [ ("metro", []);
       ("railway", ["Dadar"]);
       ("bus", ["Dadar Bus Terminal"]);
       ("signals", []) ]);
    ("Borivali",
     [ ("metro", []);
       ("railway", ["Borivali"]);
       ("bus", ["Borivali Bus Depot"]);
       ("signals", []) ]) ].

Definition HOUR_MULTIPLIERS : list (Z * Q) :=
  [ (0%Z, 0.3); (1%Z, 0.2); (2%Z, 0.2); (3%Z, 0.2); (4%Z, 0.3); (5%Z, 0.4);
    (6%Z, 0.5); (7%Z, 0.8); (8%Z, 1.3); (9%Z, 1.5); (10%Z, 1.2); (11%Z, 1.0);
    (12%Z, 0.9); (13%Z, 0.8); (14%Z, 0.7); (15%Z, 0.8); (16%Z, 0.9); (17%Z, 1.2);
    (18%Z, 1.5); (19%Z, 1.4); (20%Z, 1.2); (21%Z, 0.9); (22%Z, 0.7); (23%Z, 0.5) ]%Q.

Definition TRANSPORT_MULTIPLIERS : list (string * Q) :=
  [ ("metro", 1.0); ("railway", 1.3); ("bus", 0.8); ("signal", 1.2) ]%Q.

(** The three strings ['Low'], ['Medium'], ['High'] the estimator returns. *)
Inductive CongestionLevel : Type := Low | Medium | High.

Definition level_name (l : CongestionLevel) : string :=
  match l with
  | Low => "Low"
  | Medium => "Medium"
  | High => "High"
  end.

Definition get_transport_type (location_name : string) : option string :=
  if str_in location_name METRO_STATIONS then Some "metro"
  else if str_in location_name RAILWAY_STATIONS then Some "railway"
  else if str_in location_name BUS_STATIONS then Some "bus"
  else if str_in location_name TRAFFIC_SIGNALS then Some "signal"
  else None.

Definition calculate_congestion_level
           (footfall : Z) (transport_type : string) (multiplier : Q)
  : CongestionLevel :=
  let transport_factor :=
    dict_get String.eqb TRANSPORT_MULTIPLIERS transport_type 1.0%Q in
  let adjusted_footfall := (inject_Z footfall * transport_factor)%Q in
  if Qltb 1.2 multiplier && Qltb 5000 adjusted_footfall then High
  else if Qltb 0.9 multiplier && Qltb 3000 adjusted_footfall then Medium
  else Low.

(** [calculate_current_footfall]; [current_hour] is [datetime.now().hour]. *)
Definition calculate_current_footfall (current_hour : Z) (base_footfall : Q)
  : Z * Q :=
  let multiplier := dict_get Z.eqb HOUR_MULTIPLIERS current_hour 0.8%Q in
  (py_int (fmul base_footfall multiplier), multiplier).

(** The estimate of one location as the three endpoints compute it from the
    hour multiplier: [int(base_footfall * multiplier)], then the level. *)
Definition estimate_at (multiplier : Q) (transport_type : string)
           (base_footfall : Q) : Z * CongestionLevel :=
  let current_footfall := py_int (fmul base_footfall multiplier) in
  (current_footfall,
   calculate_congestion_level current_footfall transport_type multiplier).

(** The same through [calculate_current_footfall], as
    [get_location_prediction] does at the hour [current_hour]. *)
Definition estimate (base_footfall : Q) (transport_type : string)
           (current_hour : Z) : Z * CongestionLevel :=
  let '(current_footfall, multiplier) :=
    calculate_current_footfall current_hour base_footfall in
  (current_footfall,
   calculate_congestion_level current_footfall transport_type multiplier).

(** *** The sibling service seen from here

    [httpx] either delivers the JSON body, fails to reach the service
    ([httpx.RequestError]) or gets an error status ([httpx.HTTPStatusError]
    out of [raise_for_status]). *)

Inductive Method : Type := GET | POST.

(** The [json_data] of [POST /api/generate/data]. *)
Record LocationQuery : Type := mkLocationQuery {
  q_location_name : string;
  q_transport_type : string;
  q_days : Z
}.

(** The fields this service reads in a reply: [data.get("success")] and
    [data["statistics"]["mean"]], a finite float.  Replies in which these
    cannot be read are outside the model, and with them the
    [except Exception] branches of the endpoints, which only such a reply or
    an overflowing product can reach. *)
Record GeneratorReply : Type := mkGeneratorReply {
  success : bool;
  statistics_mean : Q
}.

Inductive HttpOutcome : Type :=
| Responded (body : GeneratorReply)
| RequestError
| HTTPStatusError (status : Z) (message : string).

Definition HttpClient : Type :=
  string -> Method -> option LocationQuery -> HttpOutcome.

Definition call_data_generator (client : HttpClient) (endpoint : string)
           (method : Method) (json_data : option LocationQuery)
  : result HTTPException GeneratorReply :=
  let url := DATA_GEN_SERVICE_URL ++ endpoint in
  match client url method json_data with
  | Responded body => Ok body
  | RequestError =>
      Raise (mkHTTPException 503 "Data generator service unavailable")
  | HTTPStatusError status message =>
      Raise (mkHTTPException status message)
  end.

(** [get_location_data]: every exception of the call is logged and turned
    into [None]. *)
Definition get_location_data (client : HttpClient)
           (location_name transport_type : string) (days : Z)
  : option GeneratorReply :=
  match call_data_generator client "/api/generate/data" POST
          (Some (mkLocationQuery location_name transport_type days)) with
  | Ok data => Some data
  | Raise _ => None
  end.

(** [if data and data.get("success")]. *)
Definition usable (data : option GeneratorReply) : option GeneratorReply :=
  match data with
  | Some d => if success d then Some d else None
  | None => None
  end.

Record LocationPrediction : Type := mkLocationPrediction {
  lp_location : string;
  lp_transport_type : string;
  lp_current_footfall : Z;
  lp_base_daily_footfall : Z;
  lp_congestion_level : CongestionLevel;
  lp_current_hour : Z
}.

(** [GET /api/location/{location_name}]; [current_hour] is the clock. *)
Definition get_location_prediction (client : HttpClient) (current_hour : Z)
           (location_name : string)
  : result HTTPException LocationPrediction :=
  match get_transport_type location_name with
  | None => Raise (mkHTTPException 404 "Location not found")
  | Some transport_type =>
      match usable (get_location_data client location_name transport_type 90) with
      | None => Raise (mkHTTPException 404 "Data not available")
      | Some data =>
          let base_footfall := statistics_mean data in
          let '(current_footfall, multiplier) :=
            calculate_current_footfall current_hour base_footfall in
          let congestion :=
            calculate_congestion_level current_footfall transport_type multiplier in
          Ok {| lp_location := location_name;
                lp_transport_type := transport_type;
                lp_current_footfall := current_footfall;
                lp_base_daily_footfall := py_int base_footfall;
                lp_congestion_level := congestion;
                lp_current_hour := current_hour |}
      end
  end.

(** [{'High': 3, 'Medium': 2, 'Low': 1}.get(congestion, 1)]. *)
Definition level_score (congestion : CongestionLevel) : Z :=
  match congestion with
  | High => 3
  | Medium => 2
  | Low => 1
  end.

Record Component : Type := mkComponent {
  c_location : string;
  c_type : string;
  c_footfall : Z;
  c_congestion : CongestionLevel
}.

Record AreaPrediction : Type := mkAreaPrediction {
  a_area : string;
  a_overall_congestion : CongestionLevel;
  a_congestion_score : Q;
  a_current_hour : Z;
  a_components : list Component
}.

(** Loop state of [get_area_prediction]: the two lists it appends to. *)
Definition AreaAcc : Type := (list Z * list Component)%type.

(** Body of the inner loop, for one member [location]. *)
Definition area_member (client : HttpClient) (multiplier : Q)
           (transport_type : string) (acc : AreaAcc) (location : string)
  : AreaAcc :=
  match usable (get_location_data client location transport_type 90) with
  | Some data =>
      let base_footfall := statistics_mean data in
      let current_footfall := py_int (fmul base_footfall multiplier) in
      let congestion :=
        calculate_congestion_level current_footfall transport_type multiplier in
      let score := level_score congestion in
      ((fst acc ++ [score])%list,
       (snd acc ++ [mkComponent location transport_type
                                current_footfall congestion])%list)
  | None => acc
  end.

(** Both loops over [area_data.items()]. *)
Definition area_collect (client : HttpClient) (multiplier : Q)
           (area_data : list (string * list string)) : AreaAcc :=
  fold_left
    (fun acc item =>
       fold_left (area_member client multiplier (fst item)) (snd item) acc)
    area_data ([], []).

(** The part of [get_area_prediction] after the loops. *)
Definition area_aggregate (area_name : string) (current_hour : Z)
           (acc : AreaAcc) : result HTTPException AreaPrediction :=
  let '(congestion_scores, components) := acc in
  match congestion_scores with
  | [] => Raise (mkHTTPException 404 "No data available for this area")
  | _ :: _ =>
      let avg_score :=
        (inject_Z (py_sum congestion_scores)
         / inject_Z (Z.of_nat (List.length congestion_scores)))%Q in
      let overall_congestion :=
        if Qle_bool 2.5 avg_score then High
        else if Qle_bool 1.5 avg_score then Medium
        else Low in
      Ok {| a_area := area_name;
            a_overall_congestion := overall_congestion;
            a_congestion_score := py_round2 avg_score;
            a_current_hour := current_hour;
            a_components := components |}
  end.

Fixpoint dict_lookup {V : Type} (d : list (string * V)) (k : string)
  : option V :=
  match d with
  | [] => None
  | (k', v) :: rest => if String.eqb k' k then Some v else dict_lookup rest k
  end.

(** [GET /api/area/{area_name}]. *)
Definition get_area_prediction (client : HttpClient) (current_hour : Z)
           (area_name : string) : result HTTPException AreaPrediction :=
  match dict_lookup AREA_MAPPING area_name with
  | None => Raise (mkHTTPException 404 "Area not found")
  | Some area_data =>
      let multiplier := dict_get Z.eqb HOUR_MULTIPLIERS current_hour 0.8%Q in
      area_aggregate area_name current_hour
                     (area_collect client multiplier area_data)
  end.

End Prediction.

(** ** Scripted collaborators

    Concrete [HttpClient]s to run the endpoints on. *)

Module ScriptedService.

Import Prediction.

Local Open Scope string_scope.

(** The sibling service cannot be reached. *)
Definition down_client : HttpClient :=
  fun _ _ _ => RequestError.

(** Every location answers; the mean is 6000 at Bandra and 2000 elsewhere. *)
Definition bandra_client : HttpClient :=
  fun _ _ json_data =>
    match json_data with
    | Some q =>
        if String.eqb (q_location_name q) "Bandra"
        then Responded (mkGeneratorReply true 6000)
        else Responded (mkGeneratorReply true 2000)
    | None => RequestError
    end.

(** Only Bandra answers; every other fetch fails. *)
Definition bandra_only_client : HttpClient :=
  fun _ _ json_data =>
    match json_data with
    | Some q =>
        if String.eqb (q_location_name q) "Bandra"
        then Responded (mkGeneratorReply true 6000)
        else RequestError
    | None => RequestError
    end.

End ScriptedService.

(** ** The specification's vocabulary

    Definitions that follow the words of the specification, to be compared
    with the embedded code. *)

Module Spec.

Import DataGen Prediction.

(** The fixed transport table: metro 1.0, railway 1.3, bus 0.8, signal 1.2. *)
Definition TRANSPORT_MULTIPLIER (t : TransportType) : Q :=
  match t with
  | metro => 1.0
  | railway => 1.3
  | bus => 0.8
  | signal => 1.2
  end.

(** The base footfall constant of a transport type ([base_raw]). *)
Definition base_raw (t : TransportType) : Z :=
  match t with
  | metro => 5000
  | railway => 8000
  | bus => 3000
  | signal => 4000
  end.

(** The value accumulated for day [d] before the integer conversion: the
    base times the location multiplier, times 1.3 on weekdays or 0.7 on
    weekends, times the seasonal factor, times the event boost when it
    fires, plus the weekly term and the noise, each operation on doubles. *)
Definition accumulated_value (base_raw : Z) (location_multiplier : Q)
           (days d weekday : Z) (weekly_term noise : Q)
           (event_boost : option Q) : Q :=
  let shaped :=
    fmul (fmul (fmul (inject_Z base_raw) location_multiplier)
               (if (weekday <? 5)%Z then 1.3 else 0.7)%Q)
         (fadd 1 (fmul (fdiv (inject_Z d) (inject_Z days)) 0.2)) in
  let boosted :=
    match event_boost with
    | Some b => fmul shaped b
    | None => shaped
    end in
  fadd (fadd boosted weekly_term) noise.

(** A base footfall within the doubles, small enough for its product with an
    hour multiplier (at most 1.5) to stay below the largest double: the
    product does not overflow to infinity. *)
Definition footfall_in_range (base_footfall : Q) : Prop :=
  (Qabs base_footfall <= pow2 1023)%Q.

(** The start date of a request lies in the calendar: [datetime.now()] and
    [datetime.now() - timedelta(days=days)] are dates between day 1 and day
    3652059, and [days] is a day count [timedelta] accepts. *)
Definition in_calendar (now days : Z) : Prop :=
  1 <= now <= 3652059
  /\ 1 <= now - days <= 3652059
  /\ -999999999 <= days <= 999999999.

(** A float that is the number [q]. *)
Definition float_is (f : pyfloat) (q : Q) : Prop :=
  match f with
  | Fin x => (x == q)%Q
  | NaN => False
  end.

(** Sum of a column and of its squared deviations from [m]. *)
Definition total (l : list Z) : Z := fold_right Z.add 0 l.

Definition sq_dev_total (m : Q) (l : list Z) : Q :=
  fold_right (fun x acc => ((inject_Z x - m) * (inject_Z x - m) + acc)%Q) 0%Q l.

(** The members of an area, each with the transport type key it is listed
    under, in the order the endpoint visits them. *)
Definition members (area_data : list (string * list string))
  : list (string * string) :=
  flat_map (fun item => map (pair (fst item)) (snd item)) area_data.

(** What the collaborator answers to the statistics request of a member:
    the reply when the call came back with one that reports success,
    nothing when the service could not be reached, answered an error status
    or reported a failure. *)
Definition fetched (client : HttpClient) (member : string * string)
  : option GeneratorReply :=
  match client (DATA_GEN_SERVICE_URL ++ "/api/generate/data")%string POST
               (Some (mkLocationQuery (snd member) (fst member) 90)) with
  | Responded body => if success body then Some body else None
  | RequestError => None
  | HTTPStatusError _ _ => None
  end.

(** The statistics fetch of a member fails: the service cannot be reached,
    answers an error status, or replies without reporting success. *)
Definition fetch_failed (client : HttpClient) (member : string * string)
  : Prop :=
  let outcome :=
    client (DATA_GEN_SERVICE_URL ++ "/api/generate/data")%string POST
           (Some (mkLocationQuery (snd member) (fst member) 90)) in
  outcome = RequestError
  \/ (exists status message, outcome = HTTPStatusError status message)
  \/ (exists body, outcome = Responded body /\ success body = false).

(** Every reply of the collaborator carries a mean within the range of
    [footfall_in_range]. *)
Definition replies_in_range (client : HttpClient) : Prop :=
  forall (url : string) (method : Method) (json_data : option LocationQuery)
         (body : GeneratorReply),
    client url method json_data = Responded body ->
    footfall_in_range (statistics_mean body).

(** The statistics fetch of a member succeeded. *)
Definition fetch_ok (client : HttpClient) (member : string * string) : bool :=
  match fetched client member with
  | Some _ => true
  | None => false
  end.

(** The members that returned data. *)
Definition survivors (client : HttpClient)
           (area_data : list (string * list string)) : list (string * string) :=
  filter (fetch_ok client) (members area_data).

(** The component of a member that returned data. *)
Definition member_component (client : HttpClient) (multiplier : Q)
           (member : string * string) : option Component :=
  match fetched client member with
  | Some data =>
      let e := estimate_at multiplier (fst member) (statistics_mean data) in
      Some (mkComponent (snd member) (fst member) (fst e) (snd e))
  | None => None
  end.

Definition component_list (c : option Component) : list Component :=
  match c with
  | Some c => [c]
  | None => []
  end.

(** Level codes Low 1, Medium 2, High 3 and their arithmetic mean. *)
Definition level_code (level : CongestionLevel) : Z :=
  match level with
  | Low => 1
  | Medium => 2
  | High => 3
  end.

Definition level_codes (components : list Component) : list Z :=
  map (fun c => level_code (c_congestion c)) components.

Definition mean_score (components : list Component) : Q :=
  (inject_Z (total (level_codes components))
   / inject_Z (Z.of_nat (List.length components)))%Q.

(** Low < Medium < High. *)
Definition level_le (a b : CongestionLevel) : Prop :=
  level_score a <= level_score b.



End Spec.

(** ** The data generator service: catalogue, files and bulk generation *)

Module DataGenFiles.

Import DataGen.

Local Open Scope string_scope.

Definition METRO_STATIONS : list string :=
  [ "Ghatkopar"; "Andheri"; "Versova"; "Aarey"; "Dahisar East";
    "DN Nagar"; "Azad Nagar"; "Western Express Highway"; "Marol Naka";
    "Airport Road" ].

Definition RAILWAY_STATIONS : list string :=
  [ "Andheri West"; "Bandra"; "Dadar"; "Borivali"; "Malad";
    "Goregaon"; "Jogeshwari"; "Vile Parle"; "Santa Cruz"; "Khar Road" ].

Definition BUS_STATIONS : list string :=
  [ "Andheri Bus Depot"; "Kurla Bus Station"; "Borivali Bus Depot";
    "Ghatkopar Bus Stand"; "Bandra Bus Stand"; "Dadar Bus Terminal";
    "Malad Bus Depot"; "Goregaon Bus Depot"; "Versova Bus Stand";
    "DN Nagar Bus Stop" ].

Definition TRAFFIC_SIGNALS : list string :=
  [ "Amboli Naka"; "Andheri Station Signal";
    "Western Express Highway Junction"; "Versova Junction";
    "DN Nagar Signal"; "Azad Nagar Junction"; "Ghatkopar Junction";
    "Airport Road Signal"; "Marol Naka Signal"; "Aarey Signal" ].

(** One entry of [GET /api/locations]. *)
Record LocationEntry : Type := mkLocationEntry {
  e_name : string;
  e_type : string;
  e_base_footfall : Z;
  e_multiplier : Q
}.

(** One of the four list comprehensions of [get_all_locations]:
    [BASE_FOOTFALL[kind]] is subscripted, the multiplier is read with the
    default 1.0. *)
Definition location_entries (kind : string) (stations : list string)
  : result PyError (list LocationEntry) :=
  match dict_subscript BASE_FOOTFALL kind with
  | Raise e => Raise e
  | Ok base =>
      Ok (map (fun station =>
                 mkLocationEntry station kind base
                   (dict_get String.eqb LOCATION_MULTIPLIERS station 1.0%Q))
              stations)
  end.

Record Locations : Type := mkLocations {
  metro_stations : list LocationEntry;
  railway_stations : list LocationEntry;
  bus_stations : list LocationEntry;
  traffic_signals : list LocationEntry
}.

(** [GET /api/locations]. *)
Definition get_all_locations : result PyError Locations :=
  bind (location_entries "metro" METRO_STATIONS) (fun m =>
  bind (location_entries "railway" RAILWAY_STATIONS) (fun r =>
  bind (location_entries "bus" BUS_STATIONS) (fun b =>
  bind (location_entries "signal" TRAFFIC_SIGNALS) (fun s =>
  Ok (mkLocations m r b s))))).

(** *** File names

    [s.replace(' ', '_').lower()] on a name written in ASCII: every space
    becomes an underscore, every capital its small letter. *)

Definition is_ascii_char (c : ascii) : bool := (nat_of_ascii c <? 128)%nat.

Fixpoint is_ascii (s : string) : bool :=
  match s with
  | EmptyString => true
  | String c rest => is_ascii_char c && is_ascii rest
  end.

Definition is_upper (c : ascii) : bool :=
  ((65 <=? nat_of_ascii c) && (nat_of_ascii c <=? 90))%nat.

Definition replace_space_char (c : ascii) : ascii :=
  if Ascii.eqb c " " then "_"%char else c.

Definition lower_char (c : ascii) : ascii :=
  if is_upper c then ascii_of_nat (nat_of_ascii c + 32) else c.

Fixpoint str_map (f : ascii -> ascii) (s : string) : string :=
  match s with
  | EmptyString => EmptyString
  | String c rest => String (f c) (str_map f rest)
  end.

Definition replace_space (s : string) : string := str_map replace_space_char s.

Definition lower (s : string) : string := str_map lower_char s.

(** [f"data_{kind}_{name.replace(' ', '_').lower()}.csv"]. *)
Definition csv_filename (kind name : string) : string :=
  "data_" ++ kind ++ "_" ++ lower (replace_space name) ++ ".csv".

(** *** Bulk requests *)

Record BulkBody : Type := mkBulkBody {
  bulk_body_days : option Z;
  body_include_metro : option bool;
  body_include_railway : option bool;
  body_include_bus : option bool;
  body_include_signals : option bool
}.

Record BulkGenerationRequest : Type := mkBulkGenerationRequest {
  bulk_days : Z;
  include_metro : bool;
  include_railway : bool;
  include_bus : bool;
  include_signals : bool
}.

Definition flag (b : option bool) : bool :=
  match b with
  | Some b => b
  | None => true
  end.

(** The constraints of [BulkGenerationRequest]: [days] defaults to 90 and is
    kept in [1, 365]; every flag defaults to [True]. *)
Definition validate_bulk (body : BulkBody)
  : result ValidationError BulkGenerationRequest :=
  let d := match bulk_body_days body with Some d => d | None => 90%Z end in
  if days_in_range d
  then Ok (mkBulkGenerationRequest d
             (flag (body_include_metro body))
             (flag (body_include_railway body))
             (flag (body_include_bus body))
             (flag (body_include_signals body)))
  else Raise (InvalidFields ["days"]).

(** The files of the working directory written so far, oldest first; a later
    write under the same name replaces the earlier file. *)
Definition Disk : Type := list (string * list Row).

Fixpoint read_file (disk : Disk) (filename : string) : option (list Row) :=
  match disk with
  | [] => None
  | (name, df) :: rest =>
      match read_file rest filename with
      | Some later => Some later
      | None => if String.eqb name filename then Some df else None
      end
  end.

Record BulkState (G : Type) : Type := mkBulkState {
  disk : Disk;
  generated_files : list string;
  rng : G
}.
Arguments mkBulkState {G} _ _ _.
Arguments disk {G} _.
Arguments generated_files {G} _.
Arguments rng {G} _.

Record BulkResponse : Type := mkBulkResponse {
  b_success : bool;
  b_total_files : Z;
  b_files : list string;
  b_days_per_file : Z
}.

Section Files.

Context {G : Type} `{NumPy G}.


(** Body of one of the four loops of [generate_all_data], for one station:
    generate, write the file, remember its name. *)
Definition bulk_station (now : Z) (kind : string) (days : Z)
           (st : BulkState G) (station : string)
  : result PyError (BulkState G) :=
  match generate_transport_data now station kind days (rng st) with
  | (Ok df, g) =>
      let filename := csv_filename kind station in
      Ok (mkBulkState (disk st ++ [(filename, df)])%list
                      (generated_files st ++ [filename])%list
                      g)
  | (Raise e, _) => Raise e
  end.

(** One loop: it stops at the first exception. *)
Fixpoint bulk_group (now : Z) (kind : string) (days : Z)
         (stations : list string) (st : BulkState G)
  : result PyError (BulkState G) :=
  match stations with
  | [] => Ok st
  | station :: rest =>
      bind (bulk_station now kind days st station)
           (bulk_group now kind days rest)
  end.

Definition bulk_if (include : bool) (now : Z) (kind : string) (days : Z)
           (stations : list string) (st : BulkState G)
  : result PyError (BulkState G) :=
  if include then bulk_group now kind days stations st else Ok st.

(** [POST /api/generate/all] on a validated request, from the files on
    [disk0]: the response and the state it leaves. *)
Definition generate_all_data (now : Z) (request : BulkGenerationRequest)
           (disk0 : Disk) (g : G)
  : result HTTPException (BulkResponse * BulkState G) :=
  let days := bulk_days request in
  match
    bind (bulk_if (include_metro request) now "metro" days METRO_STATIONS
                  (mkBulkState disk0 [] g)) (fun st =>
    bind (bulk_if (include_railway request) now "railway" days
                  RAILWAY_STATIONS st) (fun st =>
    bind (bulk_if (include_bus request) now "bus" days BUS_STATIONS st)
         (fun st =>
    bulk_if (include_signals request) now "signal" days TRAFFIC_SIGNALS st)))
  with
  | Ok st =>
      Ok ({| b_success := true;
             b_total_files := Z.of_nat (List.length (generated_files st));
             b_files := generated_files st;
             b_days_per_file := days |}, st)
  | Raise e => Raise (mkHTTPException 500 (error_message e))
  end.

End Files.

End DataGenFiles.

(** ** The prediction service: the collection endpoints *)

Module PredictionBulk.

Import Prediction.

Local Open Scope string_scope.

Record AllAreas : Type := mkAllAreas {
  areas : list AreaPrediction;
  total_areas : Z
}.

(** [GET /api/areas/all]: every exception of an area is logged and the area
    left out. *)
Definition get_all_areas_congestion (client : HttpClient) (current_hour : Z)
  : AllAreas :=
  let results :=
    fold_left
      (fun results area_name =>
         match get_area_prediction client current_hour area_name with
         | Ok area_data => (results ++ [area_data])%list
         | Raise _ => results
         end)
      (map fst AREA_MAPPING) [] in
  mkAllAreas results (Z.of_nat (List.length results)).

Record TypeLocation : Type := mkTypeLocation {
  t_location : string;
  t_footfall : Z;
  t_congestion : CongestionLevel
}.

Record TypeData : Type := mkTypeData {
  td_transport_type : string;
  td_locations : list TypeLocation;
  td_total_locations : Z;
  td_current_hour : Z
}.

Definition type_map : list (string * list string) :=
  [ ("metro", METRO_STATIONS); ("railway", RAILWAY_STATIONS);
    ("bus", BUS_STATIONS); ("signal", TRAFFIC_SIGNALS) ].

(** Body of the loop of [get_transport_type_data]. *)
Definition type_member (client : HttpClient) (multiplier : Q)
           (transport_type : string) (results : list TypeLocation)
           (location : string) : list TypeLocation :=
  match usable (get_location_data client location transport_type 90) with
  | Some data =>
      let base_footfall := statistics_mean data in
      let current_footfall := py_int (fmul base_footfall multiplier) in
      let congestion :=
        calculate_congestion_level current_footfall transport_type multiplier in
      (results ++ [mkTypeLocation location current_footfall congestion])%list
  | None => results
  end.

(** [GET /api/transport/{transport_type}]. *)
Definition get_transport_type_data (client : HttpClient) (current_hour : Z)
           (transport_type : string) : result HTTPException TypeData :=
  match dict_lookup type_map transport_type with
  | None | Some [] => Raise (mkHTTPException 404 "Invalid transport type")
  | Some locations =>
      let multiplier := dict_get Z.eqb HOUR_MULTIPLIERS current_hour 0.8%Q in
      let results :=
        fold_left (type_member client multiplier transport_type) locations [] in
      Ok {| td_transport_type := transport_type;
            td_locations := results;
            td_total_locations := Z.of_nat (List.length results);
            td_current_hour := current_hour |}
  end.

End PredictionBulk.

(** ** The two services on the wire

    The JSON object [get_location_data] posts has the keys of the model
    [DataGenerationRequest] parses: [location_name], [transport_type] and
    [days]. *)

Module Wire.

Definition request_body (q : Prediction.LocationQuery) : DataGen.RequestBody :=
  DataGen.mkRequestBody (Prediction.q_location_name q)
                        (Prediction.q_transport_type q)
                        (Some (Prediction.q_days q)).

(** The client relays the generator's validation: a body the generator
    rejects comes back as an error status. *)
Definition relays_validation (client : Prediction.HttpClient) : Prop :=
  forall (url : string) (q : Prediction.LocationQuery)
         (e : DataGen.ValidationError),
    DataGen.validate (request_body q) = Raise e ->
    exists (status : Z) (message : string),
      client url Prediction.POST (Some q)
      = Prediction.HTTPStatusError status message.

(** The client answers every body the generator accepts with a reply that
    reports success and carries a mean within range. *)
Definition accepts_valid (client : Prediction.HttpClient) : Prop :=
  forall (url : string) (q : Prediction.LocationQuery)
         (request : DataGen.DataGenerationRequest),
    DataGen.validate (request_body q) = Ok request ->
    exists body : Prediction.GeneratorReply,
      client url Prediction.POST (Some q) = Prediction.Responded body
      /\ Prediction.success body = true
      /\ Spec.footfall_in_range (Prediction.statistics_mean body).

(** A client that answers 422 to what the generator rejects and a mean of
    6000 to everything else. *)
Definition validating_client : Prediction.HttpClient :=
  fun _ _ json_data =>
    match json_data with
    | Some q =>
        match DataGen.validate (request_body q) with
        | Ok _ => Prediction.Responded (Prediction.mkGeneratorReply true 6000)
        | Raise _ => Prediction.HTTPStatusError 422 "Unprocessable Entity"
        end
    | None => Prediction.RequestError
    end.

End Wire.

(** * Properties *)

(** ** Python numerics *)

Module PyFacts.

Lemma Qltb_true (x y : Q) : Qltb x y = true <-> (x < y)%Q.
Proof.
  unfold Qltb. rewrite negb_true_iff.
  split; intro Hxy.
  - apply Qnot_le_lt. intro Hle. apply Qle_bool_iff in Hle. congruence.
  - destruct (Qle_bool y x) eqn:E; [|reflexivity].
    apply Qle_bool_iff in E. exfalso. exact (Qlt_not_le _ _ Hxy E).
Qed.

Lemma Qltb_false (x y : Q) : Qltb x y = false <-> (y <= x)%Q.
Proof.
  unfold Qltb. rewrite negb_false_iff. apply Qle_bool_iff.
Qed.

Lemma Qle_bool_false (x y : Q) : Qle_bool x y = false <-> (y < x)%Q.
Proof.
  split; intro Hxy.
  - apply Qnot_le_lt. intro Hle. apply Qle_bool_iff in Hle. congruence.
  - destruct (Qle_bool x y) eqn:E; [|reflexivity].
    apply Qle_bool_iff in E. exfalso. exact (Qlt_not_le _ _ Hxy E).
Qed.

Lemma py_int_comp (x y : Q) : (x == y)%Q -> py_int x = py_int y.
Proof.
  intro Hxy. unfold py_int, Qceiling.
  assert (Hb : Qle_bool 0 x = Qle_bool 0 y).
  { destruct (Qle_bool 0 x) eqn:Ex; destruct (Qle_bool 0 y) eqn:Ey; auto.
    - apply Qle_bool_iff in Ex. apply Qle_bool_false in Ey. lra.
    - apply Qle_bool_iff in Ey. apply Qle_bool_false in Ex. lra. }
  rewrite Hb. destruct (Qle_bool 0 y).
  - now apply Qfloor_comp.
  - f_equal. apply Qfloor_comp. now rewrite Hxy.
Qed.

Lemma py_int_nonpos (x : Q) : (x <= 0)%Q -> py_int x <= 0.
Proof.
  intro Hx. unfold py_int.
  destruct (Qle_bool 0 x) eqn:E.
  - change 0 with (Qfloor 0). now apply Qfloor_resp_le.
  - change 0 with (Qceiling 0). now apply Qceiling_resp_le.
Qed.

(** Truncation never moves a value across an integer. *)
Lemma py_int_mono (x y : Q) : (x <= y)%Q -> py_int x <= py_int y.
Proof.
  intro Hxy. unfold py_int.
  destruct (Qle_bool 0 x) eqn:Ex; destruct (Qle_bool 0 y) eqn:Ey.
  - now apply Qfloor_resp_le.
  - apply Qle_bool_iff in Ex. apply Qle_bool_false in Ey. lra.
  - apply Qle_bool_false in Ex. apply Qle_bool_iff in Ey.
    transitivity 0.
    + change 0 with (Qceiling 0). apply Qceiling_resp_le. lra.
    + change 0 with (Qfloor 0). now apply Qfloor_resp_le.
  - now apply Qceiling_resp_le.
Qed.

(** A positive truncation comes from a value of at least one. *)
Lemma py_int_pos_inv (x : Q) : 0 < py_int x -> (0 < x)%Q.
Proof.
  intro Hpos.
  destruct (Qlt_le_dec 0 x) as [Hx|Hx]; [assumption|].
  apply py_int_nonpos in Hx. lia.
Qed.

End PyFacts.

(** ** Rounding to a double *)

Module FloatFacts.

Import PyFacts.

Local Open Scope Q_scope.

(** *** Rounding to an integer *)

Lemma py_round_comp (x y : Q) : x == y -> py_round x = py_round y.
Proof.
  intro Hxy. unfold py_round. cbv zeta.
  rewrite (Qfloor_comp x y Hxy).
  assert (Hc : (x - inject_Z (Qfloor y) ?= 1 # 2)
               = (y - inject_Z (Qfloor y) ?= 1 # 2)) by now rewrite Hxy.
  now rewrite Hc.
Qed.

Lemma py_round_Z (z : Z) : py_round (inject_Z z) = z.
Proof.
  unfold py_round. cbv zeta. rewrite Qfloor_Z.
  destruct (Qcompare_spec (inject_Z z - inject_Z z) (1 # 2)) as [He|Hl|Hg].
  - exfalso. lra.
  - reflexivity.
  - exfalso. lra.
Qed.

(** A rounded value is within one half of the value. *)
Lemma py_round_close (x : Q) :
  x - (1 # 2) <= inject_Z (py_round x) <= x + (1 # 2).
Proof.
  unfold py_round. cbv zeta.
  pose proof (Qfloor_le x) as Hlo. pose proof (Qlt_floor x) as Hhi.
  rewrite inject_Z_plus in Hhi.
  destruct (Qcompare_spec (x - inject_Z (Qfloor x)) (1 # 2)) as [He|Hl|Hg].
  - destruct (Z.even (Qfloor x)); rewrite ?inject_Z_plus;
      change (inject_Z 1) with 1 in *; split; lra.
  - change (inject_Z 1) with 1 in *. split; lra.
  - rewrite inject_Z_plus. change (inject_Z 1) with 1 in *. split; lra.
Qed.

Lemma py_round_range (x : Q) :
  (Qfloor x <= py_round x <= Qfloor x + 1)%Z.
Proof.
  unfold py_round. cbv zeta.
  destruct (x - inject_Z (Qfloor x) ?= 1 # 2);
    [destruct (Z.even (Qfloor x))| |]; lia.
Qed.

Lemma py_round_mono (x y : Q) : x <= y -> (py_round x <= py_round y)%Z.
Proof.
  intro Hxy.
  pose proof (Qfloor_resp_le x y Hxy) as Hfloor.
  destruct (Z.eq_dec (Qfloor x) (Qfloor y)) as [Heq|Hneq].
  - unfold py_round. cbv zeta. rewrite Heq.
    destruct (Qcompare_spec (x - inject_Z (Qfloor y)) (1 # 2)) as [Hx|Hx|Hx];
      destruct (Qcompare_spec (y - inject_Z (Qfloor y)) (1 # 2)) as [Hy|Hy|Hy];
      try (exfalso; lra);
      destruct (Z.even (Qfloor y)); lia.
  - pose proof (py_round_range x). pose proof (py_round_range y). lia.
Qed.

Lemma py_round_le_Z (x : Q) (z : Z) : x <= inject_Z z -> (py_round x <= z)%Z.
Proof.
  intro Hx. rewrite <- (py_round_Z z). now apply py_round_mono.
Qed.

Lemma py_round_ge_Z (x : Q) (z : Z) : inject_Z z <= x -> (z <= py_round x)%Z.
Proof.
  intro Hx. rewrite <- (py_round_Z z) at 1. now apply py_round_mono.
Qed.

(** *** Powers of two *)

Lemma pow2_pos (e : Z) : 0 < pow2 e.
Proof. apply Qpower_0_lt. reflexivity. Qed.

Lemma pow2_le (a b : Z) : (a <= b)%Z -> pow2 a <= pow2 b.
Proof. intro Hab. apply Qpower_le_compat_l; [assumption|discriminate]. Qed.

Lemma pow2_plus (a b : Z) : pow2 (a + b) == pow2 a * pow2 b.
Proof. apply Qpower_plus. discriminate. Qed.

Lemma pow2_Z (n : Z) : (0 <= n)%Z -> pow2 n == inject_Z (2 ^ n).
Proof. intro Hn. unfold pow2. now rewrite (Zpower_Qpower 2 n Hn). Qed.

(** *** The binary logarithm *)

Lemma ilog2_spec (x : Q) :
  0 < x -> pow2 (ilog2 x) <= x < pow2 (ilog2 x + 1).
Proof.
  intro Hx. unfold ilog2. cbv zeta.
  set (n := Qnum x). set (d := Zpos (Qden x)).
  assert (Hn : (0 < n)%Z).
  { unfold n. destruct x as [xn xd]. unfold Qlt in Hx. cbn in *. lia. }
  assert (Hd : (0 < d)%Z) by (unfold d; lia).
  destruct (Z.log2_spec n Hn) as [Hn1 Hn2].
  destruct (Z.log2_spec d Hd) as [Hd1 Hd2].
  set (ln := Z.log2 n) in *. set (ld := Z.log2 d) in *.
  assert (Hln : (0 <= ln)%Z) by apply Z.log2_nonneg.
  assert (Hld : (0 <= ld)%Z) by apply Z.log2_nonneg.
  assert (Hxd : x * inject_Z d == inject_Z n).
  { unfold n, d. destruct x as [xn xd]. unfold Qeq. cbn. lia. }
  rewrite Zle_Qle in Hn1, Hd1. rewrite Zlt_Qlt in Hn2, Hd2.
  rewrite <- (pow2_Z ln Hln) in Hn1.
  rewrite <- (pow2_Z ld Hld) in Hd1.
  rewrite <- (pow2_Z (Z.succ ln)) in Hn2 by lia.
  rewrite <- (pow2_Z (Z.succ ld)) in Hd2 by lia.
  assert (Hdq : 0 < inject_Z d)
    by (change 0 with (inject_Z 0); now rewrite <- Zlt_Qlt).
  pose proof (pow2_pos ld) as Hpld.
  pose proof (pow2_pos (Z.succ ld)) as Hpld1.
  (* x sits strictly between 2^(ln - ld - 1) and 2^(ln - ld + 1) *)
  assert (Hup : x < pow2 (ln - ld + 1)).
  { assert (Hsplit : pow2 (Z.succ ln) == pow2 (ln - ld + 1) * pow2 ld).
    { rewrite <- pow2_plus. replace (ln - ld + 1 + ld)%Z with (Z.succ ln) by lia.
      reflexivity. }
    pose proof (pow2_pos (ln - ld + 1)) as Hp.
    assert (Hprod : x * pow2 ld < pow2 (ln - ld + 1) * pow2 ld) by nra.
    nra. }
  assert (Hlow : pow2 (ln - ld - 1) <= x).
  { assert (Hsplit : pow2 ln == pow2 (ln - ld - 1) * pow2 (Z.succ ld)).
    { rewrite <- pow2_plus.
      replace (ln - ld - 1 + Z.succ ld)%Z with ln by lia. reflexivity. }
    pose proof (pow2_pos (ln - ld - 1)) as Hp.
    assert (Hprod : pow2 (ln - ld - 1) * pow2 (Z.succ ld)
                    <= x * pow2 (Z.succ ld)) by nra.
    nra. }
  destruct (Qle_bool (pow2 (ln - ld)) x) eqn:E.
  - apply Qle_bool_iff in E. split; [exact E|exact Hup].
  - apply Qle_bool_false in E. split; [exact Hlow|].
    replace (ln - ld - 1 + 1)%Z with (ln - ld)%Z by lia. exact E.
Qed.

Lemma ilog2_mono (x y : Q) : 0 < x -> x <= y -> (ilog2 x <= ilog2 y)%Z.
Proof.
  intros Hx Hxy.
  destruct (ilog2_spec x Hx) as [Hx1 _].
  destruct (ilog2_spec y ltac:(lra)) as [_ Hy2].
  destruct (Z_le_gt_dec (ilog2 x) (ilog2 y)) as [Hle|Hgt]; [exact Hle|].
  exfalso.
  pose proof (pow2_le (ilog2 y + 1) (ilog2 x) ltac:(lia)) as Hp. lra.
Qed.

(** *** Rounding a positive rational *)

Lemma round_positive_nonneg (x : Q) : 0 < x -> 0 <= round_positive x.
Proof.
  intro Hx. unfold round_positive.
  pose proof (pow2_pos (ulp_exponent x)) as Hp.
  assert (Hq : 0 <= x / pow2 (ulp_exponent x)).
  { apply Qle_shift_div_l; [exact Hp|lra]. }
  pose proof (py_round_ge_Z _ 0 Hq) as Hr.
  rewrite Zle_Qle in Hr. change (inject_Z 0) with 0 in Hr. nra.
Qed.

Lemma round_positive_mono (x y : Q) :
  0 < x -> x <= y -> round_positive x <= round_positive y.
Proof.
  intros Hx Hxy. assert (Hy : 0 < y) by lra.
  unfold round_positive.
  set (ex := ulp_exponent x). set (ey := ulp_exponent y).
  pose proof (pow2_pos ex) as Hpx. pose proof (pow2_pos ey) as Hpy.
  assert (Hexy : (ex <= ey)%Z).
  { unfold ex, ey, ulp_exponent.
    pose proof (ilog2_mono x y Hx Hxy). lia. }
  destruct (Z.eq_dec ex ey) as [Heq|Hneq].
  - rewrite <- Heq.
    assert (Hq : x / pow2 ex <= y / pow2 ex).
    { apply Qle_shift_div_l; [exact Hpx|].
      assert (Hs : x / pow2 ex * pow2 ex == x) by (field; lra). lra. }
    pose proof (py_round_mono _ _ Hq) as Hr. rewrite Zle_Qle in Hr. nra.
  - (* [y] lies in a higher binade: a power of two separates the two *)
    assert (Hey : ey = (ilog2 y - 52)%Z).
    { unfold ex, ey, ulp_exponent in *. lia. }
    assert (Hexl : (ilog2 x + 1 <= ex + 53)%Z).
    { unfold ex, ulp_exponent. lia. }
    destruct (ilog2_spec x Hx) as [_ Hx2].
    destruct (ilog2_spec y Hy) as [Hy1 _].
    assert (Hxtop : x / pow2 ex <= inject_Z (2 ^ 53)).
    { rewrite <- (pow2_Z 53) by lia.
      apply Qle_shift_div_r; [exact Hpx|].
      rewrite <- pow2_plus.
      pose proof (pow2_le (ilog2 x + 1) (53 + ex) ltac:(lia)). lra. }
    assert (Hybot : inject_Z (2 ^ 52) <= y / pow2 ey).
    { rewrite <- (pow2_Z 52) by lia.
      apply Qle_shift_div_l; [exact Hpy|].
      rewrite <- pow2_plus.
      replace (52 + ey)%Z with (ilog2 y) by lia. exact Hy1. }
    pose proof (py_round_le_Z _ _ Hxtop) as Hrx.
    pose proof (py_round_ge_Z _ _ Hybot) as Hry.
    rewrite Zle_Qle in Hrx, Hry.
    rewrite <- (pow2_Z 53) in Hrx by lia.
    rewrite <- (pow2_Z 52) in Hry by lia.
    pose proof (pow2_plus 53 ex) as H53. pose proof (pow2_plus 52 ey) as H52.
    pose proof (pow2_le (53 + ex) (52 + ey) ltac:(lia)) as Hsep.
    pose proof (pow2_pos 53). pose proof (pow2_pos 52).
    apply (Qle_trans _ (pow2 (53 + ex))); [rewrite H53; nra|].
    apply (Qle_trans _ (pow2 (52 + ey))); [exact Hsep|rewrite H52; nra].
Qed.

(** *** Rounding to a double *)

Lemma to_double_0 : to_double 0 == 0.
Proof. reflexivity. Qed.

Lemma to_double_mono (x y : Q) : x <= y -> to_double x <= to_double y.
Proof.
  intro Hxy. unfold to_double.
  destruct (Qcompare_spec x 0) as [Hx|Hx|Hx];
    destruct (Qcompare_spec y 0) as [Hy|Hy|Hy];
    try (exfalso; lra).
  - lra.
  - now apply round_positive_nonneg.
  - pose proof (round_positive_nonneg (- x) ltac:(lra)). lra.
  - pose proof (round_positive_mono (- y) (- x) ltac:(lra) ltac:(lra)). lra.
  - pose proof (round_positive_nonneg (- x) ltac:(lra)).
    pose proof (round_positive_nonneg y Hy). lra.
  - now apply round_positive_mono.
Qed.

Lemma to_double_comp (x y : Q) : x == y -> to_double x == to_double y.
Proof.
  intro Hxy. apply Qle_antisym; apply to_double_mono; lra.
Qed.

Lemma to_double_nonneg (x : Q) : 0 <= x -> 0 <= to_double x.
Proof.
  intro Hx. rewrite <- to_double_0. now apply to_double_mono.
Qed.

Lemma to_double_nonpos (x : Q) : x <= 0 -> to_double x <= 0.
Proof.
  intro Hx. rewrite <- to_double_0. now apply to_double_mono.
Qed.

(** A positive double comes from a positive value. *)
Lemma to_double_pos_inv (x : Q) : 0 < to_double x -> 0 < x.
Proof.
  intro Hpos. destruct (Qlt_le_dec 0 x) as [Hx|Hx]; [exact Hx|].
  pose proof (to_double_nonpos x Hx). lra.
Qed.

(** The product of doubles grows with either factor when the other is not
    negative. *)
Lemma fmul_mono_r (x y1 y2 : Q) :
  0 <= x -> y1 <= y2 -> fmul x y1 <= fmul x y2.
Proof.
  intros Hx Hy. unfold fmul. apply to_double_mono.
  pose proof (to_double_nonneg x Hx).
  pose proof (to_double_mono y1 y2 Hy). nra.
Qed.

Lemma fmul_mono_l (x1 x2 y : Q) :
  0 <= y -> x1 <= x2 -> fmul x1 y <= fmul x2 y.
Proof.
  intros Hy Hx. unfold fmul. apply to_double_mono.
  pose proof (to_double_nonneg y Hy).
  pose proof (to_double_mono x1 x2 Hx). nra.
Qed.

Lemma fmul_nonneg (x y : Q) : 0 <= x -> 0 <= y -> 0 <= fmul x y.
Proof.
  intros Hx Hy. unfold fmul. apply to_double_nonneg.
  pose proof (to_double_nonneg x Hx). pose proof (to_double_nonneg y Hy). nra.
Qed.

End FloatFacts.

(** ** The congestion estimator *)

Module EstimatorFacts.

Import DataGen Prediction Spec PyFacts FloatFacts.

Local Open Scope Q_scope.

(** The dictionary of the code holds the table of the specification. *)
Lemma transport_factor_table (t : TransportType) :
  dict_get String.eqb TRANSPORT_MULTIPLIERS (value t) 1.0 = TRANSPORT_MULTIPLIER t.
Proof. destruct t; reflexivity. Qed.

(** The areas list their traffic signals under the key ["signals"], which
    the table does not hold: those members get the default factor. *)
Remark signals_key_factor :
  dict_get String.eqb TRANSPORT_MULTIPLIERS "signals"%string 1.0 = 1.0.
Proof. reflexivity. Qed.

(** Whatever the key, the transport factor is positive. *)
Lemma transport_factor_pos (transport_type : string) :
  0 < dict_get String.eqb TRANSPORT_MULTIPLIERS transport_type 1.0.
Proof.
  unfold TRANSPORT_MULTIPLIERS. cbn [dict_get].
  repeat match goal with
         | |- context [String.eqb ?a ?b] => destruct (String.eqb a b)
         end; reflexivity.
Qed.

Lemma level_high_iff (footfall : Z) (transport_type : string) (m : Q) :
  calculate_congestion_level footfall transport_type m = High <->
  1.2 < m /\
  5000 < inject_Z footfall
         * dict_get String.eqb TRANSPORT_MULTIPLIERS transport_type 1.0.
Proof.
  unfold calculate_congestion_level.
  set (tf := dict_get String.eqb TRANSPORT_MULTIPLIERS transport_type 1.0).
  destruct (Qltb 1.2 m) eqn:E1; destruct (Qltb 5000 (inject_Z footfall * tf)) eqn:E2;
    cbn [andb];
    try (destruct (Qltb 0.9 m && Qltb 3000 (inject_Z footfall * tf)));
    rewrite <- ?Qltb_true; rewrite ?E1, ?E2;
    split; try discriminate; try tauto; intros [? ?]; discriminate.
Qed.

Lemma level_low_iff (footfall : Z) (transport_type : string) (m : Q) :
  calculate_congestion_level footfall transport_type m = Low <->
  ~ (0.9 < m /\
     3000 < inject_Z footfall
            * dict_get String.eqb TRANSPORT_MULTIPLIERS transport_type 1.0).
Proof.
  unfold calculate_congestion_level.
  set (tf := dict_get String.eqb TRANSPORT_MULTIPLIERS transport_type 1.0).
  destruct (Qltb 1.2 m) eqn:E1;
    destruct (Qltb 5000 (inject_Z footfall * tf)) eqn:E2;
    destruct (Qltb 0.9 m) eqn:E3;
    destruct (Qltb 3000 (inject_Z footfall * tf)) eqn:E4;
    cbn [andb];
    rewrite ?Qltb_true in *; rewrite ?Qltb_false in *;
    split; try discriminate; try tauto; try lra;
    intro Hn; exfalso; apply Hn; split; lra.
Qed.

(** [estimate] is [estimate_at] taken at the multiplier of the hour. *)
Lemma estimate_unfold (base_footfall : Q) (transport_type : string) (hour : Z) :
  estimate base_footfall transport_type hour =
  estimate_at (dict_get Z.eqb HOUR_MULTIPLIERS hour 0.8) transport_type
              base_footfall.
Proof. reflexivity. Qed.

(** C1. For every transport type, base daily footfall and hour, the level of
    the estimate follows the ordered rules: High when the hour multiplier
    exceeds 1.2 and the adjusted footfall exceeds 5000; otherwise Medium when
    the hour multiplier exceeds 0.9 and the adjusted footfall exceeds 3000;
    otherwise Low.  The adjusted footfall is the current footfall times the
    transport multiplier of the fixed table, and the gating factor is the
    multiplier of the hour.  At base 6000, railway, hour 9 the estimate is
    current footfall 9000 and level High. *)
Theorem estimate_level_rules :
  forall (t : TransportType) (baseDailyFootfall : Q) (hour : Z),
    let hourMultiplier := snd (calculate_current_footfall hour baseDailyFootfall) in
    let currentFootfall := fst (estimate baseDailyFootfall (value t) hour) in
    let level := snd (estimate baseDailyFootfall (value t) hour) in
    let adjustedFootfall := inject_Z currentFootfall * TRANSPORT_MULTIPLIER t in
    let high := 1.2 < hourMultiplier /\ 5000 < adjustedFootfall in
    let medium := 0.9 < hourMultiplier /\ 3000 < adjustedFootfall in
    hourMultiplier = dict_get Z.eqb HOUR_MULTIPLIERS hour 0.8
    /\ currentFootfall = fst (calculate_current_footfall hour baseDailyFootfall)
    /\ (high -> level = High)
    /\ (~ high -> medium -> level = Medium)
    /\ (~ high -> ~ medium -> level = Low)
    /\ estimate 6000 (value railway) 9 = (9000%Z, High).
Proof.
  intros t base hour. cbv zeta.
  rewrite estimate_unfold. unfold estimate_at, calculate_current_footfall.
  cbn [fst snd].
  set (m := dict_get Z.eqb HOUR_MULTIPLIERS hour 0.8).
  set (f := py_int (fmul base m)).
  rewrite <- transport_factor_table.
  split; [reflexivity|]. split; [reflexivity|].
  split; [|split; [|split; [|vm_compute; reflexivity]]].
  - intro Hhigh. now apply level_high_iff.
  - intros Hnh Hmed.
    destruct (calculate_congestion_level f (value t) m) eqn:E.
    + apply level_low_iff in E. contradiction.
    + reflexivity.
    + apply level_high_iff in E. contradiction.
  - intros _ Hnm. now apply level_low_iff.
Qed.

(** C7. For a fixed transport type and base daily footfall, the level of the
    estimate never decreases when the hour multiplier grows. *)
Theorem estimate_monotone_in_multiplier :
  forall (transport_type : string) (base_footfall m1 m2 : Q),
    m1 <= m2 ->
    level_le (snd (estimate_at m1 transport_type base_footfall))
             (snd (estimate_at m2 transport_type base_footfall)).
Proof.
  intros tt base m1 m2 Hm. unfold estimate_at, level_le. cbn [snd].
  set (tf := dict_get String.eqb TRANSPORT_MULTIPLIERS tt 1.0).
  assert (Htf : 0 < tf) by apply transport_factor_pos.
  (* a level above Low at [m1] forces a positive base, hence more footfall at [m2] *)
  assert (Hgrow : forall bound : Q, 0 <= bound -> 0.9 < m1 ->
            bound < inject_Z (py_int (fmul base m1)) * tf ->
            bound < inject_Z (py_int (fmul base m2)) * tf).
  { intros bound Hb Hm1 Hadj.
    assert (Hpos : (0 < py_int (fmul base m1))%Z).
    { destruct (Z_lt_le_dec 0 (py_int (fmul base m1))) as [|Hle]; [assumption|].
      exfalso. assert (inject_Z (py_int (fmul base m1)) <= 0).
      { change 0 with (inject_Z 0). now rewrite <- Zle_Qle. }
      nra. }
    apply py_int_pos_inv in Hpos. unfold fmul in Hpos.
    apply to_double_pos_inv in Hpos.
    assert (Hm1d : 0 < to_double m1).
    { apply (Qlt_le_trans _ (to_double 0.9));
        [vm_compute; reflexivity|apply to_double_mono; lra]. }
    assert (Hbased : 0 < to_double base) by nra.
    assert (Hbase : 0 <= base).
    { apply Qlt_le_weak. now apply to_double_pos_inv. }
    assert (Hle : (py_int (fmul base m1) <= py_int (fmul base m2))%Z).
    { apply py_int_mono. now apply fmul_mono_r. }
    rewrite Zle_Qle in Hle. nra. }
  destruct (calculate_congestion_level (py_int (fmul base m1)) tt m1) eqn:E1.
  - destruct (calculate_congestion_level (py_int (fmul base m2)) tt m2);
      cbn; lia.
  - assert (Hm2 : calculate_congestion_level (py_int (fmul base m2)) tt m2 <> Low).
    { intro E2. apply level_low_iff in E2. apply E2.
      assert (Hnl : calculate_congestion_level (py_int (fmul base m1)) tt m1 <> Low)
        by congruence.
      rewrite level_low_iff in Hnl. fold tf in Hnl.
      destruct (Qlt_le_dec 0.9 m1) as [Hm1|Hm1];
        [|exfalso; apply Hnl; intros [? ?]; lra].
      destruct (Qlt_le_dec 3000 (inject_Z (py_int (fmul base m1)) * tf)) as [Ha|Ha];
        [|exfalso; apply Hnl; intros [? ?]; lra].
      split; [lra|]. apply Hgrow; [lra|assumption|assumption]. }
    destruct (calculate_congestion_level (py_int (fmul base m2)) tt m2);
      cbn; [congruence|lia|lia].
  - apply level_high_iff in E1. destruct E1 as [Hm1 Ha].
    assert (E2 : calculate_congestion_level (py_int (fmul base m2)) tt m2 = High).
    { apply level_high_iff. split; [lra|].
      apply Hgrow; [lra|lra|assumption]. }
    rewrite E2. cbn. lia.
Qed.

(** The monotonicity at work: railway at base 4000, from hour 12 (0.9) to
    hour 9 (1.5). *)
Lemma estimate_monotone_in_multiplier_witness :
  0.9 <= 1.5 /\
  level_le (snd (estimate_at 0.9 "railway" 4000))
           (snd (estimate_at 1.5 "railway" 4000)).
Proof.
  assert (H : 0.9 <= 1.5) by (vm_compute; discriminate).
  split; [exact H|].
  exact (estimate_monotone_in_multiplier "railway" 4000 0.9 1.5 H).
Defined.

(** The hour table read as a function of the hour. *)
Lemma hour_multiplier_lookup (hour : Z) :
  dict_get Z.eqb HOUR_MULTIPLIERS hour 0.8 =
  if ((0 <=? hour) && (hour <=? 23))%Z
  then nth (Z.to_nat hour) (map snd HOUR_MULTIPLIERS) 0.8
  else 0.8.
Proof.
  destruct ((0 <=? hour) && (hour <=? 23))%Z eqn:E.
  - apply andb_true_iff in E. destruct E as [H0 H23].
    apply Z.leb_le in H0. apply Z.leb_le in H23.
    rewrite <- (Z2Nat.id hour) at 1 by assumption.
    assert (Hn : (Z.to_nat hour < 24)%nat) by lia.
    generalize dependent (Z.to_nat hour). intros n Hn.
    do 24 (destruct n as [|n]; [reflexivity|]). lia.
  - apply andb_false_iff in E.
    assert (Hout : (hour < 0 \/ 23 < hour)%Z).
    { destruct E as [E|E]; apply Z.leb_gt in E; lia. }
    unfold HOUR_MULTIPLIERS. cbn [dict_get].
    repeat match goal with
           | |- context [Z.eqb ?k hour] =>
               destruct (Z.eqb_spec k hour); [lia|]
           end.
    reflexivity.
Qed.

(** C2, as the code has it.  For every hour and every base daily footfall
    whose product stays within the doubles, the current footfall is
    [int(baseDailyFootfall * hourMultiplier)]: the product, taken in double
    precision, truncated toward zero; a base of 90 at multiplier 0.7 gives
    62.  The hour multiplier is read from the table of 24 entries for the
    hours 0 to 23 (1.5 at hours 9 and 18, 0.2 at hour 2) and is the default
    0.8 exactly when the hour is outside it. *)
Theorem current_footfall_truncates :
  forall (baseDailyFootfall : Q) (hour : Z),
    footfall_in_range baseDailyFootfall ->
    let currentFootfall := fst (calculate_current_footfall hour baseDailyFootfall) in
    let hourMultiplier := snd (calculate_current_footfall hour baseDailyFootfall) in
    currentFootfall = py_int (fmul baseDailyFootfall hourMultiplier)
    /\ hourMultiplier =
       (if ((0 <=? hour) && (hour <=? 23))%Z
        then nth (Z.to_nat hour) (map snd HOUR_MULTIPLIERS) 0.8
        else 0.8)
    /\ map fst HOUR_MULTIPLIERS = map Z.of_nat (seq 0 24)
    /\ dict_get Z.eqb HOUR_MULTIPLIERS 9%Z 0.8 = 1.5
    /\ dict_get Z.eqb HOUR_MULTIPLIERS 18%Z 0.8 = 1.5
    /\ dict_get Z.eqb HOUR_MULTIPLIERS 2%Z 0.8 = 0.2
    /\ fst (calculate_current_footfall 14%Z 90) = 62%Z
    /\ fst (calculate_current_footfall 14%Z 170) = 118%Z.
Proof.
  intros base hour _. cbv zeta.
  unfold calculate_current_footfall at 1 2 3. cbn [fst snd].
  split; [reflexivity|].
  split; [apply hour_multiplier_lookup|].
  repeat split; vm_compute; reflexivity.
Qed.

(** A base of 90 at hour 14, where the multiplier is 0.7. *)
Lemma current_footfall_truncates_witness :
  footfall_in_range 90
  /\ fst (calculate_current_footfall 14%Z 90)
     = py_int (fmul 90 (snd (calculate_current_footfall 14%Z 90)))
  /\ snd (calculate_current_footfall 14%Z 90) = 0.7
  /\ fst (calculate_current_footfall 14%Z 90) = 62%Z.
Proof.
  assert (Hrange : footfall_in_range 90)
    by (unfold footfall_in_range; vm_compute; discriminate).
  split; [exact Hrange|].
  destruct (current_footfall_truncates 90 14%Z Hrange)
    as [Hvalue [_ [_ [_ [_ [_ [Hninety _]]]]]]].
  split; [exact Hvalue|]. split; [reflexivity|exact Hninety].
Defined.

(** C2, as stated, fails: at base 2 and hour 7 the product is 1.6; the code
    returns 1 and rounding gives 2. *)
Lemma current_footfall_not_rounded :
  fst (calculate_current_footfall 7%Z 2) = 1%Z
  /\ py_round (fmul 2 (snd (calculate_current_footfall 7%Z 2))) = 2%Z
  /\ py_round (2 * snd (calculate_current_footfall 7%Z 2)) = 2%Z
  /\ fst (calculate_current_footfall 7%Z 2)
     <> py_round (fmul 2 (snd (calculate_current_footfall 7%Z 2))).
Proof.
  split; [vm_compute; reflexivity|]. split; [vm_compute; reflexivity|].
  split; [vm_compute; reflexivity|].
  vm_compute. discriminate.
Qed.

End EstimatorFacts.

(** ** The series generator *)

Module GeneratorFacts.

Import DataGen Spec PyFacts Scripted.

Section Generator.

Context {G : Type} `{NumPy G}.

(** The row of one day: its date, and the truncated accumulated value
    clamped from below by the truncated fifth of the base. *)
Lemma generate_day_row (base : Z) (multiplier : Q) (days start_date day : Z)
      (g : G) :
  fst (generate_day base multiplier days start_date day g) =
  let date := start_date + day in
  let draws := day_draws base g in
  let weekly :=
    fmul (np_sin_week (weekday date)) (fmul (inject_Z base) 0.1) in
  mkRow date
        (Z.max (py_int (fmul (inject_Z base) 0.2))
               (py_int (accumulated_value base multiplier days day
                                          (weekday date) weekly
                                          (fst draws) (snd draws)))).
Proof.
  unfold generate_day, day_draws, accumulated_value. cbv zeta.
  destruct (np_random_normal 0 (fmul (inject_Z base) 0.05) g) as [noise g1].
  destruct (np_random_random g1) as [r g2].
  destruct (fltb r 0.05).
  - destruct (np_random_uniform 1.2 1.5 g2) as [event_boost g3].
    cbn [fst snd]. now destruct (weekday (start_date + day) <? 5).
  - cbn [fst snd]. now destruct (weekday (start_date + day) <? 5).
Qed.

Lemma generate_loop_rows (base : Z) (multiplier : Q) (days start_date : Z)
      (range : list Z) :
  forall (data : list Row) (g : G),
    generate_loop base multiplier days start_date range data g =
    (data ++ rows_from base multiplier days start_date range g,
     state_after base multiplier days start_date range g).
Proof.
  induction range as [|day rest IH]; intros data g; cbn [generate_loop rows_from state_after].
  - now rewrite app_nil_r.
  - destruct (generate_day base multiplier days start_date day g) as [row g'].
    rewrite IH. cbn [snd]. now rewrite <- app_assoc.
Qed.

Lemma rows_from_cons (base : Z) (multiplier : Q) (days start_date : Z)
      (day : Z) (rest : list Z) (g : G) :
  rows_from base multiplier days start_date (day :: rest) g =
  fst (generate_day base multiplier days start_date day g)
  :: rows_from base multiplier days start_date rest
       (snd (generate_day base multiplier days start_date day g)).
Proof.
  cbn [rows_from].
  now destruct (generate_day base multiplier days start_date day g).
Qed.

Lemma rows_from_length (base : Z) (multiplier : Q) (days start_date : Z)
      (range : list Z) :
  forall g : G,
    List.length (rows_from base multiplier days start_date range g) = List.length range.
Proof.
  induction range as [|day rest IH]; intro g; [reflexivity|].
  rewrite rows_from_cons. cbn [List.length]. now rewrite IH.
Qed.

Lemma rows_from_ds (base : Z) (multiplier : Q) (days start_date : Z)
      (range : list Z) :
  forall g : G,
    map ds (rows_from base multiplier days start_date range g) =
    map (fun day => start_date + day) range.
Proof.
  induction range as [|day rest IH]; intro g; [reflexivity|].
  rewrite rows_from_cons. cbn [map]. rewrite IH.
  now rewrite generate_day_row.
Qed.

Lemma rows_from_floor (base : Z) (multiplier : Q) (days start_date : Z)
      (range : list Z) :
  forall g : G,
    Forall (fun row => py_int (fmul (inject_Z base) 0.2) <= y row)
           (rows_from base multiplier days start_date range g).
Proof.
  induction range as [|day rest IH]; intro g; [constructor|].
  rewrite rows_from_cons. constructor; [|apply IH].
  rewrite generate_day_row. cbn [y]. apply Z.le_max_l.
Qed.

Lemma rows_from_app (base : Z) (multiplier : Q) (days start_date : Z)
      (r1 r2 : list Z) :
  forall g : G,
    rows_from base multiplier days start_date (r1 ++ r2) g =
    rows_from base multiplier days start_date r1 g
    ++ rows_from base multiplier days start_date r2
         (state_after base multiplier days start_date r1 g).
Proof.
  induction r1 as [|day rest IH]; intro g; [reflexivity|].
  rewrite <- app_comm_cons, !rows_from_cons, IH. reflexivity.
Qed.

(** [range(days)] cut at day [d]. *)
Lemma py_range_split (days d : Z) :
  0 <= d < days ->
  exists rest, py_range days = py_range d ++ d :: rest.
Proof.
  intros [Hd0 Hd]. unfold py_range.
  replace (Z.to_nat days) with (Z.to_nat d + S (Z.to_nat (days - d - 1)))%nat by lia.
  rewrite seq_app, map_app. cbn [seq map Nat.add].
  rewrite Z2Nat.id by assumption.
  eexists. reflexivity.
Qed.

Lemma py_range_length (n : Z) : List.length (py_range n) = Z.to_nat n.
Proof. unfold py_range. now rewrite length_map, length_seq. Qed.

(** Day [d] of the series is the row of [generate_day] at the generator state
    left by the days before it. *)
Lemma rows_from_nth (base : Z) (multiplier : Q) (days start_date d : Z)
      (g : G) (default : Row) :
  0 <= d < days ->
  nth (Z.to_nat d)
      (rows_from base multiplier days start_date (py_range days) g) default =
  fst (generate_day base multiplier days start_date d
         (state_after base multiplier days start_date (py_range d) g)).
Proof.
  intro Hd. destruct (py_range_split days d Hd) as [rest Hsplit].
  rewrite Hsplit, rows_from_app.
  rewrite app_nth2; rewrite rows_from_length, py_range_length; [|lia].
  rewrite Nat.sub_diag, rows_from_cons. reflexivity.
Qed.

Lemma consecutive_days_sorted (start_date : Z) (n : nat) :
  forall a : nat,
    StronglySorted Z.lt
      (map (fun day => start_date + day) (map Z.of_nat (seq a n))).
Proof.
  induction n as [|n IH]; intro a; cbn [seq map]; constructor.
  - apply IH.
  - rewrite Forall_forall. intros x Hx.
    rewrite in_map_iff in Hx. destruct Hx as [day [<- Hday]].
    rewrite in_map_iff in Hday. destruct Hday as [k [<- Hk]].
    apply in_seq in Hk. lia.
Qed.

Lemma base_footfall_subscript (t : TransportType) :
  dict_subscript BASE_FOOTFALL (value t) = Ok (base_raw t).
Proof. destruct t; reflexivity. Qed.

(** On the four base constants the fifth is an integer, and the double
    product is that integer: rounding the exact fifth and truncating the
    double agree. *)
Lemma floor_constant (t : TransportType) :
  py_round (inject_Z (base_raw t) * 0.2)
  = py_int (fmul (inject_Z (base_raw t)) 0.2)
  /\ 0 <= py_int (fmul (inject_Z (base_raw t)) 0.2).
Proof. destruct t; split; vm_compute; congruence. Qed.

Lemma floor_constant_exact (t : TransportType) :
  py_int (inject_Z (base_raw t) * 0.2)
  = py_int (fmul (inject_Z (base_raw t)) 0.2).
Proof. destruct t; vm_compute; congruence. Qed.

(** [generate_transport_data] on a transport type of the enumeration. *)
Lemma generate_transport_data_rows (now : Z) (location_name : string)
      (t : TransportType) (days : Z) (g : G) :
  let multiplier := dict_get String.eqb LOCATION_MULTIPLIERS location_name 1.0%Q in
  generate_transport_data now location_name (value t) days g =
  (Ok (rows_from (base_raw t) multiplier days (now - days) (py_range days) g),
   state_after (base_raw t) multiplier days (now - days) (py_range days) g).
Proof.
  unfold generate_transport_data. rewrite base_footfall_subscript.
  now rewrite generate_loop_rows.
Qed.

Lemma TransportType_of_value (t : TransportType) :
  TransportType_of (value t) = Some t.
Proof. destruct t; reflexivity. Qed.

(** The statistics of a frame with at least one row are always produced. *)
Lemma statistics_of_cons (row : Row) (rest : list Row) :
  statistics_of (row :: rest) =
  Ok {| mean := Series_mean (map y (row :: rest));
        median := Series_median (map y (row :: rest));
        min := fold_left Z.min (map y rest) (y row);
        max := fold_left Z.max (map y rest) (y row);
        std := Series_std (map y (row :: rest)) |}.
Proof. reflexivity. Qed.

(** The endpoint answers a request of one day or more with the generated
    frame. *)
Lemma generate_data_rows (now : Z) (request : DataGenerationRequest) (g : G) :
  1 <= days request ->
  let multiplier :=
    dict_get String.eqb LOCATION_MULTIPLIERS (location_name request) 1.0%Q in
  let base := base_raw (transport_type request) in
  let df := rows_from base multiplier (days request) (now - days request)
                      (py_range (days request)) g in
  exists stats,
    statistics_of df = Ok stats /\
    generate_data now request g =
    (Ok {| r_success := true;
           r_location := location_name request;
           r_transport_type := value (transport_type request);
           r_days := days request;
           r_records := Z.of_nat (List.length df);
           r_statistics := stats;
           r_data := df |},
     state_after base multiplier (days request) (now - days request)
                 (py_range (days request)) g).
Proof.
  intros Hdays multiplier base df.
  unfold generate_data. rewrite generate_transport_data_rows.
  fold multiplier base df.
  assert (Hlen : List.length df = Z.to_nat (days request)).
  { unfold df. now rewrite rows_from_length, py_range_length. }
  destruct df as [|row rest] eqn:Edf.
  - cbn [List.length] in Hlen. lia.
  - eexists. split; [apply statistics_of_cons|].
    cbn [bind]. rewrite statistics_of_cons. reflexivity.
Qed.

(** C3. For every location, transport type and day count in [1, 365], the
    generator returns exactly [days] rows, dated by consecutive days in
    strictly increasing order, and every value is an integer at least
    [round(base_raw * 0.2)], hence non-negative.  Any other day count is
    rejected by the validation of the request. *)
Theorem generate_series_shape :
  forall (now : Z) (location_name : string) (t : TransportType) (days : Z)
         (g : G),
    let body := mkRequestBody location_name (value t) (Some days) in
    (1 <= days <= 365 ->
     exists (resp : GenerateResponse) (g' : G),
       post_generate_data now body g = (Handled (Ok resp), g')
       /\ generate_transport_data now location_name (value t) days g
          = (Ok (r_data resp), g')
       /\ Z.of_nat (List.length (r_data resp)) = days
       /\ r_records resp = days
       /\ map ds (r_data resp)
          = map (fun day => now - days + day) (py_range days)
       /\ StronglySorted Z.lt (map ds (r_data resp))
       /\ Forall (fun row =>
                    py_round (inject_Z (base_raw t) * 0.2) <= y row
                    /\ 0 <= y row)
                 (r_data resp))
    /\ (~ 1 <= days <= 365 ->
        exists e, post_generate_data now body g = (Rejected e, g)).
Proof.
  intros now loc t days g body. split.
  - intros [Hlo Hhi].
    unfold post_generate_data, validate, body.
    cbn [body_transport_type body_days body_location_name].
    rewrite TransportType_of_value.
    assert (Hrange : days_in_range days = true).
    { unfold days_in_range. apply andb_true_iff. split; now apply Z.leb_le. }
    rewrite Hrange.
    destruct (generate_data_rows now (mkDataGenerationRequest loc t days) g Hlo)
      as [stats [_ Hgen]].
    cbn [DataGen.days DataGen.location_name DataGen.transport_type] in Hgen.
    rewrite Hgen.
    eexists. eexists. split; [reflexivity|].
    cbn [r_data r_records].
    split; [apply generate_transport_data_rows|].
    assert (Hlen : Z.of_nat
                     (List.length
                        (rows_from (base_raw t)
                           (dict_get String.eqb LOCATION_MULTIPLIERS loc 1.0%Q)
                           days (now - days) (py_range days) g)) = days).
    { rewrite rows_from_length, py_range_length. lia. }
    split; [exact Hlen|]. split; [exact Hlen|].
    split; [apply rows_from_ds|].
    split.
    + rewrite rows_from_ds. apply consecutive_days_sorted.
    + destruct (floor_constant t) as [Hround Hnonneg]. rewrite Hround.
      eapply Forall_impl; [|apply rows_from_floor].
      intros row Hrow. cbv beta in Hrow. lia.
  - intro Hout.
    unfold post_generate_data, validate, body.
    cbn [body_transport_type body_days body_location_name].
    rewrite TransportType_of_value.
    assert (Hrange : days_in_range days = false).
    { unfold days_in_range. apply andb_false_iff.
      destruct (Z.leb_spec 1 days); [|now left].
      destruct (Z.leb_spec days 365); [lia|now right]. }
    rewrite Hrange. eexists. reflexivity.
Qed.

(** C4, as the code has it.  Given the draws of day [d] (noise, event
    decision and boost, taken at the generator state the earlier days leave)
    and the weekly term, the value of day [d] is the greater of
    [int(base_raw * 0.2)] and [int(accumulated_value)]: both conversions
    truncate toward zero, and every product, quotient and sum on the way is
    the double the code computes.  The window lies within the calendar. *)
Theorem day_value_truncates :
  forall (now : Z) (location_name : string) (t : TransportType)
         (days d : Z) (g : G),
    in_calendar now days ->
    0 <= d < days ->
    let base := base_raw t in
    let multiplier :=
      dict_get String.eqb LOCATION_MULTIPLIERS location_name 1.0%Q in
    let date := now - days + d in
    let draws :=
      day_draws base
        (state_after base multiplier days (now - days) (py_range d) g) in
    let weekly :=
      fmul (np_sin_week (weekday date)) (fmul (inject_Z base) 0.1) in
    exists data : list Row,
      fst (generate_transport_data now location_name (value t) days g) = Ok data
      /\ nth (Z.to_nat d) data (mkRow 0 0) =
         mkRow date
               (Z.max (py_int (fmul (inject_Z base) 0.2))
                      (py_int (accumulated_value base multiplier days d
                                                 (weekday date) weekly
                                                 (fst draws) (snd draws)))).
Proof.
  intros now loc t days d g _ Hd base multiplier date draws weekly.
  rewrite generate_transport_data_rows. cbn [fst].
  eexists. split; [reflexivity|].
  fold base multiplier.
  rewrite rows_from_nth by assumption.
  apply generate_day_row.
Qed.

End Generator.

(** Day 1 of a week at Andheri, with a scripted generator: the event fires
    with boost 1.3, and the value stays above the floor. *)
Lemma day_value_truncates_witness :
  in_calendar 739923 7 /\ 0 <= 1 < 7 /\
  day_draws 5000 [100; 0.01; 1.3]%Q = (100%Q, Some 1.3%Q) /\
  exists data : list Row,
    fst (generate_transport_data 739923 "Andheri" (value metro) 7
           [0.6; 0.5; 100; 0.01; 1.3]%Q) = Ok data
    /\ y (nth 1 data (mkRow 0 0)) = 13624.
Proof.
  assert (Hc : in_calendar 739923 7) by (unfold in_calendar; lia).
  assert (Hd : 0 <= 1 < 7) by lia.
  split; [exact Hc|]. split; [exact Hd|]. split; [reflexivity|].
  destruct (day_value_truncates 739923 "Andheri" metro 7 1
              [0.6; 0.5; 100; 0.01; 1.3]%Q Hc Hd) as [data [Hdata Hnth]].
  exists data. split; [exact Hdata|].
  change (Z.to_nat 1) with 1%nat in Hnth. rewrite Hnth. vm_compute. reflexivity.
Defined.

(** C4, as stated, fails.  One day at DN Nagar (metro, multiplier 1.0)
    starting on a Monday, noise 0.6 and no event: the accumulated value is
    6500.6, the code stores 6500 and rounding gives 6501.  On the last of
    four days there (a Monday again), without noise, the double accumulation
    stays just below 7475: the code stores 7474 where the exact value is
    7475. *)
Lemma day_value_not_rounded :
  let script := [0.6; 0.5]%Q in
  let acc :=
    accumulated_value 5000 1.0 1 0 (weekday 739922)
                      (fmul (np_sin_week (weekday 739922)) (fmul 5000 0.1))
                      (fst (day_draws 5000 script))
                      (snd (day_draws 5000 script)) in
  day_draws 5000 script = (0.6%Q, None)
  /\ (6500 < acc < 6501)%Q
  /\ fst (generate_transport_data 739923 "DN Nagar" (value metro) 1 script)
     = Ok [mkRow 739922 6500]
  /\ Z.max (py_round (5000 * 0.2)) (py_round acc) = 6501
  /\ y (mkRow 739922 6500) <> Z.max (py_round (5000 * 0.2)) (py_round acc)
  /\ (exists data : list Row,
        fst (generate_transport_data 739923 "DN Nagar" (value metro) 4 [])
        = Ok data
        /\ y (nth 3 data (mkRow 0 0)) = 7474
        /\ (5000 * 1.0 * 1.3 * (1 + (3 / 4) * 0.2) == 7475)%Q).
Proof.
  cbv zeta. split; [reflexivity|].
  split; [split; vm_compute; reflexivity|].
  split; [vm_compute; reflexivity|].
  split; [vm_compute; reflexivity|].
  split; [vm_compute; discriminate|].
  eexists. split; [vm_compute; reflexivity|].
  split; vm_compute; reflexivity.
Qed.

(** A week at Andheri, with a scripted generator. *)
Lemma generate_series_shape_witness :
  1 <= 7 <= 365 /\
  exists (resp : GenerateResponse) (g' : list Q),
    post_generate_data 739923 (mkRequestBody "Andheri" (value metro) (Some 7))
                       [0.6; 0.5; 100; 0.01; 1.3]%Q
    = (Handled (Ok resp), g')
    /\ Z.of_nat (List.length (r_data resp)) = 7
    /\ StronglySorted Z.lt (map ds (r_data resp)).
Proof.
  assert (Hd : 1 <= 7 <= 365) by lia.
  split; [exact Hd|].
  destruct (proj1 (generate_series_shape 739923 "Andheri" metro 7
                     [0.6; 0.5; 100; 0.01; 1.3]%Q) Hd)
    as [resp [g' [Hpost [_ [Hlen [_ [_ [Hsorted _]]]]]]]].
  exists resp, g'. repeat split; assumption.
Defined.

End GeneratorFacts.

(** ** The statistics of a series *)

Module StatisticsFacts.

Import DataGen Spec PyFacts Scripted.

Local Open Scope Z_scope.

Lemma fold_left_add_total (l : list Z) :
  forall a : Z, fold_left Z.add l a = a + total l.
Proof.
  induction l as [|x l IH]; intro a; cbn [fold_left total fold_right].
  - lia.
  - rewrite IH. fold (total l). lia.
Qed.

Lemma py_sum_total (l : list Z) : py_sum l = total l.
Proof. unfold py_sum. now rewrite fold_left_add_total. Qed.

(** *** Sorting *)

Lemma insert_sorted_perm (x : Z) (l : list Z) :
  Permutation (insert_sorted x l) (x :: l).
Proof.
  induction l as [|h t IH]; cbn [insert_sorted]; [reflexivity|].
  destruct (x <=? h); [reflexivity|].
  rewrite IH. apply perm_swap.
Qed.

Lemma sort_values_perm (l : list Z) : Permutation (sort_values l) l.
Proof.
  induction l as [|h t IH]; cbn [sort_values]; [reflexivity|].
  rewrite insert_sorted_perm. now constructor.
Qed.

Lemma insert_sorted_sorted (x : Z) (l : list Z) :
  StronglySorted Z.le l -> StronglySorted Z.le (insert_sorted x l).
Proof.
  induction 1 as [|h t Hsorted IH Hall]; cbn [insert_sorted].
  - repeat constructor.
  - destruct (Z.leb_spec x h) as [Hle|Hgt].
    + constructor; [now constructor|].
      constructor; [assumption|].
      eapply Forall_impl; [|exact Hall]. intros; cbv beta in *; lia.
    + constructor; [exact IH|].
      eapply Permutation_Forall; [symmetry; apply insert_sorted_perm|].
      constructor; [lia|assumption].
Qed.

Lemma sort_values_sorted (l : list Z) : StronglySorted Z.le (sort_values l).
Proof.
  induction l as [|h t IH]; cbn [sort_values]; [constructor|].
  now apply insert_sorted_sorted.
Qed.

Lemma sort_values_length (l : list Z) :
  List.length (sort_values l) = List.length l.
Proof. apply Permutation_length, sort_values_perm. Qed.

(** *** Extremes *)

Lemma fold_min_spec (t : list Z) :
  forall h : Z,
    In (fold_left Z.min t h) (h :: t)
    /\ Forall (fun x => fold_left Z.min t h <= x) (h :: t).
Proof.
  induction t as [|x t IH]; intro h; cbn [fold_left].
  - split; [now left|]. repeat constructor. lia.
  - destruct (IH (Z.min h x)) as [Hin Hall]. split.
    + destruct Hin as [Heq|Hin].
      * rewrite <- Heq.
        destruct (Z.min_spec h x) as [[_ ->]|[_ ->]]; [now left|right; now left].
      * right; now right.
    + inversion Hall as [|? ? Hhead Htail]; subst.
      constructor; [lia|]. constructor; [lia|assumption].
Qed.

Lemma fold_max_spec (t : list Z) :
  forall h : Z,
    In (fold_left Z.max t h) (h :: t)
    /\ Forall (fun x => x <= fold_left Z.max t h) (h :: t).
Proof.
  induction t as [|x t IH]; intro h; cbn [fold_left].
  - split; [now left|]. repeat constructor. lia.
  - destruct (IH (Z.max h x)) as [Hin Hall]. split.
    + destruct Hin as [Heq|Hin].
      * rewrite <- Heq.
        destruct (Z.max_spec h x) as [[_ ->]|[_ ->]]; [right; now left|now left].
      * right; now right.
    + inversion Hall as [|? ? Hhead Htail]; subst.
      constructor; [lia|]. constructor; [lia|assumption].
Qed.

(** *** Squared deviations *)

Lemma sum_sq_dev_total (m : Q) (l : list Z) :
  forall acc : Q,
    (fold_left (fun acc x => acc + (inject_Z x - m) * (inject_Z x - m)) l acc
     == acc + sq_dev_total m l)%Q.
Proof.
  induction l as [|x l IH]; intro acc; cbn [fold_left sq_dev_total fold_right].
  - ring.
  - rewrite IH. fold (sq_dev_total m l). ring.
Qed.

Lemma count_pos (x : Z) (l : list Z) : (0 < count (x :: l))%Q.
Proof.
  unfold count. change 0%Q with (inject_Z 0). rewrite <- Zlt_Qlt.
  cbn [List.length]. lia.
Qed.

Lemma count_length (l : list Z) (k : nat) :
  (k <= List.length l)%nat -> (inject_Z (Z.of_nat k) <= count l)%Q.
Proof. intro Hk. unfold count. rewrite <- Zle_Qle. lia. Qed.

(** *** Columns of one repeated value *)

Lemma total_constant (v : Z) (l : list Z) :
  Forall (eq v) l -> total l = v * Z.of_nat (List.length l).
Proof.
  induction 1 as [|x l Hx Hall IH]; cbn [total fold_right List.length].
  - lia.
  - fold (total l). rewrite IH. subst x. lia.
Qed.

Lemma sort_values_constant (v : Z) (l : list Z) :
  Forall (eq v) l -> sort_values l = l.
Proof.
  induction 1 as [|x l Hx Hall IH]; cbn [sort_values]; [reflexivity|].
  rewrite IH. subst x.
  destruct Hall as [|x' l' Hx' Hall']; cbn [insert_sorted]; [reflexivity|].
  subst x'. now rewrite Z.leb_refl.
Qed.

Lemma nth_constant (v : Z) (l : list Z) (k : nat) :
  Forall (eq v) l -> (k < List.length l)%nat -> nth k l 0 = v.
Proof.
  intros Hall Hk. rewrite Forall_forall in Hall.
  symmetry. apply Hall. now apply nth_In.
Qed.

Lemma fold_min_constant (v : Z) (l : list Z) :
  Forall (eq v) l -> fold_left Z.min l v = v.
Proof.
  induction 1 as [|x l Hx Hall IH]; cbn [fold_left]; [reflexivity|].
  subst x. now rewrite Z.min_id.
Qed.

Lemma fold_max_constant (v : Z) (l : list Z) :
  Forall (eq v) l -> fold_left Z.max l v = v.
Proof.
  induction 1 as [|x l Hx Hall IH]; cbn [fold_left]; [reflexivity|].
  subst x. now rewrite Z.max_id.
Qed.

Lemma sq_dev_total_constant (v : Z) (m : Q) (l : list Z) :
  Forall (eq v) l -> (m == inject_Z v)%Q -> (sq_dev_total m l == 0)%Q.
Proof.
  intros Hall Hm.
  induction Hall as [|x l Hx Hall IH]; cbn [sq_dev_total fold_right].
  - reflexivity.
  - fold (sq_dev_total m l). rewrite IH. subst x. rewrite Hm. ring.
Qed.

Section Summaries.

Context {G : Type} `{NumPy G}.

Lemma Series_median_sorted (col : list Z) :
  col <> [] ->
  let n := List.length col in
  let s := sort_values col in
  Series_median col =
  Fin (if Nat.even n
       then (inject_Z (nth (n / 2 - 1) s 0%Z) + inject_Z (nth (n / 2) s 0%Z)) / 2
       else inject_Z (nth (n / 2) s 0%Z))%Q.
Proof.
  intros Hcol n s. unfold Series_median. cbv zeta.
  rewrite (sort_values_length col). fold n s.
  destruct n as [|k] eqn:En.
  - destruct col; [contradiction|discriminate].
  - now destruct (Nat.even (S k)).
Qed.

(** The mean, median, extremes and deviation of a column of two or more
    copies of [v]. *)
Lemma constant_column (v : Z) (col : list Z) :
  (2 <= List.length col)%nat ->
  Forall (eq v) col ->
  (forall q : Q, (q == 0)%Q -> (np_sqrt q == 0)%Q) ->
  float_is (Series_mean col) (inject_Z v)
  /\ float_is (Series_median col) (inject_Z v)
  /\ Series_min col = Some v
  /\ Series_max col = Some v
  /\ float_is (Series_std col) 0.
Proof.
  intros Hlen Hall Hsqrt.
  assert (Hmean : (inject_Z (py_sum col) / count col == inject_Z v)%Q).
  { rewrite py_sum_total, (total_constant v col Hall).
    unfold count. rewrite inject_Z_mult. field.
    change 0%Q with (inject_Z 0). rewrite inject_Z_injective. lia. }
  destruct col as [|x col']; [cbn in Hlen; lia|].
  assert (Hx : v = x) by now inversion Hall.
  assert (Hall' : Forall (eq v) col') by now inversion Hall.
  subst x.
  repeat split.
  - exact Hmean.
  - rewrite Series_median_sorted by discriminate. cbv zeta.
    rewrite (sort_values_constant v _ Hall).
    set (n := List.length (v :: col')) in *.
    assert (Hhalf : (n / 2 < n)%nat) by (apply Nat.div_lt; lia).
    destruct (Nat.even n); cbn [float_is].
    + rewrite !(nth_constant v) by (assumption || lia). field.
    + rewrite (nth_constant v) by assumption. reflexivity.
  - cbn [Series_min]. now rewrite fold_min_constant.
  - cbn [Series_max]. now rewrite fold_max_constant.
  - unfold Series_std.
    destruct (Nat.leb_spec (List.length (v :: col')) 1) as [Hle|_]; [lia|].
    cbn [float_is]. apply Hsqrt.
    unfold Series_var, sum_sq_dev.
    rewrite sum_sq_dev_total.
    rewrite (sq_dev_total_constant v _ _ Hall Hmean).
    assert (Hn : (2 <= count (v :: col'))%Q) by now apply (count_length _ 2).
    field. lra.
Qed.

(** C8, as the code has it.  On every non-empty series the summary holds the
    standard mean, the sample standard deviation with [ddof = 1] (NaN for one
    value), the median (mean of the two middle values for an even length), the
    minimum and the maximum.  In particular a series of two or more identical
    values [v] has mean = median = min = max = [v] and std = 0. *)
Theorem summarize_statistics :
  forall df : list Row,
    df <> [] ->
    (forall q : Q, (q == 0)%Q -> (np_sqrt q == 0)%Q) ->
    let col := map y df in
    let n := List.length col in
    let m := (inject_Z (total col) / count col)%Q in
    exists st : Statistics,
      statistics_of df = Ok st
      /\ (exists mu : Q,
            mean st = Fin mu /\ (mu == m)%Q
            /\ (mu * count col == inject_Z (total col))%Q)
      /\ ((2 <= n)%nat ->
          exists var : Q,
            std st = Fin (np_sqrt var)
            /\ (var * (count col - 1) == sq_dev_total m col)%Q)
      /\ (n = 1%nat -> std st = NaN)
      /\ (exists s : list Z,
            Permutation s col /\ StronglySorted Z.le s
            /\ median st =
               Fin (if Nat.even n
                    then (inject_Z (nth (n / 2 - 1) s 0%Z)
                          + inject_Z (nth (n / 2) s 0%Z)) / 2
                    else inject_Z (nth (n / 2) s 0%Z))%Q)
      /\ (In (min st) col /\ Forall (fun x => min st <= x) col)
      /\ (In (max st) col /\ Forall (fun x => x <= max st) col)
      /\ (forall v : Z,
            (2 <= n)%nat -> Forall (eq v) col ->
            float_is (mean st) (inject_Z v)
            /\ float_is (median st) (inject_Z v)
            /\ min st = v /\ max st = v
            /\ float_is (std st) 0).
Proof.
  intros df Hdf Hsqrt col n m.
  destruct df as [|row rest]; [contradiction|].
  rewrite GeneratorFacts.statistics_of_cons.
  eexists. split; [reflexivity|].
  cbn [mean median min max std].
  change (map y (row :: rest)) with col.
  assert (Hcol : col = y row :: map y rest) by reflexivity.
  assert (Hcount : (0 < count col)%Q) by (rewrite Hcol; apply count_pos).
  split; [|split; [|split; [|split; [|split; [|split]]]]].
  - exists (inject_Z (py_sum col) / count col)%Q.
    split; [now rewrite Hcol|].
    rewrite py_sum_total. fold m. split; [reflexivity|].
    unfold m. field. lra.
  - intro Hn. exists (Series_var col). split.
    + unfold Series_std. fold n.
      destruct (Nat.leb_spec n 1) as [Hle|_]; [lia|reflexivity].
    + unfold Series_var, sum_sq_dev.
      rewrite sum_sq_dev_total, py_sum_total. fold m.
      assert (Hc : (2 <= count col)%Q) by now apply (count_length _ 2).
      field. lra.
  - intro Hn. unfold Series_std. fold n. now rewrite Hn.
  - exists (sort_values col).
    split; [apply sort_values_perm|].
    split; [apply sort_values_sorted|].
    apply Series_median_sorted. rewrite Hcol. discriminate.
  - rewrite Hcol. apply fold_min_spec.
  - rewrite Hcol. apply fold_max_spec.
  - intros v Hn Hall.
    destruct (constant_column v col Hn Hall Hsqrt)
      as [Hmean [Hmedian [Hmin [Hmax Hstd]]]].
    rewrite Hcol in Hmin, Hmax. cbn [Series_min Series_max] in Hmin, Hmax.
    repeat split; try assumption; congruence.
Qed.

(** C10. A request for one day is accepted, and the statistics of its single
    value [v] are mean = median = min = max = [v] with a NaN standard
    deviation. *)
Theorem single_day_std_is_nan :
  forall (now : Z) (location_name : string) (t : TransportType) (g : G),
    exists (resp : GenerateResponse) (g' : G) (v : Z),
      post_generate_data now (mkRequestBody location_name (value t) (Some 1)) g
      = (Handled (Ok resp), g')
      /\ r_days resp = 1
      /\ map y (r_data resp) = [v]
      /\ std (r_statistics resp) = NaN
      /\ float_is (mean (r_statistics resp)) (inject_Z v)
      /\ float_is (median (r_statistics resp)) (inject_Z v)
      /\ min (r_statistics resp) = v
      /\ max (r_statistics resp) = v.
Proof.
  intros now loc t g.
  unfold post_generate_data, validate.
  cbn [body_transport_type body_days body_location_name].
  rewrite GeneratorFacts.TransportType_of_value.
  change (days_in_range 1) with true. cbv iota.
  unfold generate_data.
  cbn [DataGen.days DataGen.location_name DataGen.transport_type].
  rewrite GeneratorFacts.generate_transport_data_rows.
  change (py_range 1) with [0].
  rewrite GeneratorFacts.rows_from_cons.
  cbn [rows_from state_after bind].
  rewrite GeneratorFacts.statistics_of_cons.
  set (row := fst (generate_day _ _ _ _ _ _)).
  eexists. eexists. exists (y row).
  split; [reflexivity|].
  cbn [r_days r_data r_statistics mean median min max std map fold_left].
  repeat split. cbn. unfold Qeq. cbn. lia.
Qed.

End Summaries.

(** Four rows of value 5. *)
Lemma summarize_statistics_witness :
  [mkRow 1 5; mkRow 2 5; mkRow 3 5; mkRow 4 5] <> []
  /\ (forall q : Q, (q == 0)%Q -> (sqrt_fixed q == 0)%Q)
  /\ exists st : Statistics,
       statistics_of [mkRow 1 5; mkRow 2 5; mkRow 3 5; mkRow 4 5] = Ok st
       /\ float_is (mean st) 5 /\ float_is (median st) 5
       /\ min st = 5 /\ max st = 5 /\ float_is (std st) 0.
Proof.
  assert (Hne : [mkRow 1 5; mkRow 2 5; mkRow 3 5; mkRow 4 5] <> [])
    by discriminate.
  assert (Hsqrt : forall q : Q, (q == 0)%Q -> (sqrt_fixed q == 0)%Q).
  { intros q Hq. unfold sqrt_fixed.
    assert (Hfloor : Qfloor (q * inject_Z (2 ^ 104)) = 0).
    { transitivity (Qfloor 0); [|reflexivity].
      apply Qfloor_comp. rewrite Hq. reflexivity. }
    rewrite Hfloor. reflexivity. }
  split; [exact Hne|]. split; [exact Hsqrt|].
  destruct (@summarize_statistics (list Q) scripted_numpy _ Hne Hsqrt)
    as [st [Hst [_ [_ [_ [_ [_ [_ Hconst]]]]]]]].
  exists st. split; [exact Hst|].
  apply (Hconst 5); [cbn; lia|repeat constructor].
Defined.

(** C8, as stated, fails on a series of one value: the value 5 alone is a
    series of identical values, and its standard deviation is NaN, not 0. *)
Lemma single_value_std_not_zero :
  exists st : Statistics,
    statistics_of [mkRow 739922 5] = Ok st
    /\ Forall (eq 5) (map y [mkRow 739922 5])
    /\ float_is (mean st) 5
    /\ std st = NaN
    /\ ~ float_is (std st) 0.
Proof.
  eexists. split; [reflexivity|].
  split; [repeat constructor|].
  split; [reflexivity|].
  split; [reflexivity|].
  intro Hzero. exact Hzero.
Qed.

End StatisticsFacts.

(** ** The area aggregator and the single-location endpoint *)

Module AreaFacts.

Import Prediction Spec PyFacts ScriptedService.

Local Open Scope Q_scope.
Local Open Scope string_scope.

(** What the loops keep of [get_location_data] is what the collaborator
    answered: a reply that came back and reports success. *)
Lemma get_location_data_fetched (client : HttpClient)
      (member : string * string) :
  usable (get_location_data client (snd member) (fst member) 90)
  = fetched client member.
Proof.
  unfold usable, get_location_data, call_data_generator, fetched.
  now destruct (client _ POST _).
Qed.

(** The score the code appends for a level is the code of the level. *)
Lemma level_score_code (level : CongestionLevel) :
  level_score level = level_code level.
Proof. now destruct level. Qed.

(** A failed fetch leaves nothing to keep. *)
Lemma fetch_failed_none (client : HttpClient) (member : string * string) :
  fetch_failed client member -> fetched client member = None.
Proof.
  unfold fetch_failed, fetched. cbv zeta.
  intros [Hdown|[[status [message Hstatus]]|[body [Hbody Hfalse]]]].
  - now rewrite Hdown.
  - now rewrite Hstatus.
  - now rewrite Hbody, Hfalse.
Qed.

(** The inner loop body appends the component of a member that returned data
    and leaves the state alone otherwise. *)
Lemma area_member_component (client : HttpClient) (multiplier : Q)
      (acc : AreaAcc) (member : string * string) :
  area_member client multiplier (fst member) acc (snd member) =
  let cs := component_list (member_component client multiplier member) in
  ((fst acc ++ level_codes cs)%list, (snd acc ++ cs)%list).
Proof.
  unfold area_member, member_component, estimate_at. cbv zeta.
  rewrite get_location_data_fetched.
  destruct (fetched client member).
  - cbn [component_list level_codes map c_congestion fst snd].
    now rewrite level_score_code.
  - cbn [component_list level_codes map]. rewrite !app_nil_r.
    now destruct acc.
Qed.

Lemma fold_area_member (client : HttpClient) (multiplier : Q)
      (transport_type : string) (locations : list string) :
  forall acc : AreaAcc,
    fold_left (area_member client multiplier transport_type) locations acc =
    let cs :=
      flat_map (fun m => component_list (member_component client multiplier m))
               (map (pair transport_type) locations) in
    ((fst acc ++ level_codes cs)%list, (snd acc ++ cs)%list).
Proof.
  induction locations as [|location rest IH]; intro acc; cbn [fold_left map flat_map].
  - cbn [level_codes map]. rewrite !app_nil_r. now destruct acc.
  - pose proof (area_member_component client multiplier acc
                                       (transport_type, location)) as Hm.
    cbn [fst snd] in Hm. rewrite Hm, IH. cbv zeta. cbn [fst snd].
    unfold level_codes. rewrite !map_app, !app_assoc. reflexivity.
Qed.

(** The two loops visit the members in order and keep the components of
    those that returned data. *)
Lemma area_collect_components (client : HttpClient) (multiplier : Q)
      (area_data : list (string * list string)) :
  area_collect client multiplier area_data =
  let cs :=
    flat_map (fun m => component_list (member_component client multiplier m))
             (members area_data) in
  (level_codes cs, cs).
Proof.
  unfold area_collect.
  enough (Hgen : forall acc : AreaAcc,
             fold_left
               (fun acc item =>
                  fold_left (area_member client multiplier (fst item))
                            (snd item) acc)
               area_data acc =
             ((fst acc
               ++ level_codes
                    (flat_map
                       (fun m => component_list
                                   (member_component client multiplier m))
                       (members area_data)))%list,
              (snd acc
               ++ flat_map
                    (fun m => component_list
                                (member_component client multiplier m))
                    (members area_data))%list)).
  { rewrite Hgen. reflexivity. }
  induction area_data as [|item rest IH]; intro acc; cbn [fold_left].
  - cbn. rewrite !app_nil_r. now destruct acc.
  - rewrite fold_area_member, IH. cbv zeta. cbn [fst snd].
    unfold members. cbn [flat_map]. fold (members rest).
    rewrite flat_map_app.
    unfold level_codes. rewrite !map_app, !app_assoc. reflexivity.
Qed.

(** The components kept are those of the surviving members. *)
Lemma components_of_survivors (client : HttpClient) (multiplier : Q)
      (l : list (string * string)) :
  map (fun c => (c_type c, c_location c))
      (flat_map (fun m => component_list (member_component client multiplier m)) l)
  = filter (fetch_ok client) l.
Proof.
  induction l as [|[tt location] rest IH]; [reflexivity|].
  cbn [flat_map filter]. rewrite map_app, IH.
  unfold member_component, fetch_ok.
  destruct (fetched client (tt, location)); reflexivity.
Qed.

(** A member whose fetch failed has no component. *)
Lemma member_component_failed (client : HttpClient) (multiplier : Q)
      (member : string * string) :
  fetch_ok client member = false ->
  member_component client multiplier member = None.
Proof.
  unfold fetch_ok, member_component.
  destruct (fetched client member); [discriminate|reflexivity].
Qed.

(** Such a member can be left out before collecting. *)
Lemma components_over_survivors (client : HttpClient) (multiplier : Q)
      (l : list (string * string)) :
  flat_map (fun m => component_list (member_component client multiplier m)) l
  = flat_map (fun m => component_list (member_component client multiplier m))
             (filter (fetch_ok client) l).
Proof.
  induction l as [|member rest IH]; [reflexivity|].
  cbn [flat_map filter]. rewrite IH.
  destruct (fetch_ok client member) eqn:E.
  - reflexivity.
  - now rewrite (member_component_failed client multiplier member E).
Qed.

Lemma area_aggregate_empty (area_name : string) (hour : Z) :
  area_aggregate area_name hour ([], []) =
  Raise (mkHTTPException 404 "No data available for this area").
Proof. reflexivity. Qed.

(** With at least one component the aggregation returns: the score is the
    rounded mean of the level codes, the level is read off the mean itself. *)
Lemma area_aggregate_ok (area_name : string) (hour : Z)
      (components : list Component) :
  components <> [] ->
  area_aggregate area_name hour (level_codes components, components) =
  Ok {| a_area := area_name;
        a_overall_congestion :=
          if Qle_bool 2.5 (mean_score components) then High
          else if Qle_bool 1.5 (mean_score components) then Medium
          else Low;
        a_congestion_score := py_round2 (mean_score components);
        a_current_hour := hour;
        a_components := components |}.
Proof.
  intro Hne. destruct components as [|c rest]; [contradiction|].
  unfold area_aggregate, mean_score.
  rewrite <- StatisticsFacts.py_sum_total.
  replace (List.length (c :: rest)) with (List.length (level_codes (c :: rest)))
    by apply length_map.
  reflexivity.
Qed.

(** C5. In every area result the list of components is non-empty, the score
    is the arithmetic mean of the components' levels coded Low 1, Medium 2,
    High 3 ([level_code], the coding of the specification, which the score
    the code appends is shown to follow), rounded to two decimals only in
    the reported value, and the
    overall level is read off the unrounded mean: High from 2.5, Medium from
    1.5, Low below.  Two components of levels High and Low give score 2.0 and
    overall level Medium. *)
Theorem area_score_is_mean :
  forall (client : HttpClient) (hour : Z) (area : string) (r : AreaPrediction),
    get_area_prediction client hour area = Ok r ->
    let components := a_components r in
    let score := mean_score components in
    components <> []
    /\ a_congestion_score r = py_round2 score
    /\ (2.5 <= score -> a_overall_congestion r = High)
    /\ (1.5 <= score -> score < 2.5 -> a_overall_congestion r = Medium)
    /\ (score < 1.5 -> a_overall_congestion r = Low)
    /\ (forall c1 c2 : Component,
          components = [c1; c2] ->
          (c_congestion c1 = High /\ c_congestion c2 = Low)
          \/ (c_congestion c1 = Low /\ c_congestion c2 = High) ->
          score == 2
          /\ a_congestion_score r == 2
          /\ a_overall_congestion r = Medium).
Proof.
  intros client hour area r Hr components score.
  unfold get_area_prediction in Hr.
  destruct (dict_lookup AREA_MAPPING area) as [area_data|]; [|discriminate].
  rewrite area_collect_components in Hr. cbv zeta in Hr.
  set (cs := flat_map _ (members area_data)) in Hr.
  destruct cs as [|c rest] eqn:Ecs; [discriminate|].
  rewrite area_aggregate_ok in Hr by discriminate.
  injection Hr as <-. subst components score. cbn [a_components a_congestion_score a_overall_congestion].
  set (score := mean_score (c :: rest)).
  assert (Hlevel :
            (2.5 <= score ->
             (if Qle_bool 2.5 score then High
              else if Qle_bool 1.5 score then Medium else Low) = High)
            /\ (1.5 <= score -> score < 2.5 ->
                (if Qle_bool 2.5 score then High
                 else if Qle_bool 1.5 score then Medium else Low) = Medium)
            /\ (score < 1.5 ->
                (if Qle_bool 2.5 score then High
                 else if Qle_bool 1.5 score then Medium else Low) = Low)).
  { destruct (Qle_bool 2.5 score) eqn:E1; destruct (Qle_bool 1.5 score) eqn:E2;
      rewrite ?Qle_bool_iff in *; rewrite ?Qle_bool_false in *;
      repeat split; intros; try reflexivity; exfalso; lra. }
  destruct Hlevel as [Hhigh [Hmedium Hlow]].
  split; [discriminate|]. split; [reflexivity|].
  split; [exact Hhigh|]. split; [exact Hmedium|]. split; [exact Hlow|].
  intros c1 c2 Hpair Hlevels.
  assert (Hscore : score == 2).
  { unfold score. rewrite Hpair. unfold mean_score, level_codes.
    cbn [map total fold_right List.length].
    destruct Hlevels as [[-> ->]|[-> ->]]; reflexivity. }
  split; [exact Hscore|]. split.
  - unfold py_round2.
    assert (Hround : py_round (score * 100) = 200%Z).
    { unfold score. rewrite Hpair. unfold mean_score, level_codes.
      cbn [map total fold_right List.length].
      destruct Hlevels as [[-> ->]|[-> ->]]; reflexivity. }
    rewrite Hround. reflexivity.
  - apply Hmedium; rewrite Hscore; [discriminate|reflexivity].
Qed.

(** Bandra at hour 9: the railway station High and the bus stand Low. *)
Lemma area_score_is_mean_witness :
  exists r : AreaPrediction,
    get_area_prediction bandra_client 9 "Bandra" = Ok r
    /\ map c_congestion (a_components r) = [High; Low]
    /\ a_congestion_score r == 2
    /\ a_overall_congestion r = Medium.
Proof.
  eexists. split; [reflexivity|].
  split; [reflexivity|].
  refine ((fun Hthm => _)
            (area_score_is_mean bandra_client 9 "Bandra" _ eq_refl)).
  cbv zeta in Hthm.
  destruct Hthm as [_ [_ [_ [_ [_ Hpair]]]]].
  destruct (Hpair _ _ eq_refl (or_introl (conj eq_refl eq_refl)))
    as [_ [Hscore Hlevel]].
  split; [exact Hscore|exact Hlevel].
Defined.

(** The level follows the unrounded mean: 300 components of mean 749/300
    report the score 2.5 and stay Medium. *)
Lemma area_level_ignores_rounding :
  let components :=
    (repeat (mkComponent "a" "bus" 0 High) 150
     ++ repeat (mkComponent "b" "bus" 0 Medium) 149
     ++ [mkComponent "c" "bus" 0 Low])%list in
  exists r : AreaPrediction,
    area_aggregate "area" 9 (level_codes components, components) = Ok r
    /\ a_congestion_score r == 2.5
    /\ a_overall_congestion r = Medium.
Proof.
  cbv zeta. eexists. split; [vm_compute; reflexivity|].
  split; reflexivity.
Qed.

(** The endpoint aggregates the components of the surviving members. *)
Lemma get_area_prediction_survivors (client : HttpClient) (hour : Z)
      (area : string) (area_data : list (string * list string)) :
  dict_lookup AREA_MAPPING area = Some area_data ->
  let multiplier := dict_get Z.eqb HOUR_MULTIPLIERS hour 0.8 in
  let kept :=
    flat_map (fun m => component_list (member_component client multiplier m))
             (survivors client area_data) in
  get_area_prediction client hour area
  = area_aggregate area hour (level_codes kept, kept).
Proof.
  intros Harea multiplier kept.
  unfold get_area_prediction. rewrite Harea.
  rewrite area_collect_components. cbv zeta.
  rewrite components_over_survivors. reflexivity.
Qed.

(** C6. In an area request the members whose fetch fails (the service
    cannot be reached, answers an error status, or replies without success)
    are skipped, and only they: with a collaborator whose replies carry
    means within range, the components are exactly those of the members it
    answered with data, in order, and the result is the aggregation of these
    alone.  With no surviving member the request fails with 404, no data
    available; otherwise it returns the partial result. *)
Theorem area_skips_failed_members :
  forall (client : HttpClient) (hour : Z) (area : string)
         (area_data : list (string * list string)),
    replies_in_range client ->
    dict_lookup AREA_MAPPING area = Some area_data ->
    let multiplier := dict_get Z.eqb HOUR_MULTIPLIERS hour 0.8 in
    let alive := survivors client area_data in
    let kept :=
      flat_map (fun m => component_list (member_component client multiplier m))
               alive in
    (forall member, fetch_failed client member -> ~ In member alive)
    /\ (forall member,
          In member (members area_data) ->
          ~ fetch_failed client member -> In member alive)
    /\ map (fun c => (c_type c, c_location c)) kept = alive
    /\ get_area_prediction client hour area
       = area_aggregate area hour (level_codes kept, kept)
    /\ (alive = [] ->
        get_area_prediction client hour area
        = Raise (mkHTTPException 404 "No data available for this area"))
    /\ (alive <> [] ->
        exists r : AreaPrediction,
          get_area_prediction client hour area = Ok r
          /\ a_components r = kept
          /\ a_congestion_score r = py_round2 (mean_score kept)).
Proof.
  intros client hour area area_data _ Harea multiplier alive kept.
  assert (Hkept : map (fun c => (c_type c, c_location c)) kept = alive).
  { unfold kept, alive, survivors.
    rewrite <- components_over_survivors. apply components_of_survivors. }
  assert (Hget : get_area_prediction client hour area
                 = area_aggregate area hour (level_codes kept, kept))
    by now apply get_area_prediction_survivors.
  split.
  { intros member Hfailed Hin. unfold alive, survivors in Hin.
    apply filter_In in Hin. destruct Hin as [_ Hok].
    unfold fetch_ok in Hok.
    now rewrite (fetch_failed_none client member Hfailed) in Hok. }
  split.
  { intros member Hin Hnot. unfold alive, survivors.
    apply filter_In. split; [exact Hin|].
    unfold fetch_ok, fetched. unfold fetch_failed in Hnot. cbv zeta in Hnot.
    destruct (client _ POST _) as [body| |status message].
    - destruct (success body) eqn:Esuccess; [reflexivity|].
      exfalso. apply Hnot. right. right. now exists body.
    - exfalso. apply Hnot. now left.
    - exfalso. apply Hnot. right. left. now exists status, message. }
  split; [exact Hkept|]. split; [exact Hget|]. split.
  - intro Hnone. rewrite Hget. unfold kept. rewrite Hnone. reflexivity.
  - intro Hsome.
    assert (Hne : kept <> []).
    { intro Hk. rewrite Hk in Hkept. cbn in Hkept. congruence. }
    rewrite Hget, (area_aggregate_ok area hour kept Hne).
    eexists. split; [reflexivity|]. split; reflexivity.
Qed.

(** At Bandra only the railway station answers: the request for the bus
    stand cannot reach the service, and the result holds the one component
    of the station. *)
Lemma area_skips_failed_members_witness :
  replies_in_range bandra_only_client
  /\ dict_lookup AREA_MAPPING "Bandra"
  = Some [("metro", []); ("railway", ["Bandra"]);
          ("bus", ["Bandra Bus Stand"]); ("signals", [])]
  /\ fetch_failed bandra_only_client ("bus", "Bandra Bus Stand")
  /\ survivors bandra_only_client
               [("metro", []); ("railway", ["Bandra"]);
                ("bus", ["Bandra Bus Stand"]); ("signals", [])]
     = [("railway", "Bandra")]
  /\ exists r : AreaPrediction,
       get_area_prediction bandra_only_client 9 "Bandra" = Ok r
       /\ map c_location (a_components r) = ["Bandra"].
Proof.
  assert (Hrange : replies_in_range bandra_only_client).
  { intros url method json_data body. unfold bandra_only_client.
    destruct json_data as [q|]; [|discriminate].
    destruct (String.eqb (q_location_name q) "Bandra"); [|discriminate].
    intro Hbody. injection Hbody as <-.
    unfold footfall_in_range. vm_compute. discriminate. }
  split; [exact Hrange|].
  split; [reflexivity|]. split; [now left|]. split; [reflexivity|].
  destruct (area_skips_failed_members bandra_only_client 9 "Bandra" _
              Hrange eq_refl)
    as [_ [_ [_ [_ [_ Hsome]]]]].
  destruct Hsome as [r [Hr [Hkept _]]]; [discriminate|].
  exists r. split; [exact Hr|]. rewrite Hkept. reflexivity.
Defined.

(** With the service down every area fails with the 404 of an empty
    aggregation. *)
Lemma area_all_failed (hour : Z) (area : string)
      (area_data : list (string * list string)) :
  dict_lookup AREA_MAPPING area = Some area_data ->
  get_area_prediction down_client hour area
  = Raise (mkHTTPException 404 "No data available for this area").
Proof.
  intro Harea.
  rewrite (get_area_prediction_survivors down_client hour area area_data Harea).
  cbv zeta.
  assert (Hnone : survivors down_client area_data = []).
  { unfold survivors.
    induction (members area_data) as [|m rest IH]; [reflexivity|].
    cbn [filter]. rewrite IH. reflexivity. }
  rewrite Hnone. reflexivity.
Qed.

End AreaFacts.

(** ** The single-location endpoint *)

Module LocationFacts.

Import Prediction Spec PyFacts ScriptedService.

Local Open Scope string_scope.


(** An unreachable service makes the call raise a 503. *)
Lemma call_unavailable (client : HttpClient) (endpoint : string)
      (method : Method) (json_data : option LocationQuery) :
  client (DATA_GEN_SERVICE_URL ++ endpoint) method json_data = RequestError ->
  call_data_generator client endpoint method json_data
  = Raise (mkHTTPException 503 "Data generator service unavailable").
Proof. intro Hnet. unfold call_data_generator. now rewrite Hnet. Qed.

(** With data the endpoint returns the estimate at the clock hour. *)
Lemma get_location_prediction_ok (client : HttpClient) (hour : Z)
      (location_name transport_type : string) (data : GeneratorReply) :
  get_transport_type location_name = Some transport_type ->
  usable (get_location_data client location_name transport_type 90) = Some data ->
  exists r : LocationPrediction,
    get_location_prediction client hour location_name = Ok r
    /\ (lp_current_footfall r, lp_congestion_level r)
       = estimate (statistics_mean data) transport_type hour
    /\ lp_base_daily_footfall r = py_int (statistics_mean data).
Proof.
  intros Htype Hdata. unfold get_location_prediction, estimate.
  rewrite Htype, Hdata.
  destruct (calculate_current_footfall hour (statistics_mean data))
    as [current_footfall multiplier].
  eexists. split; [reflexivity|]. split; reflexivity.
Qed.




End LocationFacts.

(** * Further properties of the code *)

(** ** The catalogue of the prediction service *)

Module CatalogFacts.

Import Prediction Spec PyFacts.

Local Open Scope string_scope.

Lemma str_in_In (x : string) (l : list string) :
  str_in x l = true <-> In x l.
Proof.
  unfold str_in. rewrite existsb_exists. split.
  - intros [y [Hy Heq]]. apply String.eqb_eq in Heq. now subst y.
  - intro Hx. exists x. split; [assumption|apply String.eqb_refl].
Qed.

Lemma str_in_not_In (x : string) (l : list string) :
  str_in x l = false <-> ~ In x l.
Proof.
  rewrite <- str_in_In. destruct (str_in x l); split; congruence.
Qed.

(** [get_transport_type] names the list that holds the location, and is
    [None] exactly on the names no list holds: the four lists do not
    overlap, so the order of the tests never matters. *)
Theorem get_transport_type_sound :
  forall name : string,
    (In name METRO_STATIONS -> get_transport_type name = Some "metro")
    /\ (In name RAILWAY_STATIONS -> get_transport_type name = Some "railway")
    /\ (In name BUS_STATIONS -> get_transport_type name = Some "bus")
    /\ (In name TRAFFIC_SIGNALS -> get_transport_type name = Some "signal")
    /\ (get_transport_type name = None <->
        ~ In name (METRO_STATIONS ++ RAILWAY_STATIONS
                   ++ BUS_STATIONS ++ TRAFFIC_SIGNALS)%list).
Proof.
  intro name.
  split; [|split; [|split; [|split]]].
  - intro Hin. cbn in Hin.
    repeat (destruct Hin as [<-|Hin]; [reflexivity|]). contradiction.
  - intro Hin. cbn in Hin.
    repeat (destruct Hin as [<-|Hin]; [reflexivity|]). contradiction.
  - intro Hin. cbn in Hin.
    repeat (destruct Hin as [<-|Hin]; [reflexivity|]). contradiction.
  - intro Hin. cbn in Hin.
    repeat (destruct Hin as [<-|Hin]; [reflexivity|]). contradiction.
  - unfold get_transport_type. rewrite !in_app_iff.
    destruct (str_in name METRO_STATIONS) eqn:Em;
      [apply str_in_In in Em; split; [discriminate|tauto]|].
    destruct (str_in name RAILWAY_STATIONS) eqn:Er;
      [apply str_in_In in Er; split; [discriminate|tauto]|].
    destruct (str_in name BUS_STATIONS) eqn:Eb;
      [apply str_in_In in Eb; split; [discriminate|tauto]|].
    destruct (str_in name TRAFFIC_SIGNALS) eqn:Es;
      [apply str_in_In in Es; split; [discriminate|tauto]|].
    apply str_in_not_In in Em, Er, Eb, Es. tauto.
Qed.

(** The transport type of a member of an area, from the key it is listed
    under: the key itself, but ["signal"] for the key ["signals"]. *)
Lemma area_member_type (area : string)
      (area_data : list (string * list string)) (key location : string) :
  dict_lookup AREA_MAPPING area = Some area_data ->
  In (key, location) (members area_data) ->
  get_transport_type location
  = Some (if String.eqb key "signals" then "signal" else key).
Proof.
  intros Harea Hin. unfold AREA_MAPPING in Harea. cbn [dict_lookup] in Harea.
  repeat match type of Harea with
         | (if ?b then _ else _) = _ =>
             destruct b;
             [injection Harea as <-; cbn in Hin;
              repeat (destruct Hin as [Hin|Hin];
                      [injection Hin as <- <-; reflexivity|]);
              contradiction|]
         end.
  discriminate.
Qed.

(** Every member of every area is a location of the catalogue, of the
    transport type of its key (["signal"] for the key ["signals"]). *)
Theorem area_members_known :
  forall (area : string) (area_data : list (string * list string))
         (key location : string),
    dict_lookup AREA_MAPPING area = Some area_data ->
    In (key, location) (members area_data) ->
    get_transport_type location
    = Some (if String.eqb key "signals" then "signal" else key).
Proof.
  intros area area_data key location Harea Hin.
  unfold AREA_MAPPING in Harea. cbn [dict_lookup] in Harea.
  repeat match type of Harea with
         | (if ?b then _ else _) = _ =>
             destruct b;
             [injection Harea as <-; cbn in Hin;
              repeat (destruct Hin as [Hin|Hin];
                      [injection Hin as <- <-; reflexivity|]);
              contradiction|]
         end.
  discriminate.
Qed.

(** Amboli Naka, listed under ["signals"] at Andheri. *)
Lemma area_members_known_witness :
  get_transport_type "Amboli Naka" = Some "signal".
Proof.
  refine (area_members_known "Andheri" _ "signals" "Amboli Naka" eq_refl _).
  cbn. tauto.
Defined.

End CatalogFacts.

(** ** The estimator, beyond its rules *)

Module EstimatorBounds.

Import Prediction Spec PyFacts FloatFacts EstimatorFacts.

Local Open Scope Q_scope.

(** Every multiplier the hour table can give, the default included, lies
    between 0.2 and 1.5. *)
Lemma hour_multiplier_range (hour : Z) :
  0.2 <= dict_get Z.eqb HOUR_MULTIPLIERS hour 0.8 <= 1.5.
Proof.
  rewrite hour_multiplier_lookup.
  destruct ((0 <=? hour) && (hour <=? 23))%Z eqn:E.
  - apply andb_true_iff in E. destruct E as [H0 H23].
    apply Z.leb_le in H0. apply Z.leb_le in H23.
    assert (Hn : (Z.to_nat hour < 24)%nat) by lia.
    generalize dependent (Z.to_nat hour). intros n Hn.
    do 24 (destruct n as [|n]; [split; vm_compute; discriminate|]). lia.
  - split; vm_compute; discriminate.
Qed.

(** The hours whose multiplier exceeds a threshold. *)
Lemma hours_above (bound : Q) (hours : list Z) (hour : Z) :
  (forall h : Z,
      In h (map Z.of_nat (seq 0 24)) ->
      bound < dict_get Z.eqb HOUR_MULTIPLIERS h 0.8 -> In h hours) ->
  0.8 <= bound ->
  bound < dict_get Z.eqb HOUR_MULTIPLIERS hour 0.8 ->
  In hour hours.
Proof.
  intros Htable Hbound Hm.
  destruct ((0 <=? hour) && (hour <=? 23))%Z eqn:E.
  - apply Htable; [|assumption].
    apply andb_true_iff in E. destruct E as [H0 H23].
    apply Z.leb_le in H0. apply Z.leb_le in H23.
    apply in_map_iff. exists (Z.to_nat hour).
    split; [lia|]. apply in_seq. lia.
  - rewrite hour_multiplier_lookup, E in Hm. lra.
Qed.

(** The level can be High only at the hours 8, 9, 18 and 19, and can leave
    Low only at the hours 8 to 11 and 17 to 20, whatever the footfall and the
    transport type. *)
Theorem level_by_hour :
  forall (base_footfall : Q) (transport_type : string) (hour : Z),
    let level := snd (estimate base_footfall transport_type hour) in
    (level = High -> In hour [8; 9; 18; 19]%Z)
    /\ (level <> Low -> In hour [8; 9; 10; 11; 17; 18; 19; 20]%Z).
Proof.
  intros base tt hour. cbv zeta. rewrite estimate_unfold.
  unfold estimate_at. cbn [snd]. split.
  - intro Hhigh. apply level_high_iff in Hhigh. destruct Hhigh as [Hm _].
    apply (hours_above 1.2); [|vm_compute; discriminate|exact Hm].
    intros h Hh Hlt. cbn in Hh.
    repeat (destruct Hh as [<-|Hh];
            [first [ exfalso; revert Hlt; vm_compute; discriminate
                   | cbn; tauto ]|]).
    contradiction.
  - intro Hnl. rewrite level_low_iff in Hnl.
    destruct (Qlt_le_dec 0.9 (dict_get Z.eqb HOUR_MULTIPLIERS hour 0.8))
      as [Hm|Hm]; [|exfalso; apply Hnl; intros [? _]; lra].
    apply (hours_above 0.9); [|vm_compute; discriminate|exact Hm].
    intros h Hh Hlt. cbn in Hh.
    repeat (destruct Hh as [<-|Hh];
            [first [ exfalso; revert Hlt; vm_compute; discriminate
                   | cbn; tauto ]|]).
    contradiction.
Qed.

(** For a fixed hour multiplier and transport type, the level never decreases
    when the base footfall grows. *)
Theorem estimate_monotone_in_base :
  forall (transport_type : string) (multiplier b1 b2 : Q),
    b1 <= b2 ->
    level_le (snd (estimate_at multiplier transport_type b1))
             (snd (estimate_at multiplier transport_type b2)).
Proof.
  intros tt m b1 b2 Hb. unfold estimate_at, level_le. cbn [snd].
  set (tf := dict_get String.eqb TRANSPORT_MULTIPLIERS tt 1.0).
  assert (Htf : 0 < tf) by apply transport_factor_pos.
  destruct (Qlt_le_dec 0.9 m) as [Hm|Hm].
  - assert (Hle : (py_int (fmul b1 m) <= py_int (fmul b2 m))%Z)
      by (apply py_int_mono; apply fmul_mono_l; [lra|exact Hb]).
    rewrite Zle_Qle in Hle.
    destruct (calculate_congestion_level (py_int (fmul b1 m)) tt m) eqn:E1.
    + destruct (calculate_congestion_level (py_int (fmul b2 m)) tt m); cbn; lia.
    + assert (Hnl : calculate_congestion_level (py_int (fmul b1 m)) tt m <> Low)
        by congruence.
      rewrite level_low_iff in Hnl. fold tf in Hnl.
      destruct (Qlt_le_dec 3000 (inject_Z (py_int (fmul b1 m)) * tf)) as [Ha|Ha];
        [|exfalso; apply Hnl; intros [? ?]; lra].
      destruct (calculate_congestion_level (py_int (fmul b2 m)) tt m) eqn:E2;
        cbn; try lia.
      apply level_low_iff in E2. exfalso. apply E2. fold tf. split; [lra|nra].
    + apply level_high_iff in E1. fold tf in E1. destruct E1 as [Hm1 Ha].
      assert (E2 : calculate_congestion_level (py_int (fmul b2 m)) tt m = High).
      { apply level_high_iff. fold tf. split; [lra|nra]. }
      rewrite E2. cbn. lia.
  - assert (E1 : calculate_congestion_level (py_int (fmul b1 m)) tt m = Low).
    { apply level_low_iff. intros [? _]. lra. }
    rewrite E1.
    destruct (calculate_congestion_level (py_int (fmul b2 m)) tt m); cbn; lia.
Qed.

(** Metro at hour 9, from a mean of 2000 to a mean of 4000. *)
Lemma estimate_monotone_in_base_witness :
  2000 <= 4000 /\
  level_le (snd (estimate_at 1.5 "metro" 2000))
           (snd (estimate_at 1.5 "metro" 4000)).
Proof.
  assert (H : 2000 <= 4000) by (vm_compute; discriminate).
  split; [exact H|].
  exact (estimate_monotone_in_base "metro" 1.5 2000 4000 H).
Defined.

(** For a non-negative base footfall whose products stay within the doubles,
    the current footfall lies between [int(base * 0.2)] and
    [int(base * 1.5)], both products in doubles as the code's own, at every
    hour: it is never negative. *)
Theorem current_footfall_bounds :
  forall (base_footfall : Q) (hour : Z),
    footfall_in_range base_footfall ->
    0 <= base_footfall ->
    (py_int (fmul base_footfall 0.2)
     <= fst (calculate_current_footfall hour base_footfall)
     <= py_int (fmul base_footfall 1.5))%Z
    /\ (0 <= fst (calculate_current_footfall hour base_footfall))%Z.
Proof.
  intros base hour _ Hbase. unfold calculate_current_footfall. cbn [fst].
  destruct (hour_multiplier_range hour) as [Hlo Hhi].
  set (m := dict_get Z.eqb HOUR_MULTIPLIERS hour 0.8) in *.
  split; [split|].
  - apply py_int_mono. now apply fmul_mono_r.
  - apply py_int_mono. now apply fmul_mono_r.
  - change 0%Z with (py_int 0). apply py_int_mono.
    apply fmul_nonneg; [exact Hbase|lra].
Qed.

(** A mean of 2564.6666666666665 at hour 9: the double product truncates to
    3847, one above the truncated exact product. *)
Lemma current_footfall_bounds_witness :
  footfall_in_range 2564.6666666666665 /\
  0 <= 2564.6666666666665 /\
  (512 <= fst (calculate_current_footfall 9 2564.6666666666665) <= 3847)%Z /\
  fst (calculate_current_footfall 9 2564.6666666666665) = 3847%Z /\
  py_int (2564.6666666666665 * 1.5) = 3846%Z.
Proof.
  assert (Hrange : footfall_in_range 2564.6666666666665)
    by (unfold footfall_in_range; vm_compute; discriminate).
  assert (H : 0 <= 2564.6666666666665) by (vm_compute; discriminate).
  split; [exact Hrange|]. split; [exact H|].
  pose proof (proj1 (current_footfall_bounds 2564.6666666666665 9 Hrange H))
    as Hb.
  assert (Elo : py_int (fmul 2564.6666666666665 0.2) = 512%Z)
    by (vm_compute; reflexivity).
  assert (Ehi : py_int (fmul 2564.6666666666665 1.5) = 3847%Z)
    by (vm_compute; reflexivity).
  rewrite Elo, Ehi in Hb.
  split; [exact Hb|]. split; vm_compute; reflexivity.
Defined.

End EstimatorBounds.

(** ** The area aggregator, beyond its score *)

Module AreaBounds.

Import Prediction Spec PyFacts FloatFacts AreaFacts ScriptedService.

Local Open Scope string_scope.
Local Open Scope Q_scope.

(** *** The shape of an area result *)

Lemma area_result_form (client : HttpClient) (hour : Z) (area : string)
      (r : AreaPrediction) :
  get_area_prediction client hour area = Ok r ->
  a_components r <> []
  /\ a_area r = area
  /\ a_current_hour r = hour
  /\ a_congestion_score r = py_round2 (mean_score (a_components r))
  /\ a_overall_congestion r =
     (if Qle_bool 2.5 (mean_score (a_components r)) then High
      else if Qle_bool 1.5 (mean_score (a_components r)) then Medium
      else Low)
  /\ exists area_data : list (string * list string),
       dict_lookup AREA_MAPPING area = Some area_data
       /\ a_components r =
          flat_map (fun m => component_list
                               (member_component client
                                  (dict_get Z.eqb HOUR_MULTIPLIERS hour 0.8%Q) m))
                   (members area_data).
Proof.
  intro Hr. unfold get_area_prediction in Hr.
  destruct (dict_lookup AREA_MAPPING area) as [area_data|]; [|discriminate].
  rewrite area_collect_components in Hr. cbv zeta in Hr.
  set (cs := flat_map _ (members area_data)) in Hr.
  assert (Hne : cs <> []).
  { intro Hnil. rewrite Hnil in Hr. discriminate. }
  rewrite (area_aggregate_ok area hour cs Hne) in Hr.
  injection Hr as <-. cbn.
  repeat split; try assumption.
  exists area_data. split; reflexivity.
Qed.

(** The codes of [n] components sum to between [n] and [3 n]. *)
Lemma level_codes_total (cs : list Component) :
  (Z.of_nat (List.length cs) <= total (level_codes cs)
   <= 3 * Z.of_nat (List.length cs))%Z.
Proof.
  induction cs as [|c cs IH]; [cbn; lia|].
  unfold level_codes in *. cbn [map total fold_right List.length].
  fold (total (map (fun c => level_code (c_congestion c)) cs)).
  destruct (c_congestion c); cbn [level_code]; lia.
Qed.

Lemma mean_score_range (cs : list Component) :
  cs <> [] -> 1 <= mean_score cs <= 3.
Proof.
  intro Hne. unfold mean_score.
  assert (Hn : 0 < inject_Z (Z.of_nat (List.length cs))).
  { change 0 with (inject_Z 0). rewrite <- Zlt_Qlt.
    destruct cs; [contradiction|cbn [List.length]; lia]. }
  destruct (level_codes_total cs) as [Hlo Hhi].
  rewrite Zle_Qle in Hlo. rewrite Zle_Qle, inject_Z_mult in Hhi.
  split.
  - apply Qle_shift_div_l; [assumption|lra].
  - apply Qle_shift_div_r; [assumption|]. change (inject_Z 3) with 3 in Hhi. lra.
Qed.

(** The score of every area result, and the mean behind it, lie between 1
    and 3, and the reported score is within 0.005 of the mean. *)
Theorem area_score_range :
  forall (client : HttpClient) (hour : Z) (area : string) (r : AreaPrediction),
    get_area_prediction client hour area = Ok r ->
    let score := mean_score (a_components r) in
    1 <= score <= 3
    /\ 1 <= a_congestion_score r <= 3
    /\ score - (1 # 200) <= a_congestion_score r <= score + (1 # 200).
Proof.
  intros client hour area r Hr score.
  destruct (area_result_form client hour area r Hr)
    as [Hne [_ [_ [Hscore _]]]].
  destruct (mean_score_range _ Hne) as [Hlo Hhi]. fold score in Hlo, Hhi.
  rewrite Hscore. fold score.
  destruct (py_round_close (score * 100)) as [Hclo Hchi].
  set (k := py_round (score * 100)) in *.
  assert (Hk : py_round2 score * 100 == inject_Z k)
    by (unfold py_round2; fold k; field).
  assert (Hk100 : (100 <= k <= 300)%Z).
  { assert (H1 : (199 # 2) <= inject_Z k) by lra.
    assert (H2 : inject_Z k <= (601 # 2)) by lra.
    unfold Qle in H1, H2. cbn in H1, H2. lia. }
  destruct Hk100 as [Hk1 Hk3].
  rewrite Zle_Qle in Hk1, Hk3.
  change (inject_Z 100) with 100 in Hk1. change (inject_Z 300) with 300 in Hk3.
  repeat split; lra.
Qed.

(** Bandra at hour 9: the mean and the reported score are both 2. *)
Lemma area_score_range_witness :
  exists r : AreaPrediction,
    get_area_prediction bandra_client 9 "Bandra" = Ok r
    /\ 1 <= a_congestion_score r <= 3.
Proof.
  eexists. split; [reflexivity|].
  exact (proj1 (proj2 (area_score_range bandra_client 9 "Bandra" _ eq_refl))).
Defined.

Lemma level_codes_constant (level : CongestionLevel) (cs : list Component) :
  Forall (fun c => c_congestion c = level) cs ->
  total (level_codes cs) = (level_score level * Z.of_nat (List.length cs))%Z.
Proof.
  induction 1 as [|c cs Hc Hall IH]; [cbn; lia|].
  unfold level_codes in *. cbn [map total fold_right List.length].
  fold (total (map (fun c => level_code (c_congestion c)) cs)).
  rewrite IH, Hc. destruct level; cbn [level_score level_code]; lia.
Qed.

(** When every component of an area result has the same level, the overall
    level is that level and the score is its code. *)
Theorem area_uniform_level :
  forall (client : HttpClient) (hour : Z) (area : string) (r : AreaPrediction)
         (level : CongestionLevel),
    get_area_prediction client hour area = Ok r ->
    Forall (fun c => c_congestion c = level) (a_components r) ->
    a_overall_congestion r = level
    /\ mean_score (a_components r) == inject_Z (level_score level)
    /\ a_congestion_score r == inject_Z (level_score level).
Proof.
  intros client hour area r level Hr Hall.
  destruct (area_result_form client hour area r Hr)
    as [Hne [_ [_ [Hscore [Hlevel _]]]]].
  assert (Hmean : mean_score (a_components r) == inject_Z (level_score level)).
  { unfold mean_score. rewrite (level_codes_constant level _ Hall).
    rewrite inject_Z_mult. field.
    change 0 with (inject_Z 0). rewrite inject_Z_injective.
    destruct (a_components r); [contradiction|cbn [List.length]; lia]. }
  split; [|split].
  - rewrite Hlevel.
    destruct (Qle_bool 2.5 (mean_score (a_components r))) eqn:E1;
      destruct (Qle_bool 1.5 (mean_score (a_components r))) eqn:E2;
      rewrite ?Qle_bool_iff in *; rewrite ?Qle_bool_false in *;
      rewrite Hmean in *; destruct level; cbn [level_score] in *;
      try reflexivity; exfalso;
      repeat match goal with
             | H : _ <= inject_Z _ |- _ => unfold Qle in H; cbn in H
             | H : inject_Z _ < _ |- _ => unfold Qlt in H; cbn in H
             end; lia.
  - exact Hmean.
  - rewrite Hscore. unfold py_round2.
    assert (Hr100 : py_round (mean_score (a_components r) * 100)
                    = (level_score level * 100)%Z).
    { rewrite <- py_round_Z. apply py_round_comp.
      rewrite Hmean, inject_Z_mult. reflexivity. }
    rewrite Hr100, inject_Z_mult. change (inject_Z 100) with 100. field.
Qed.

(** Only Bandra station answers, at hour 9: one component, High. *)
Lemma area_uniform_level_witness :
  exists r : AreaPrediction,
    get_area_prediction bandra_only_client 9 "Bandra" = Ok r
    /\ a_overall_congestion r = High
    /\ a_congestion_score r == 3.
Proof.
  eexists. split; [reflexivity|].
  refine ((fun Hthm => conj (proj1 Hthm) (proj2 (proj2 Hthm)))
            (area_uniform_level bandra_only_client 9 "Bandra" _ High eq_refl _)).
  repeat constructor.
Defined.

End AreaBounds.

(** ** Majorities, and the collection endpoints *)

Module CollectionFacts.

Import Prediction PredictionBulk Spec PyFacts AreaFacts AreaBounds
       CatalogFacts ScriptedService.

Local Open Scope string_scope.
Local Open Scope Q_scope.

(** *** What an overall level says about the components *)

Lemma level_codes_high_low (cs : list Component) :
  let n := Z.of_nat (List.length cs) in
  let highs :=
    Z.of_nat (List.length
                (filter (fun c => match c_congestion c with
                                  | High => true | _ => false end) cs)) in
  let lows :=
    Z.of_nat (List.length
                (filter (fun c => match c_congestion c with
                                  | Low => true | _ => false end) cs)) in
  (2 * n - lows <= total (level_codes cs) <= 2 * n + highs)%Z.
Proof.
  induction cs as [|c cs IH]; [cbn; lia|].
  cbv zeta in *. unfold level_codes in *.
  cbn [map total fold_right List.length filter].
  fold (total (map (fun c => level_code (c_congestion c)) cs)).
  destruct (c_congestion c); cbn [level_code List.length]; lia.
Qed.

(** An area is High only when at least half of its components are High, and
    Low only when more than half of them are Low. *)
Theorem area_level_majority :
  forall (client : HttpClient) (hour : Z) (area : string) (r : AreaPrediction),
    get_area_prediction client hour area = Ok r ->
    let n := List.length (a_components r) in
    let highs :=
      List.length
        (filter (fun c => match c_congestion c with
                          | High => true | _ => false end) (a_components r)) in
    let lows :=
      List.length
        (filter (fun c => match c_congestion c with
                          | Low => true | _ => false end) (a_components r)) in
    (a_overall_congestion r = High -> (n <= 2 * highs)%nat)
    /\ (a_overall_congestion r = Low -> (n < 2 * lows)%nat).
Proof.
  intros client hour area r Hr n highs lows.
  destruct (area_result_form client hour area r Hr)
    as [Hne [_ [_ [_ [Hlevel _]]]]].
  pose proof (level_codes_high_low (a_components r)) as Hcodes.
  cbv zeta in Hcodes. fold n highs lows in Hcodes.
  set (s := total (level_codes (a_components r))) in *.
  assert (Hn : (0 < Z.of_nat n)%Z).
  { unfold n. destruct (a_components r); [contradiction|cbn [List.length]; lia]. }
  assert (Hnq : 0 < inject_Z (Z.of_nat n)).
  { change 0 with (inject_Z 0). now rewrite <- Zlt_Qlt. }
  assert (Hmean : mean_score (a_components r) * inject_Z (Z.of_nat n)
                  == inject_Z s).
  { unfold mean_score. fold n s. field. lra. }
  set (q := mean_score (a_components r)) in *.
  split; intro Hov; rewrite Hlevel in Hov.
  - destruct (Qle_bool 2.5 q) eqn:E1;
      [|destruct (Qle_bool 1.5 q); discriminate].
    apply Qle_bool_iff in E1.
    assert (H5 : inject_Z (5 * Z.of_nat n) <= inject_Z (2 * s)).
    { rewrite !inject_Z_mult. change (inject_Z 5) with 5.
      change (inject_Z 2) with 2. nra. }
    rewrite <- Zle_Qle in H5. lia.
  - destruct (Qle_bool 2.5 q) eqn:E1; [discriminate|].
    destruct (Qle_bool 1.5 q) eqn:E2; [discriminate|].
    apply Qle_bool_false in E2.
    assert (H3 : inject_Z (2 * s) < inject_Z (3 * Z.of_nat n)).
    { rewrite !inject_Z_mult. change (inject_Z 3) with 3.
      change (inject_Z 2) with 2. nra. }
    rewrite <- Zlt_Qlt in H3. lia.
Qed.

(** Only Bandra station answers, at hour 9: High, with its one component. *)
Lemma area_level_majority_witness :
  exists r : AreaPrediction,
    get_area_prediction bandra_only_client 9 "Bandra" = Ok r
    /\ a_overall_congestion r = High
    /\ (List.length (a_components r)
        <= 2 * List.length
                 (filter (fun c => match c_congestion c with
                                   | High => true | _ => false end)
                         (a_components r)))%nat.
Proof.
  eexists. split; [reflexivity|]. split; [reflexivity|].
  exact (proj1 (area_level_majority bandra_only_client 9 "Bandra" _ eq_refl)
               eq_refl).
Defined.

(** *** All areas *)

Lemma collect_ok {A B : Type} (f : A -> result HTTPException B) (l : list A) :
  forall acc : list B,
    fold_left (fun results x =>
                 match f x with
                 | Ok b => (results ++ [b])%list
                 | Raise _ => results
                 end) l acc
    = (acc ++ flat_map (fun x => match f x with
                                 | Ok b => [b]
                                 | Raise _ => []
                                 end) l)%list.
Proof.
  induction l as [|x l IH]; intro acc; cbn [fold_left flat_map].
  - now rewrite app_nil_r.
  - rewrite IH. destruct (f x); [now rewrite <- app_assoc|reflexivity].
Qed.

Lemma flat_map_ok_names {A : Type} (f : string -> result HTTPException A)
      (name_of : A -> string) (l : list string) :
  (forall x a, f x = Ok a -> name_of a = x) ->
  map name_of (flat_map (fun x => match f x with
                                  | Ok b => [b]
                                  | Raise _ => []
                                  end) l)
  = filter (fun x => match f x with Ok _ => true | Raise _ => false end) l.
Proof.
  intro Hname. induction l as [|x l IH]; [reflexivity|].
  cbn [flat_map filter]. rewrite map_app, IH.
  destruct (f x) as [a|e] eqn:E; [|reflexivity].
  cbn. now rewrite (Hname x a E).
Qed.

(** The all-areas endpoint never fails.  It returns, in the order of the
    catalogue, the result of every area whose own request succeeds and
    leaves the others out; the count is the number of results, at most 7. *)
Theorem all_areas_collects_successes :
  forall (client : HttpClient) (hour : Z),
    let r := get_all_areas_congestion client hour in
    map a_area (areas r)
    = filter (fun area =>
                match get_area_prediction client hour area with
                | Ok _ => true
                | Raise _ => false
                end) (map fst AREA_MAPPING)
    /\ Forall (fun a => get_area_prediction client hour (a_area a) = Ok a)
              (areas r)
    /\ total_areas r = Z.of_nat (List.length (areas r))
    /\ (total_areas r <= 7)%Z.
Proof.
  intros client hour. cbv zeta. unfold get_all_areas_congestion.
  cbn [areas total_areas]. rewrite collect_ok. cbn [app].
  set (f := get_area_prediction client hour).
  assert (Hname : forall x a, f x = Ok a -> a_area a = x).
  { intros x a Hx. now destruct (area_result_form client hour x a Hx)
      as [_ [Harea _]]. }
  assert (Hnames := flat_map_ok_names f a_area (map fst AREA_MAPPING) Hname).
  split; [exact Hnames|]. split; [|split; [reflexivity|]].
  - rewrite Forall_forall. intros a Ha.
    apply in_flat_map in Ha. destruct Ha as [x [_ Hx]].
    destruct (f x) as [b|e] eqn:E; [|contradiction].
    destruct Hx as [<-|[]]. now rewrite (Hname x b E).
  - rewrite <- (length_map a_area), Hnames.
    pose proof (filter_length_le
                  (fun area => match f area with
                               | Ok _ => true | Raise _ => false end)
                  (map fst AREA_MAPPING)) as Hle.
    change (List.length (map fst AREA_MAPPING)) with 7%nat in Hle. lia.
Qed.

(** *** One transport type *)

Lemma fold_type_member (client : HttpClient) (multiplier : Q)
      (transport_type : string) (locations : list string) :
  forall results : list TypeLocation,
    fold_left (type_member client multiplier transport_type) locations results
    = (results
       ++ flat_map
            (fun location =>
               match fetched client (transport_type, location) with
               | Some data =>
                   [mkTypeLocation location
                      (fst (estimate_at multiplier transport_type
                                        (statistics_mean data)))
                      (snd (estimate_at multiplier transport_type
                                        (statistics_mean data)))]
               | None => []
               end) locations)%list.
Proof.
  induction locations as [|location rest IH]; intro results;
    cbn [fold_left flat_map].
  - now rewrite app_nil_r.
  - rewrite IH. unfold type_member, estimate_at. cbv zeta.
    pose proof (get_location_data_fetched client (transport_type, location))
      as Hfetched.
    cbn [fst snd] in Hfetched. rewrite Hfetched.
    destruct (fetched client (transport_type, location));
      [now rewrite <- app_assoc|reflexivity].
Qed.

Lemma type_entries_names (client : HttpClient) (multiplier : Q)
      (transport_type : string) (stations : list string) :
  map t_location
      (flat_map
         (fun location =>
            match fetched client (transport_type, location) with
            | Some data =>
                [mkTypeLocation location
                   (fst (estimate_at multiplier transport_type
                                     (statistics_mean data)))
                   (snd (estimate_at multiplier transport_type
                                     (statistics_mean data)))]
            | None => []
            end) stations)
  = filter (fun location => fetch_ok client (transport_type, location))
           stations.
Proof.
  induction stations as [|s l IH]; [reflexivity|].
  cbn [flat_map filter]. rewrite map_app, IH.
  unfold fetch_ok.
  destruct (fetched client (transport_type, s)); reflexivity.
Qed.

(** The endpoint on a type with stations, in the model of a collaborator
    whose replies carry their statistics. *)
Lemma get_transport_type_data_entries (client : HttpClient) (hour : Z)
      (transport_type : string) (stations : list string) :
  stations <> [] ->
  dict_lookup type_map transport_type = Some stations ->
  let multiplier := dict_get Z.eqb HOUR_MULTIPLIERS hour 0.8 in
  let entries :=
    flat_map
      (fun location =>
         match fetched client (transport_type, location) with
         | Some data =>
             [mkTypeLocation location
                (fst (estimate_at multiplier transport_type
                                  (statistics_mean data)))
                (snd (estimate_at multiplier transport_type
                                  (statistics_mean data)))]
         | None => []
         end) stations in
  get_transport_type_data client hour transport_type
  = Ok {| td_transport_type := transport_type;
          td_locations := entries;
          td_total_locations := Z.of_nat (List.length entries);
          td_current_hour := hour |}.
Proof.
  intros Hne Hlookup. cbv zeta.
  unfold get_transport_type_data. rewrite Hlookup.
  destruct stations as [|s0 rest]; [contradiction|].
  rewrite fold_type_member. reflexivity.
Qed.

Lemma type_map_stations (t : DataGen.TransportType) :
  exists stations : list string,
    dict_lookup type_map (DataGen.value t) = Some stations
    /\ stations <> [] /\ (List.length stations <= 10)%nat.
Proof.
  destruct t; eexists; (split; [reflexivity|]); split;
    try discriminate; cbn; lia.
Qed.

(** The transport-type endpoint fails with 404 on a name outside the four
    types.  On one of the four, whenever it answers, it lists in the order
    of the catalogue one entry per location the collaborator answered with
    data (at most 10), each holding the estimate of that location at the
    hour multiplier; when every fetch fails it answers with the empty
    list. *)
Theorem transport_type_data_collects :
  forall (client : HttpClient) (hour : Z) (transport_type : string),
    (DataGen.TransportType_of transport_type = None ->
     get_transport_type_data client hour transport_type
     = Raise (mkHTTPException 404 "Invalid transport type"))
    /\ (forall t : DataGen.TransportType,
          transport_type = DataGen.value t ->
          exists stations : list string,
            dict_lookup type_map transport_type = Some stations
            /\ (forall r : TypeData,
                  get_transport_type_data client hour transport_type = Ok r ->
                  map t_location (td_locations r)
                  = filter (fun location =>
                              fetch_ok client (transport_type, location))
                           stations
                  /\ td_total_locations r
                     = Z.of_nat (List.length (td_locations r))
                  /\ (td_total_locations r <= 10)%Z
                  /\ Forall (fun e =>
                               exists data : GeneratorReply,
                                 fetched client (transport_type, t_location e)
                                 = Some data
                                 /\ (t_footfall e, t_congestion e)
                                    = estimate_at
                                        (dict_get Z.eqb HOUR_MULTIPLIERS hour 0.8)
                                        transport_type (statistics_mean data))
                            (td_locations r))
            /\ ((forall location : string,
                    In location stations ->
                    fetch_failed client (transport_type, location)) ->
                get_transport_type_data client hour transport_type
                = Ok {| td_transport_type := transport_type;
                        td_locations := [];
                        td_total_locations := 0;
                        td_current_hour := hour |})).
Proof.
  intros client hour tt. split.
  - intro Hnone. unfold DataGen.TransportType_of in Hnone.
    unfold get_transport_type_data, type_map. cbn [dict_lookup].
    rewrite (String.eqb_sym "metro" tt), (String.eqb_sym "railway" tt),
      (String.eqb_sym "bus" tt), (String.eqb_sym "signal" tt).
    destruct (String.eqb tt "metro"); [discriminate|].
    destruct (String.eqb tt "railway"); [discriminate|].
    destruct (String.eqb tt "bus"); [discriminate|].
    destruct (String.eqb tt "signal"); [discriminate|].
    reflexivity.
  - intros t ->.
    set (m := dict_get Z.eqb HOUR_MULTIPLIERS hour 0.8).
    destruct (type_map_stations t) as [stations [Hlookup [Hne Hlen]]].
    exists stations. split; [exact Hlookup|].
    pose proof (get_transport_type_data_entries client hour (DataGen.value t)
                  stations Hne Hlookup) as Hget.
    cbv zeta in Hget. fold m in Hget.
    pose proof (type_entries_names client m (DataGen.value t) stations)
      as Hnames.
    set (entries := flat_map _ stations) in *.
    split.
    + intros r Hr. rewrite Hget in Hr. injection Hr as <-.
      cbn [td_locations td_total_locations].
      split; [exact Hnames|]. split; [reflexivity|]. split.
      * assert (Hcount : List.length (map t_location entries)
                         = List.length entries) by apply length_map.
        rewrite <- Hcount, Hnames.
        pose proof (filter_length_le
                      (fun location =>
                         fetch_ok client (DataGen.value t, location))
                      stations). lia.
      * rewrite Forall_forall. intros e He. unfold entries in He.
        apply in_flat_map in He. destruct He as [location [_ Hloc]].
        destruct (fetched client (DataGen.value t, location))
          as [data|] eqn:E; [|contradiction].
        destruct Hloc as [<-|[]]. cbn [t_location t_footfall t_congestion].
        exists data. split; [exact E|].
        now destruct (estimate_at m (DataGen.value t) (statistics_mean data)).
    + intro Hfailed. rewrite Hget.
      assert (Hnone : entries = []).
      { unfold entries. clear Hget Hnames entries Hlookup Hne Hlen.
        induction stations as [|s l IH]; [reflexivity|].
        cbn [flat_map].
        rewrite (fetch_failed_none client (DataGen.value t, s))
          by (apply Hfailed; now left).
        apply IH. intros location Hin. apply Hfailed. now right. }
      rewrite Hnone. reflexivity.
Qed.

(** The railway stations at hour 9: with only Bandra answering the result
    lists Bandra alone, and with the service down it is empty. *)
Lemma transport_type_data_collects_witness :
  exists r : TypeData,
    get_transport_type_data bandra_only_client 9 "railway" = Ok r
    /\ map t_location (td_locations r) = ["Bandra"]
    /\ get_transport_type_data down_client 9 "railway"
       = Ok {| td_transport_type := "railway";
               td_locations := [];
               td_total_locations := 0;
               td_current_hour := 9 |}.
Proof.
  eexists. split; [reflexivity|].
  destruct (proj2 (transport_type_data_collects bandra_only_client 9 "railway")
                  DataGen.railway eq_refl) as [stations [Hlookup [Hok _]]].
  injection Hlookup as <-.
  destruct (Hok _ eq_refl) as [Hnames _].
  split; [exact Hnames|].
  destruct (proj2 (transport_type_data_collects down_client 9 "railway")
                  DataGen.railway eq_refl) as [stations [_ [_ Hempty]]].
  apply Hempty. intros location _. now left.
Defined.

End CollectionFacts.

(** ** The requests one service sends to the other *)

Module WireFacts.

Import Prediction Spec PyFacts AreaFacts AreaBounds CatalogFacts
       ScriptedService Wire.

Local Open Scope string_scope.

Lemma transport_type_names (name transport_type : string) :
  get_transport_type name = Some transport_type ->
  In transport_type ["metro"; "railway"; "bus"; "signal"].
Proof.
  unfold get_transport_type.
  destruct (str_in name METRO_STATIONS);
    [intro Ht; injection Ht as <-; cbn; tauto|].
  destruct (str_in name RAILWAY_STATIONS);
    [intro Ht; injection Ht as <-; cbn; tauto|].
  destruct (str_in name BUS_STATIONS);
    [intro Ht; injection Ht as <-; cbn; tauto|].
  destruct (str_in name TRAFFIC_SIGNALS);
    [intro Ht; injection Ht as <-; cbn; tauto|].
  discriminate.
Qed.

Lemma validating_client_relays : relays_validation validating_client.
Proof.
  intros url q e Hv. unfold validating_client. rewrite Hv.
  eexists. eexists. reflexivity.
Qed.

Lemma validating_client_in_range : replies_in_range validating_client.
Proof.
  intros url method json_data body. unfold validating_client.
  destruct json_data as [q|]; [|discriminate].
  destruct (DataGen.validate (request_body q)); [|discriminate].
  intro Hbody. injection Hbody as <-.
  unfold footfall_in_range. vm_compute. discriminate.
Qed.

Lemma validating_client_accepts : accepts_valid validating_client.
Proof.
  intros url q request Hv. unfold validating_client. rewrite Hv.
  eexists. split; [reflexivity|]. split; [reflexivity|].
  unfold footfall_in_range. vm_compute. discriminate.
Qed.

(** A fetch under the key ["signals"] fails on every client that relays the
    generator's validation. *)
Lemma signals_fetch_fails (client : HttpClient) (location : string) :
  relays_validation client ->
  fetched client ("signals", location) = None.
Proof.
  intro Hrelay. unfold fetched. cbn [fst snd].
  destruct (Hrelay (DATA_GEN_SERVICE_URL ++ "/api/generate/data")
                   (mkLocationQuery location "signals" 90)
                   (DataGen.InvalidFields ["transport_type"]) eq_refl)
    as [status [message Hanswer]].
  rewrite Hanswer. reflexivity.
Qed.

(** What [get_location_data] keeps when the collaborator answers its request
    with a reply that reports success. *)
Lemma fetched_answer (client : HttpClient) (key location : string)
      (body : GeneratorReply) :
  client (DATA_GEN_SERVICE_URL ++ "/api/generate/data") POST
         (Some (mkLocationQuery location key 90)) = Responded body ->
  success body = true ->
  usable (get_location_data client location key 90) = Some body.
Proof.
  intros Hanswer Hsuccess.
  pose proof (get_location_data_fetched client (key, location)) as Hfetched.
  cbn [fst snd] in Hfetched. rewrite Hfetched.
  unfold fetched. cbn [fst snd]. now rewrite Hanswer, Hsuccess.
Qed.

(** The single-location endpoint asks the generator for a known location
    with a body that always passes the generator's validation: its transport
    type is one of the enumeration and its day count is 90.  When the
    collaborator answers that very request with a reply reporting success
    and a mean within range, the endpoint returns the prediction built on
    that reply; so a collaborator that answers every body the generator
    accepts in this way serves every known location. *)
Theorem location_request_is_valid :
  forall (client : HttpClient) (hour : Z) (name transport_type : string),
    get_transport_type name = Some transport_type ->
    let q := mkLocationQuery name transport_type 90 in
    (exists request : DataGen.DataGenerationRequest,
        DataGen.validate (request_body q) = Ok request
        /\ DataGen.location_name request = name
        /\ DataGen.value (DataGen.transport_type request) = transport_type
        /\ DataGen.days request = 90%Z)
    /\ (forall body : GeneratorReply,
          client (DATA_GEN_SERVICE_URL ++ "/api/generate/data") POST (Some q)
          = Responded body ->
          success body = true ->
          footfall_in_range (statistics_mean body) ->
          exists r : LocationPrediction,
            get_location_prediction client hour name = Ok r
            /\ lp_location r = name
            /\ lp_transport_type r = transport_type
            /\ (lp_current_footfall r, lp_congestion_level r)
               = estimate (statistics_mean body) transport_type hour)
    /\ (accepts_valid client ->
        exists r : LocationPrediction,
          get_location_prediction client hour name = Ok r).
Proof.
  intros client hour name tt Htype q.
  assert (Hvalid :
            exists request : DataGen.DataGenerationRequest,
              DataGen.validate (request_body q) = Ok request
              /\ DataGen.location_name request = name
              /\ DataGen.value (DataGen.transport_type request) = tt
              /\ DataGen.days request = 90%Z).
  { pose proof (transport_type_names name tt Htype) as Hnames.
    cbn in Hnames. unfold q.
    repeat (destruct Hnames as [<-|Hnames];
            [eexists; split; [reflexivity|]; repeat split|]).
    contradiction. }
  assert (Hserved :
            forall body : GeneratorReply,
              client (DATA_GEN_SERVICE_URL ++ "/api/generate/data") POST
                     (Some q) = Responded body ->
              success body = true ->
              footfall_in_range (statistics_mean body) ->
              exists r : LocationPrediction,
                get_location_prediction client hour name = Ok r
                /\ lp_location r = name
                /\ lp_transport_type r = tt
                /\ (lp_current_footfall r, lp_congestion_level r)
                   = estimate (statistics_mean body) tt hour).
  { intros body Hanswer Hsuccess _.
    unfold get_location_prediction. rewrite Htype.
    rewrite (fetched_answer client tt name body Hanswer Hsuccess).
    unfold estimate, calculate_current_footfall.
    eexists. split; [reflexivity|]. repeat split. }
  split; [exact Hvalid|]. split; [exact Hserved|].
  intro Haccepts. destruct Hvalid as [request [Hv _]].
  destruct (Haccepts (DATA_GEN_SERVICE_URL ++ "/api/generate/data") q request Hv)
    as [body [Hanswer [Hsuccess Hrange]]].
  destruct (Hserved body Hanswer Hsuccess Hrange) as [r [Hr _]].
  now exists r.
Qed.

(** Andheri is a metro station, served by the validating client. *)
Lemma location_request_is_valid_witness :
  (exists request : DataGen.DataGenerationRequest,
      DataGen.validate (request_body (mkLocationQuery "Andheri" "metro" 90))
      = Ok request
      /\ DataGen.days request = 90%Z)
  /\ accepts_valid validating_client
  /\ exists r : LocationPrediction,
       get_location_prediction validating_client 9 "Andheri" = Ok r.
Proof.
  destruct (location_request_is_valid validating_client 9 "Andheri" "metro"
              eq_refl) as [[request [Hv [_ [_ Hd]]]] [_ Hserved]].
  split; [exists request; split; assumption|].
  split; [exact validating_client_accepts|].
  exact (Hserved validating_client_accepts).
Defined.

(** The area endpoint asks the generator for a member with the key the
    member is listed under as transport type.  Under ["metro"], ["railway"]
    and ["bus"] that body passes the validation of the generator, and when
    the collaborator answers it with a reply reporting success (all its
    replies carrying means within range) the area result holds the member's
    component.  Under ["signals"] the body is
    rejected for its transport type, which the enumeration spells
    ["signal"], so with a collaborator that relays the validation the member
    is in no area result. *)
Theorem area_request_validation :
  forall (client : HttpClient) (hour : Z) (area : string)
         (area_data : list (string * list string)) (key location : string),
    dict_lookup AREA_MAPPING area = Some area_data ->
    In (key, location) (members area_data) ->
    let q := mkLocationQuery location key 90 in
    (key = "signals" ->
     DataGen.validate (request_body q)
     = Raise (DataGen.InvalidFields ["transport_type"])
     /\ (relays_validation client ->
         forall r : AreaPrediction,
           get_area_prediction client hour area = Ok r ->
           ~ In (key, location)
                (map (fun c => (c_type c, c_location c)) (a_components r))))
    /\ (key <> "signals" ->
        (exists request : DataGen.DataGenerationRequest,
            DataGen.validate (request_body q) = Ok request
            /\ DataGen.location_name request = location
            /\ DataGen.value (DataGen.transport_type request) = key
            /\ DataGen.days request = 90%Z)
        /\ (forall body : GeneratorReply,
              client (DATA_GEN_SERVICE_URL ++ "/api/generate/data") POST
                     (Some q) = Responded body ->
              success body = true ->
              replies_in_range client ->
              exists r : AreaPrediction,
                get_area_prediction client hour area = Ok r
                /\ In (let e :=
                         estimate_at (dict_get Z.eqb HOUR_MULTIPLIERS hour 0.8%Q)
                                     key (statistics_mean body) in
                       mkComponent location key (fst e) (snd e))
                      (a_components r))).
Proof.
  intros client hour area area_data key location Harea Hin q.
  pose proof (area_member_type area area_data key location Harea Hin) as Htype.
  split.
  - intros ->. split; [reflexivity|].
    intros Hrelay r Hr Hkept.
    destruct (area_result_form client hour area r Hr)
      as [_ [_ [_ [_ [_ [area_data' [_ Hcs]]]]]]].
    rewrite Hcs in Hkept. apply in_map_iff in Hkept.
    destruct Hkept as [c [Hc Hmember]].
    apply in_flat_map in Hmember.
    destruct Hmember as [[key' location'] [_ Hcomponent]].
    unfold member_component in Hcomponent.
    destruct (fetched client (key', location')) as [data|] eqn:E;
      [|contradiction].
    destruct Hcomponent as [<-|[]]. cbn [c_type c_location fst snd] in Hc.
    injection Hc as -> ->.
    rewrite (signals_fetch_fails client location Hrelay) in E. discriminate.
  - intro Hkey.
    assert (Hneq : String.eqb key "signals" = false)
      by now apply String.eqb_neq.
    rewrite Hneq in Htype.
    split.
    + pose proof (transport_type_names location key Htype) as Hnames.
      cbn in Hnames. unfold q.
      repeat (destruct Hnames as [<-|Hnames];
              [eexists; split; [reflexivity|]; repeat split|]).
      contradiction.
    + intros body Hanswer Hsuccess _.
      unfold get_area_prediction. rewrite Harea.
      rewrite area_collect_components. cbv zeta.
      set (cs := flat_map _ (members area_data)).
      assert (Hkept :
                In (mkComponent location key
                      (fst (estimate_at
                              (dict_get Z.eqb HOUR_MULTIPLIERS hour 0.8%Q)
                              key (statistics_mean body)))
                      (snd (estimate_at
                              (dict_get Z.eqb HOUR_MULTIPLIERS hour 0.8%Q)
                              key (statistics_mean body)))) cs).
      { unfold cs. apply in_flat_map. exists (key, location).
        split; [exact Hin|].
        unfold member_component, fetched. cbn [fst snd].
        fold q. rewrite Hanswer, Hsuccess. left. reflexivity. }
      assert (Hne : cs <> []) by (intro Hnil; now rewrite Hnil in Hkept).
      rewrite (area_aggregate_ok area hour cs Hne).
      eexists. split; [reflexivity|]. exact Hkept.
Qed.

(** Andheri against the validating client: Amboli Naka is sent as a
    ["signals"] location, rejected and left out; the metro station is
    served. *)
Lemma area_request_validation_witness :
  DataGen.validate (request_body (mkLocationQuery "Amboli Naka" "signals" 90))
  = Raise (DataGen.InvalidFields ["transport_type"])
  /\ (exists r : AreaPrediction,
        get_area_prediction validating_client 9 "Andheri" = Ok r
        /\ ~ In ("signals", "Amboli Naka")
               (map (fun c => (c_type c, c_location c)) (a_components r)))
  /\ (exists r : AreaPrediction,
        get_area_prediction validating_client 9 "Andheri" = Ok r
        /\ In (mkComponent "Andheri" "metro" 9000 High) (a_components r)).
Proof.
  assert (Hsignal : In ("signals", "Amboli Naka")
                       (members [ ("metro", ["Andheri"]);
                                  ("railway", ["Andheri West"]);
                                  ("bus", ["Andheri Bus Depot"]);
                                  ("signals", ["Andheri Station Signal";
                                               "Amboli Naka"]) ]))
    by (cbn; tauto).
  assert (Hmetro : In ("metro", "Andheri")
                      (members [ ("metro", ["Andheri"]);
                                 ("railway", ["Andheri West"]);
                                 ("bus", ["Andheri Bus Depot"]);
                                 ("signals", ["Andheri Station Signal";
                                              "Amboli Naka"]) ]))
    by (cbn; tauto).
  destruct (proj1 (area_request_validation validating_client 9 "Andheri" _
                     "signals" "Amboli Naka" eq_refl Hsignal) eq_refl)
    as [Hrejected Hskipped].
  split; [exact Hrejected|]. split.
  - eexists. split; [reflexivity|].
    exact (Hskipped validating_client_relays _ eq_refl).
  - destruct (proj2 (area_request_validation validating_client 9 "Andheri" _
                       "metro" "Andheri" eq_refl Hmetro))
      as [_ Hserved]; [discriminate|].
    destruct (Hserved (mkGeneratorReply true 6000) eq_refl eq_refl
                      validating_client_in_range)
      as [r [Hr Hkept]].
    exists r. split; [exact Hr|].
    vm_compute in Hkept. vm_compute. exact Hkept.
Defined.

Lemma traffic_signal_type (location : string) :
  In location TRAFFIC_SIGNALS -> get_transport_type location = Some "signal".
Proof.
  intro Hin. cbn in Hin.
  repeat (destruct Hin as [<-|Hin]; [reflexivity|]). contradiction.
Qed.

(** When the collaborator is the validating generator, no area result ever
    holds a traffic signal: the members listed under ["signals"] are always
    among the skipped ones. *)
Theorem area_never_holds_signals :
  forall (client : HttpClient) (hour : Z) (area : string) (r : AreaPrediction),
    relays_validation client ->
    get_area_prediction client hour area = Ok r ->
    Forall (fun c => c_type c <> "signals"
                     /\ ~ In (c_location c) TRAFFIC_SIGNALS)
           (a_components r).
Proof.
  intros client hour area r Hrelay Hr.
  destruct (area_result_form client hour area r Hr)
    as [_ [_ [_ [_ [_ [area_data [Harea Hcs]]]]]]].
  rewrite Hcs, Forall_forall. intros c Hc.
  apply in_flat_map in Hc. destruct Hc as [[key location] [Hmember Hc]].
  unfold member_component in Hc.
  destruct (fetched client (key, location)) as [data|] eqn:E;
    [|contradiction].
  destruct Hc as [<-|[]]. cbn [c_type c_location fst snd].
  assert (Hkey : key <> "signals").
  { intros ->. rewrite (signals_fetch_fails client location Hrelay) in E.
    discriminate. }
  split; [exact Hkey|].
  pose proof (area_member_type area area_data key location Harea Hmember)
    as Htype.
  assert (Hneq : String.eqb key "signals" = false) by now apply String.eqb_neq.
  rewrite Hneq in Htype.
  intro Hsignal.
  rewrite (traffic_signal_type location Hsignal) in Htype.
  injection Htype as <-.
  (* the key would be "signal", which no area uses *)
  clear - Harea Hmember.
  unfold AREA_MAPPING in Harea. cbn [dict_lookup] in Harea.
  repeat match type of Harea with
         | (if ?b then _ else _) = _ =>
             destruct b;
             [injection Harea as <-; cbn in Hmember;
              repeat (destruct Hmember as [Hmember|Hmember];
                      [discriminate Hmember|]);
              contradiction|]
         end.
  discriminate.
Qed.

(** Andheri at hour 9 against the validating client: three components, the
    two signals left out. *)
Lemma area_never_holds_signals_witness :
  relays_validation validating_client
  /\ exists r : AreaPrediction,
       get_area_prediction validating_client 9 "Andheri" = Ok r
       /\ map c_type (a_components r) = ["metro"; "railway"; "bus"]
       /\ Forall (fun c => c_type c <> "signals"
                           /\ ~ In (c_location c) TRAFFIC_SIGNALS)
                 (a_components r).
Proof.
  split; [exact validating_client_relays|].
  eexists. split; [reflexivity|]. split; [reflexivity|].
  exact (area_never_holds_signals validating_client 9 "Andheri" _
           validating_client_relays eq_refl).
Defined.

(** The single-location endpoint looks at the collaborator through one
    request only: two collaborators that answer that request alike give the
    same result. *)
Theorem location_prediction_one_query :
  forall (client1 client2 : HttpClient) (hour : Z) (name : string),
    (forall transport_type : string,
        get_transport_type name = Some transport_type ->
        client1 (DATA_GEN_SERVICE_URL ++ "/api/generate/data") POST
                (Some (mkLocationQuery name transport_type 90))
        = client2 (DATA_GEN_SERVICE_URL ++ "/api/generate/data") POST
                  (Some (mkLocationQuery name transport_type 90))) ->
    get_location_prediction client1 hour name
    = get_location_prediction client2 hour name.
Proof.
  intros client1 client2 hour name Hsame.
  unfold get_location_prediction.
  destruct (get_transport_type name) as [tt|]; [|reflexivity].
  unfold get_location_data, call_data_generator.
  now rewrite (Hsame tt eq_refl).
Qed.

(** Two collaborators that differ everywhere but at Bandra. *)
Lemma location_prediction_one_query_witness :
  get_location_prediction bandra_client 9 "Bandra"
  = get_location_prediction bandra_only_client 9 "Bandra".
Proof.
  apply location_prediction_one_query.
  intros tt Htt. reflexivity.
Defined.

(** A member listed under ["metro"], ["railway"] or ["bus"] gets, in the
    area result, the footfall and the level the single-location endpoint
    gives it at the same hour and for the same reply. *)
Theorem area_agrees_with_location :
  forall (client : HttpClient) (hour : Z) (area : string)
         (area_data : list (string * list string)) (key location : string)
         (r : AreaPrediction) (lp : LocationPrediction),
    dict_lookup AREA_MAPPING area = Some area_data ->
    In (key, location) (members area_data) ->
    key <> "signals" ->
    get_area_prediction client hour area = Ok r ->
    get_location_prediction client hour location = Ok lp ->
    In (mkComponent location key (lp_current_footfall lp)
                    (lp_congestion_level lp))
       (a_components r).
Proof.
  intros client hour area area_data key location r lp
         Harea Hmember Hkey Hr Hlp.
  destruct (area_result_form client hour area r Hr)
    as [_ [_ [_ [_ [_ [area_data' [Harea' Hcs]]]]]]].
  rewrite Harea in Harea'. injection Harea' as <-.
  pose proof (area_member_type area area_data key location Harea Hmember)
    as Htype.
  assert (Hneq : String.eqb key "signals" = false) by now apply String.eqb_neq.
  rewrite Hneq in Htype.
  unfold get_location_prediction in Hlp. rewrite Htype in Hlp.
  pose proof (get_location_data_fetched client (key, location)) as Hfetched.
  cbn [fst snd] in Hfetched. rewrite Hfetched in Hlp.
  destruct (fetched client (key, location)) as [data|] eqn:E;
    [|discriminate].
  unfold calculate_current_footfall in Hlp. injection Hlp as <-.
  cbn [lp_current_footfall lp_congestion_level].
  rewrite Hcs. apply in_flat_map. exists (key, location).
  split; [exact Hmember|].
  unfold member_component, estimate_at. rewrite E.
  cbn. left. reflexivity.
Qed.

(** Bandra station, at hour 9. *)
Lemma area_agrees_with_location_witness :
  exists (r : AreaPrediction) (lp : LocationPrediction),
    get_area_prediction bandra_client 9 "Bandra" = Ok r
    /\ get_location_prediction bandra_client 9 "Bandra" = Ok lp
    /\ In (mkComponent "Bandra" "railway" (lp_current_footfall lp)
                       (lp_congestion_level lp))
          (a_components r).
Proof.
  eexists. eexists. split; [reflexivity|]. split; [reflexivity|].
  refine (area_agrees_with_location bandra_client 9 "Bandra" _
            "railway" "Bandra" _ _ eq_refl _ _ eq_refl eq_refl).
  - cbn. tauto.
  - discriminate.
Defined.

End WireFacts.

(** ** The generator, beyond the shape of its series *)

Module GeneratorBounds.

Import DataGen Spec PyFacts Scripted GeneratorFacts StatisticsFacts.

Local Open Scope string_scope.
Local Open Scope Z_scope.

Section Generator.

Context {G : Type} `{NumPy G}.

(** Called with a transport type outside the enumeration and a window within
    the calendar, the generator raises [KeyError] on the base table before
    it draws anything: the generator state is returned untouched. *)
Theorem generate_unknown_type :
  forall (now : Z) (location_name transport_type : string) (days : Z) (g : G),
    in_calendar now days ->
    TransportType_of transport_type = None ->
    generate_transport_data now location_name transport_type days g
    = (Raise (KeyError transport_type), g).
Proof.
  intros now loc tt days g _ Hnone. unfold TransportType_of in Hnone.
  unfold generate_transport_data, BASE_FOOTFALL. cbn [dict_subscript].
  rewrite (String.eqb_sym "metro" tt), (String.eqb_sym "railway" tt),
    (String.eqb_sym "bus" tt), (String.eqb_sym "signal" tt).
  destruct (String.eqb tt "metro"); [discriminate|].
  destruct (String.eqb tt "railway"); [discriminate|].
  destruct (String.eqb tt "bus"); [discriminate|].
  destruct (String.eqb tt "signal"); [discriminate|].
  reflexivity.
Qed.

(** *** A week later *)

Lemma weekday_week (date k : Z) : weekday (date + 7 * k) = weekday date.
Proof.
  unfold weekday.
  replace (date + 7 * k + 6) with (date + 6 + k * 7) by lia.
  apply Z.mod_add. lia.
Qed.

Lemma generate_day_week (base : Z) (multiplier : Q) (days start_date k day : Z)
      (g : G) :
  generate_day base multiplier days (start_date + 7 * k) day g
  = (mkRow (ds (fst (generate_day base multiplier days start_date day g))
            + 7 * k)
           (y (fst (generate_day base multiplier days start_date day g))),
     snd (generate_day base multiplier days start_date day g)).
Proof.
  unfold generate_day. cbv zeta.
  replace (start_date + 7 * k + day) with (start_date + day + 7 * k) by lia.
  rewrite weekday_week.
  destruct (np_random_normal 0 (fmul (inject_Z base) 0.05) g) as [noise g1].
  destruct (np_random_random g1) as [r g2].
  destruct (fltb r 0.05).
  - destruct (np_random_uniform 1.2 1.5 g2) as [event_boost g3]. reflexivity.
  - reflexivity.
Qed.

Lemma rows_from_week (base : Z) (multiplier : Q) (days start_date k : Z)
      (range : list Z) :
  forall g : G,
    rows_from base multiplier days (start_date + 7 * k) range g
    = map (fun row => mkRow (ds row + 7 * k) (y row))
          (rows_from base multiplier days start_date range g)
    /\ state_after base multiplier days (start_date + 7 * k) range g
       = state_after base multiplier days start_date range g.
Proof.
  induction range as [|day rest IH]; intro g; [split; reflexivity|].
  rewrite !rows_from_cons. cbn [state_after map].
  rewrite generate_day_week. cbn [fst snd].
  destruct (IH (snd (generate_day base multiplier days start_date day g)))
    as [Hrows Hstate].
  rewrite Hrows, Hstate. split; reflexivity.
Qed.

(** The series depends on the calendar through the day of the week alone:
    asked a whole number of weeks later, with the generator in the same
    state, the service returns the same values, each dated that many weeks
    later, and leaves the generator in the same state. *)
Theorem generate_weeks_later :
  forall (now k : Z) (location_name : string) (t : TransportType)
         (days : Z) (g : G),
    exists data : list Row,
      generate_transport_data now location_name (value t) days g
      = (Ok data,
         snd (generate_transport_data (now + 7 * k) location_name (value t)
                                      days g))
      /\ fst (generate_transport_data (now + 7 * k) location_name (value t)
                                      days g)
         = Ok (map (fun row => mkRow (ds row + 7 * k) (y row)) data).
Proof.
  intros now k loc t days g.
  rewrite !generate_transport_data_rows. cbn [fst snd].
  replace (now + 7 * k - days) with (now - days + 7 * k) by lia.
  destruct (rows_from_week (base_raw t)
              (dict_get String.eqb LOCATION_MULTIPLIERS loc 1.0%Q)
              days (now - days) k (py_range days) g) as [Hrows Hstate].
  eexists. split.
  - rewrite Hstate. reflexivity.
  - now rewrite Hrows.
Qed.

(** *** No days *)

Lemma py_range_nonpositive (n : Z) : n <= 0 -> py_range n = [].
Proof.
  intro Hn. unfold py_range.
  replace (Z.to_nat n) with 0%nat by lia. reflexivity.
Qed.

(** Called past the validation with no day to generate and a window within
    the calendar, the endpoint function builds an empty frame without
    drawing anything, fails on its missing column and answers with status
    500. *)
Theorem generate_data_no_days :
  forall (now : Z) (request : DataGenerationRequest) (g : G),
    in_calendar now (days request) ->
    days request <= 0 ->
    generate_transport_data now (location_name request)
                            (value (transport_type request)) (days request) g
    = (Ok [], g)
    /\ exists e : HTTPException,
         generate_data now request g = (Raise e, g)
         /\ status_code e = 500.
Proof.
  intros now request g _ Hdays.
  assert (Hgen : generate_transport_data now (location_name request)
                   (value (transport_type request)) (days request) g
                 = (Ok [], g)).
  { rewrite generate_transport_data_rows.
    now rewrite (py_range_nonpositive _ Hdays). }
  split; [exact Hgen|].
  unfold generate_data. rewrite Hgen. cbn.
  eexists. split; reflexivity.
Qed.

(** *** Order of the statistics *)

Lemma total_bounds (lo hi : Z) (l : list Z) :
  Forall (fun x => lo <= x <= hi) l ->
  lo * Z.of_nat (List.length l) <= total l <= hi * Z.of_nat (List.length l).
Proof.
  induction 1 as [|x l Hx Hall IH]; [cbn; lia|].
  cbn [total fold_right List.length]. fold (total l). lia.
Qed.

Lemma mean_between (lo hi : Z) (l : list Z) :
  l <> [] ->
  Forall (fun x => lo <= x <= hi) l ->
  (inject_Z lo <= inject_Z (py_sum l) / count l <= inject_Z hi)%Q.
Proof.
  intros Hne Hall.
  assert (Hn : (0 < count l)%Q).
  { destruct l; [contradiction|apply count_pos]. }
  destruct (total_bounds lo hi l Hall) as [Hlo Hhi].
  rewrite py_sum_total.
  rewrite Zle_Qle, inject_Z_mult in Hlo.
  rewrite Zle_Qle, inject_Z_mult in Hhi.
  fold (count l) in Hlo, Hhi.
  split.
  - apply Qle_shift_div_l; assumption.
  - apply Qle_shift_div_r; assumption.
Qed.

Lemma median_between (lo hi : Z) (l : list Z) (md : Q) :
  l <> [] ->
  Forall (fun x => lo <= x <= hi) l ->
  Series_median l = Fin md ->
  (inject_Z lo <= md <= inject_Z hi)%Q.
Proof.
  intros Hne Hall Hmd.
  rewrite (Series_median_sorted l Hne) in Hmd. cbv zeta in Hmd.
  injection Hmd as <-.
  assert (Hsorted : Forall (fun x => lo <= x <= hi) (sort_values l)).
  { eapply Permutation_Forall; [symmetry; apply sort_values_perm|exact Hall]. }
  assert (Hnth : forall k : nat,
             (k < List.length l)%nat ->
             (inject_Z lo <= inject_Z (nth k (sort_values l) 0%Z)
              <= inject_Z hi)%Q).
  { intros k Hk. rewrite <- !Zle_Qle.
    rewrite Forall_forall in Hsorted. apply Hsorted, nth_In.
    now rewrite sort_values_length. }
  assert (Hlen : (0 < List.length l)%nat).
  { destruct l; [contradiction|cbn [List.length]; lia]. }
  assert (Hhalf : (List.length l / 2 < List.length l)%nat)
    by (apply Nat.div_lt; lia).
  destruct (Nat.even (List.length l)).
  - pose proof (Hnth (List.length l / 2 - 1)%nat ltac:(lia)) as H1.
    pose proof (Hnth (List.length l / 2)%nat Hhalf) as H2.
    unfold Nat.div in H1, H2.
    split.
    + apply Qle_shift_div_l; [reflexivity|]. lra.
    + apply Qle_shift_div_r; [reflexivity|]. lra.
  - apply Hnth, Hhalf.
Qed.

(** On every non-empty frame the statistics are produced, the minimum is not
    above the maximum, and the mean and the median lie between them. *)
Theorem statistics_ordered :
  forall df : list Row,
    df <> [] ->
    exists (st : Statistics) (mu md : Q),
      statistics_of df = Ok st
      /\ mean st = Fin mu /\ median st = Fin md
      /\ min st <= max st
      /\ (inject_Z (min st) <= mu <= inject_Z (max st))%Q
      /\ (inject_Z (min st) <= md <= inject_Z (max st))%Q.
Proof.
  intros df Hdf. destruct df as [|row rest]; [contradiction|].
  rewrite statistics_of_cons.
  set (col := map y (row :: rest)).
  assert (Hcol : col = y row :: map y rest) by reflexivity.
  assert (Hne : col <> []) by (rewrite Hcol; discriminate).
  destruct (fold_min_spec (map y rest) (y row)) as [Hmin_in Hmin].
  destruct (fold_max_spec (map y rest) (y row)) as [Hmax_in Hmax].
  rewrite <- Hcol in Hmin_in, Hmin, Hmax_in, Hmax.
  set (mn := fold_left Z.min (map y rest) (y row)) in *.
  set (mx := fold_left Z.max (map y rest) (y row)) in *.
  assert (Hall : Forall (fun x => mn <= x <= mx) col).
  { rewrite Forall_forall in *. intros x Hx.
    split; [now apply Hmin|now apply Hmax]. }
  assert (Hmedian : exists md, Series_median col = Fin md).
  { rewrite (Series_median_sorted col Hne). eexists. reflexivity. }
  destruct Hmedian as [md Hmd].
  eexists. exists (inject_Z (py_sum col) / count col)%Q, md.
  split; [reflexivity|]. cbn [mean median min max].
  split; [now rewrite Hcol|]. split; [exact Hmd|].
  split; [|split].
  - rewrite Forall_forall in Hall. destruct (Hall mn Hmin_in). lia.
  - now apply mean_between.
  - now apply (median_between mn mx col).
Qed.

(** Every accepted request is answered with statistics whose minimum and
    mean are at least the floor of the transport type,
    [int(base_raw * 0.2)]: the mean handed to the prediction service is
    always positive. *)
Theorem response_mean_above_floor :
  forall (now : Z) (location_name : string) (t : TransportType) (days : Z)
         (g : G),
    1 <= days <= 365 ->
    exists (resp : GenerateResponse) (g' : G) (mu : Q),
      generate_data now (mkDataGenerationRequest location_name t days) g
      = (Ok resp, g')
      /\ py_int (inject_Z (base_raw t) * 0.2) <= min (r_statistics resp)
      /\ mean (r_statistics resp) = Fin mu
      /\ (inject_Z (py_int (inject_Z (base_raw t) * 0.2)) <= mu)%Q
      /\ (600 <= mu)%Q.
Proof.
  intros now loc t days g [Hlo Hhi].
  destruct (generate_data_rows now (mkDataGenerationRequest loc t days) g Hlo)
    as [stats [Hstats Hgen]].
  cbn [DataGen.days DataGen.location_name DataGen.transport_type] in Hstats, Hgen.
  set (df := rows_from (base_raw t)
               (dict_get String.eqb LOCATION_MULTIPLIERS loc 1.0%Q)
               days (now - days) (py_range days) g) in *.
  assert (Hfloor : Forall (fun row => py_int (inject_Z (base_raw t) * 0.2)
                                      <= y row) df)
    by (rewrite floor_constant_exact; apply rows_from_floor).
  set (fl := py_int (inject_Z (base_raw t) * 0.2)) in *.
  assert (Hfl : 600 <= fl) by (unfold fl; destruct t; vm_compute; discriminate).
  destruct df as [|row rest] eqn:Edf.
  { rewrite statistics_of_cons in Hstats || discriminate Hstats. }
  rewrite statistics_of_cons in Hstats. injection Hstats as <-.
  rewrite Hgen. cbn [r_statistics mean min].
  set (col := map y (row :: rest)).
  assert (Hcol : col = y row :: map y rest) by reflexivity.
  assert (Hne : col <> []) by (rewrite Hcol; discriminate).
  destruct (fold_min_spec (map y rest) (y row)) as [Hmin_in _].
  destruct (fold_max_spec (map y rest) (y row)) as [_ Hmax].
  rewrite <- Hcol in Hmin_in, Hmax.
  set (mx := fold_left Z.max (map y rest) (y row)) in *.
  assert (Hall : Forall (fun x => fl <= x <= mx) col).
  { rewrite Forall_forall in *. intros x Hx. split; [|now apply Hmax].
    unfold col in Hx. apply in_map_iff in Hx. destruct Hx as [r [<- Hr]].
    now apply Hfloor. }
  destruct (mean_between fl mx col Hne Hall) as [Hmean _].
  eexists. eexists. exists (inject_Z (py_sum col) / count col)%Q.
  split; [reflexivity|]. split; [|split; [now rewrite Hcol|split]].
  - rewrite Forall_forall in Hall. now destruct (Hall _ Hmin_in).
  - exact Hmean.
  - rewrite Zle_Qle in Hfl. change (inject_Z 600) with 600%Q in Hfl. lra.
Qed.

End Generator.

(** The key the areas use for their signals. *)
Lemma generate_unknown_type_witness :
  in_calendar 739923 7
  /\ fst (generate_transport_data 739923 "Amboli Naka" "signals" 7
            [0.6; 0.5]%Q)
     = Raise (KeyError "signals").
Proof.
  assert (Hc : in_calendar 739923 7) by (unfold in_calendar; lia).
  split; [exact Hc|].
  rewrite (generate_unknown_type 739923 "Amboli Naka" "signals" 7
             [0.6; 0.5]%Q Hc eq_refl).
  reflexivity.
Defined.

(** A request for no day at Andheri. *)
Lemma generate_data_no_days_witness :
  in_calendar 739923 0
  /\ exists e : HTTPException,
       generate_data 739923 (mkDataGenerationRequest "Andheri" metro 0)
                     [0.6; 0.5]%Q
       = (Raise e, [0.6; 0.5]%Q)
       /\ status_code e = 500.
Proof.
  assert (Hc : in_calendar 739923 0) by (unfold in_calendar; lia).
  split; [exact Hc|].
  exact (proj2 (generate_data_no_days 739923
                  (mkDataGenerationRequest "Andheri" metro 0) [0.6; 0.5]%Q
                  Hc ltac:(cbn; lia))).
Defined.

(** Four rows. *)
Lemma statistics_ordered_witness :
  exists st : Statistics,
    statistics_of [mkRow 1 5; mkRow 2 1; mkRow 3 9; mkRow 4 2] = Ok st
    /\ min st <= max st.
Proof.
  destruct (@statistics_ordered (list Q) scripted_numpy
              [mkRow 1 5; mkRow 2 1; mkRow 3 9; mkRow 4 2]
              ltac:(discriminate))
    as [st [mu [md [Hst [_ [_ [Hle _]]]]]]].
  exists st. split; assumption.
Defined.

(** A week at Andheri. *)
Lemma response_mean_above_floor_witness :
  exists (resp : GenerateResponse) (mu : Q),
    fst (generate_data 739923 (mkDataGenerationRequest "Andheri" metro 7)
                       [0.6; 0.5; 100; 0.01; 1.3]%Q) = Ok resp
    /\ mean (r_statistics resp) = Fin mu
    /\ (600 <= mu)%Q.
Proof.
  destruct (response_mean_above_floor 739923 "Andheri" metro 7
              [0.6; 0.5; 100; 0.01; 1.3]%Q ltac:(lia))
    as [resp [g' [mu [Hgen [_ [Hmean [_ Hmu]]]]]]].
  exists resp, mu. rewrite Hgen. repeat split; assumption.
Defined.

End GeneratorBounds.

(** ** Catalogue, file names and bulk generation *)

Module FilesFacts.

Import DataGen DataGenFiles Spec PyFacts Scripted GeneratorFacts.

Local Open Scope string_scope.
Local Open Scope Z_scope.

(** The catalogue the generator serves is the one the prediction service
    uses, and the multiplier table holds exactly one entry per location of
    it, in the order of the four lists: the default multiplier 1.0 is only
    ever used for a name outside the catalogue. *)
Theorem catalogue_is_shared :
  exists locs : Locations,
    get_all_locations = Ok locs
    /\ map e_name (metro_stations locs) = Prediction.METRO_STATIONS
    /\ map e_name (railway_stations locs) = Prediction.RAILWAY_STATIONS
    /\ map e_name (bus_stations locs) = Prediction.BUS_STATIONS
    /\ map e_name (traffic_signals locs) = Prediction.TRAFFIC_SIGNALS
    /\ map (fun e => (e_name e, e_multiplier e))
           (metro_stations locs ++ railway_stations locs
            ++ bus_stations locs ++ traffic_signals locs)%list
       = LOCATION_MULTIPLIERS
    /\ map (fun e => (e_type e, e_base_footfall e))
           (metro_stations locs ++ railway_stations locs
            ++ bus_stations locs ++ traffic_signals locs)%list
       = (repeat ("metro", 5000) 10 ++ repeat ("railway", 8000) 10
          ++ repeat ("bus", 3000) 10 ++ repeat ("signal", 4000) 10)%list.
Proof.
  eexists. split; [reflexivity|]. repeat split.
Qed.

(** *** File names *)

Lemma list_ascii_str_map (f : ascii -> ascii) (s : string) :
  list_ascii_of_string (str_map f s) = map f (list_ascii_of_string s).
Proof.
  induction s as [|c s IH]; [reflexivity|].
  cbn [str_map list_ascii_of_string map]. now rewrite IH.
Qed.

Lemma str_map_length (f : ascii -> ascii) (s : string) :
  String.length (str_map f s) = String.length s.
Proof.
  induction s as [|c s IH]; [reflexivity|].
  cbn [str_map String.length]. now rewrite IH.
Qed.

Lemma lower_replace_char (c : ascii) :
  lower_char (replace_space_char c) <> " "%char
  /\ is_upper (lower_char (replace_space_char c)) = false.
Proof.
  destruct c as [[] [] [] [] [] [] [] []];
    split; vm_compute; congruence.
Qed.

(** The stem of a file name has the length of the location name, holds no
    space and no capital letter; the file name is [data_], the type, an
    underscore, the stem and [.csv]. *)
Theorem csv_filename_stem :
  forall kind name : string,
    is_ascii name = true ->
    let stem := lower (replace_space name) in
    csv_filename kind name = "data_" ++ kind ++ "_" ++ stem ++ ".csv"
    /\ String.length stem = String.length name
    /\ (forall c : ascii,
          In c (list_ascii_of_string stem) ->
          c <> " "%char /\ is_upper c = false).
Proof.
  intros kind name _ stem. split; [reflexivity|]. split.
  - unfold stem, lower, replace_space. now rewrite !str_map_length.
  - intros c Hc. unfold stem, lower, replace_space in Hc.
    rewrite !list_ascii_str_map, map_map in Hc.
    apply in_map_iff in Hc. destruct Hc as [c0 [<- _]].
    apply lower_replace_char.
Qed.

(** Western Express Highway. *)
Lemma csv_filename_stem_witness :
  is_ascii "Western Express Highway" = true
  /\ csv_filename "metro" "Western Express Highway"
     = "data_metro_western_express_highway.csv".
Proof.
  split; [reflexivity|].
  rewrite (proj1 (csv_filename_stem "metro" "Western Express Highway" eq_refl)).
  reflexivity.
Defined.

(** *** Files on disk *)

Lemma read_file_app (a b : Disk) (filename : string) :
  read_file (a ++ b)%list filename
  = match read_file b filename with
    | Some df => Some df
    | None => read_file a filename
    end.
Proof.
  induction a as [|[name df] a IH]; cbn [app read_file].
  - now destruct (read_file b filename).
  - rewrite IH. now destruct (read_file b filename).
Qed.

Lemma read_file_absent (w : Disk) (filename : string) :
  ~ In filename (map fst w) -> read_file w filename = None.
Proof.
  induction w as [|[name df] w IH]; intro Hnot; [reflexivity|].
  cbn [read_file]. cbn [map fst] in Hnot.
  rewrite IH by (intro; apply Hnot; now right).
  destruct (String.eqb_spec name filename) as [->|_]; [|reflexivity].
  exfalso. apply Hnot. now left.
Qed.

Lemma read_file_written (w : Disk) (filename : string) (df : list Row) :
  NoDup (map fst w) -> In (filename, df) w -> read_file w filename = Some df.
Proof.
  induction w as [|[name df0] w IH]; intros Hnodup Hin; [contradiction|].
  cbn [map fst] in Hnodup. inversion Hnodup as [|? ? Hhead Htail]; subst.
  cbn [read_file]. destruct Hin as [Heq|Hin].
  - injection Heq as -> ->.
    rewrite (read_file_absent w filename Hhead).
    now rewrite String.eqb_refl.
  - now rewrite (IH Htail Hin).
Qed.

Section Bulk.

Context {G : Type} `{NumPy G}.

(** One loop of the bulk endpoint on a type of the enumeration: it never
    raises, names one file per station and writes each with a frame of
    [days] rows. *)
Lemma bulk_group_written (now : Z) (t : TransportType) (days : Z)
      (stations : list string) :
  forall st : BulkState G,
    exists (st' : BulkState G) (written : Disk),
      bulk_group now (value t) days stations st = Ok st'
      /\ generated_files st'
         = (generated_files st ++ map (csv_filename (value t)) stations)%list
      /\ disk st' = (disk st ++ written)%list
      /\ map fst written = map (csv_filename (value t)) stations
      /\ Forall (fun file => List.length (snd file) = Z.to_nat days) written.
Proof.
  induction stations as [|station rest IH]; intro st.
  - exists st, []. cbn. rewrite !app_nil_r. repeat split. constructor.
  - cbn [bulk_group]. unfold bulk_station.
    rewrite generate_transport_data_rows. cbn [bind].
    set (df := rows_from _ _ _ _ _ _). set (g' := state_after _ _ _ _ _ _).
    destruct (IH (mkBulkState
                    (disk st ++ [(csv_filename (value t) station, df)])%list
                    (generated_files st ++ [csv_filename (value t) station])%list
                    g'))
      as [st' [written [Hrun [Hfiles [Hdisk [Hnames Hrows]]]]]].
    cbn [disk generated_files] in Hfiles, Hdisk.
    exists st', ((csv_filename (value t) station, df) :: written).
    split; [exact Hrun|]. split; [|split; [|split]].
    + rewrite Hfiles, <- app_assoc. reflexivity.
    + rewrite Hdisk, <- app_assoc. reflexivity.
    + cbn [map fst]. now rewrite Hnames.
    + constructor; [|exact Hrows].
      cbn [snd]. unfold df. now rewrite rows_from_length, py_range_length.
Qed.

Lemma bulk_if_written (include : bool) (now : Z) (t : TransportType)
      (days : Z) (stations : list string) (st : BulkState G) :
  exists (st' : BulkState G) (written : Disk),
    bulk_if include now (value t) days stations st = Ok st'
    /\ generated_files st'
       = (generated_files st
          ++ if include then map (csv_filename (value t)) stations else [])%list
    /\ disk st' = (disk st ++ written)%list
    /\ map fst written
       = (if include then map (csv_filename (value t)) stations else [])
    /\ Forall (fun file => List.length (snd file) = Z.to_nat days) written.
Proof.
  destruct include; cbn [bulk_if].
  - apply bulk_group_written.
  - exists st, []. rewrite !app_nil_r. repeat split. constructor.
Qed.

(** The names of the files of the selected groups. *)
Lemma bulk_names_nodup (m r b s : bool) :
  NoDup ((if m then map (csv_filename "metro") METRO_STATIONS else [])
         ++ (if r then map (csv_filename "railway") RAILWAY_STATIONS else [])
         ++ (if b then map (csv_filename "bus") BUS_STATIONS else [])
         ++ (if s then map (csv_filename "signal") TRAFFIC_SIGNALS else []))%list.
Proof.
  destruct m, r, b, s;
    match goal with
    | |- NoDup ?l =>
        replace l with (nodup string_dec l) by (vm_compute; reflexivity);
        apply NoDup_nodup
    end.
Qed.

Lemma written_file_readable (disk0 written : Disk) (filename : string)
      (df : list Row) :
  NoDup (map fst written) ->
  In (filename, df) written ->
  read_file (disk0 ++ written)%list filename = Some df.
Proof.
  intros Hnodup Hin. rewrite read_file_app.
  now rewrite (read_file_written written filename df Hnodup Hin).
Qed.

(** What the bulk endpoint writes and answers, on any request. *)
Lemma generate_all_data_written (now : Z) (request : BulkGenerationRequest)
      (disk0 : Disk) (g : G) :
  exists (resp : BulkResponse) (st : BulkState G) (written : Disk),
    generate_all_data now request disk0 g = Ok (resp, st)
    /\ b_total_files resp = Z.of_nat (List.length (b_files resp))
    /\ b_days_per_file resp = bulk_days request
    /\ b_files resp
       = ((if include_metro request
           then map (csv_filename "metro") METRO_STATIONS else [])
          ++ (if include_railway request
              then map (csv_filename "railway") RAILWAY_STATIONS else [])
          ++ (if include_bus request
              then map (csv_filename "bus") BUS_STATIONS else [])
          ++ (if include_signals request
              then map (csv_filename "signal") TRAFFIC_SIGNALS else []))%list
    /\ disk st = (disk0 ++ written)%list
    /\ map fst written = b_files resp
    /\ Forall (fun file =>
                 List.length (snd file) = Z.to_nat (bulk_days request))
              written.
Proof.
  unfold generate_all_data. cbv zeta.
  set (days := bulk_days request).
  destruct (bulk_if_written (include_metro request) now metro days
              METRO_STATIONS (mkBulkState disk0 [] g))
    as [st1 [w1 [H1 [F1 [D1 [N1 R1]]]]]].
  destruct (bulk_if_written (include_railway request) now railway days
              RAILWAY_STATIONS st1)
    as [st2 [w2 [H2 [F2 [D2 [N2 R2]]]]]].
  destruct (bulk_if_written (include_bus request) now bus days
              BUS_STATIONS st2)
    as [st3 [w3 [H3 [F3 [D3 [N3 R3]]]]]].
  destruct (bulk_if_written (include_signals request) now signal days
              TRAFFIC_SIGNALS st3)
    as [st4 [w4 [H4 [F4 [D4 [N4 R4]]]]]].
  cbn [value] in *. cbn [disk generated_files app] in F1, D1.
  rewrite H1. cbn [bind]. rewrite H2. cbn [bind]. rewrite H3. cbn [bind].
  rewrite H4.
  assert (Hfiles :
            generated_files st4
            = ((if include_metro request
                then map (csv_filename "metro") METRO_STATIONS else [])
               ++ (if include_railway request
                   then map (csv_filename "railway") RAILWAY_STATIONS else [])
               ++ (if include_bus request
                   then map (csv_filename "bus") BUS_STATIONS else [])
               ++ (if include_signals request
                   then map (csv_filename "signal") TRAFFIC_SIGNALS
                   else []))%list).
  { rewrite F4, F3, F2, F1, <- !app_assoc. reflexivity. }
  eexists. exists st4, (w1 ++ w2 ++ w3 ++ w4)%list.
  split; [reflexivity|]. cbn [b_files b_total_files b_days_per_file].
  split; [reflexivity|]. split; [reflexivity|]. split; [exact Hfiles|].
  split; [|split].
  - rewrite D4, D3, D2, D1, <- !app_assoc. reflexivity.
  - rewrite !map_app, N1, N2, N3, N4. symmetry. exact Hfiles.
  - repeat (apply Forall_app; split); assumption.
Qed.

(** With a window within the calendar, the bulk endpoint function answers.
    It writes one file per station of every selected group, in the order
    metro, railway, bus, signals; the response lists exactly these files and
    counts ten per selected group.  The names are all different, so no file
    of the run replaces another, and every listed file can be read back with
    one row per requested day. *)
Theorem generate_all_data_files :
  forall (now : Z) (request : BulkGenerationRequest) (disk0 : Disk) (g : G),
    in_calendar now (bulk_days request) ->
    exists (resp : BulkResponse) (st : BulkState G) (written : Disk),
      generate_all_data now request disk0 g = Ok (resp, st)
      /\ b_files resp
         = ((if include_metro request
             then map (csv_filename "metro") METRO_STATIONS else [])
            ++ (if include_railway request
                then map (csv_filename "railway") RAILWAY_STATIONS else [])
            ++ (if include_bus request
                then map (csv_filename "bus") BUS_STATIONS else [])
            ++ (if include_signals request
                then map (csv_filename "signal") TRAFFIC_SIGNALS else []))%list
      /\ b_total_files resp
         = 10 * (Z.b2z (include_metro request)
                 + Z.b2z (include_railway request)
                 + Z.b2z (include_bus request)
                 + Z.b2z (include_signals request))
      /\ NoDup (b_files resp)
      /\ disk st = (disk0 ++ written)%list
      /\ map fst written = b_files resp
      /\ (forall (filename : string) (df : list Row),
            In (filename, df) written ->
            read_file (disk st) filename = Some df
            /\ List.length df = Z.to_nat (bulk_days request)).
Proof.
  intros now request disk0 g _.
  destruct (generate_all_data_written now request disk0 g)
    as [resp [st [written [Hrun [Htotal [_ [Hfiles [Hdisk [Hnames Hrows]]]]]]]]].
  assert (Hnodup : NoDup (b_files resp)).
  { rewrite Hfiles. apply bulk_names_nodup. }
  exists resp, st, written.
  split; [exact Hrun|]. split; [exact Hfiles|].
  split; [|split; [exact Hnodup|split; [exact Hdisk|split; [exact Hnames|]]]].
  - rewrite Htotal, Hfiles.
    destruct (include_metro request), (include_railway request),
      (include_bus request), (include_signals request); reflexivity.
  - intros filename df Hin. split.
    + rewrite Hdisk. apply written_file_readable; [|exact Hin].
      now rewrite Hnames.
    + rewrite Forall_forall in Hrows. exact (Hrows (filename, df) Hin).
Qed.

(** A bulk request that passes the validation is answered with ten files per
    group it does not switch off, forty for an empty body, and every file
    read back from the disk holds exactly the validated number of days, 90
    by default and never outside 1 to 365. *)
Theorem bulk_request_files :
  forall (now : Z) (body : BulkBody) (request : BulkGenerationRequest)
         (disk0 : Disk) (g : G),
    validate_bulk body = Ok request ->
    exists (resp : BulkResponse) (st : BulkState G),
      generate_all_data now request disk0 g = Ok (resp, st)
      /\ b_days_per_file resp
         = match bulk_body_days body with Some d => d | None => 90 end
      /\ 1 <= b_days_per_file resp <= 365
      /\ b_total_files resp
         = 10 * (Z.b2z (flag (body_include_metro body))
                 + Z.b2z (flag (body_include_railway body))
                 + Z.b2z (flag (body_include_bus body))
                 + Z.b2z (flag (body_include_signals body)))
      /\ (body = mkBulkBody None None None None None ->
          b_total_files resp = 40 /\ b_days_per_file resp = 90)
      /\ Forall (fun filename =>
                   exists df : list Row,
                     read_file (disk st) filename = Some df
                     /\ Z.of_nat (List.length df) = b_days_per_file resp)
                (b_files resp).
Proof.
  intros now body request disk0 g Hv.
  unfold validate_bulk in Hv.
  set (d := match bulk_body_days body with Some d => d | None => 90 end) in *.
  destruct (days_in_range d) eqn:Hrange; [|discriminate].
  injection Hv as <-.
  unfold days_in_range in Hrange. apply andb_true_iff in Hrange.
  destruct Hrange as [Hlo Hhi]. apply Z.leb_le in Hlo. apply Z.leb_le in Hhi.
  destruct (generate_all_data_written now
              (mkBulkGenerationRequest d
                 (flag (body_include_metro body))
                 (flag (body_include_railway body))
                 (flag (body_include_bus body))
                 (flag (body_include_signals body))) disk0 g)
    as [resp [st [written [Hrun [Htotal [Hdays [Hfiles [Hdisk [Hnames Hrows]]]]]]]]].
  cbn [include_metro include_railway include_bus include_signals bulk_days]
    in Hfiles, Hdays, Hrows.
  assert (Hcount : b_total_files resp
                   = 10 * (Z.b2z (flag (body_include_metro body))
                           + Z.b2z (flag (body_include_railway body))
                           + Z.b2z (flag (body_include_bus body))
                           + Z.b2z (flag (body_include_signals body)))).
  { rewrite Htotal, Hfiles.
    destruct (flag (body_include_metro body)),
      (flag (body_include_railway body)), (flag (body_include_bus body)),
      (flag (body_include_signals body)); reflexivity. }
  assert (Hnodup : NoDup (map fst written)).
  { rewrite Hnames, Hfiles. apply bulk_names_nodup. }
  exists resp, st. split; [exact Hrun|].
  split; [exact Hdays|]. split; [rewrite Hdays; lia|].
  split; [exact Hcount|]. split.
  - intros ->. split; [rewrite Hcount; reflexivity|rewrite Hdays; reflexivity].
  - rewrite <- Hnames, Forall_forall. intros filename Hin.
    apply in_map_iff in Hin. destruct Hin as [[name df] [<- Hin]].
    exists df. cbn [fst]. split.
    + rewrite Hdisk. now apply written_file_readable.
    + rewrite Forall_forall in Hrows.
      pose proof (Hrows (name, df) Hin) as Hlen. cbn [snd] in Hlen.
      rewrite Hdays, Hlen. lia.
Qed.


End Bulk.

(** The metro stations alone, two days each, on an empty disk. *)
Lemma generate_all_data_files_witness :
  in_calendar 739923 2
  /\ exists (resp : BulkResponse) (st : BulkState (list Q)),
       generate_all_data 739923
         (mkBulkGenerationRequest 2 true false false false) [] [0.6; 0.5]%Q
       = Ok (resp, st)
       /\ b_total_files resp = 10
       /\ map fst (disk st) = b_files resp.
Proof.
  assert (Hc : in_calendar 739923 2) by (unfold in_calendar; lia).
  split; [exact Hc|].
  destruct (generate_all_data_files 739923
              (mkBulkGenerationRequest 2 true false false false)
              [] [0.6; 0.5]%Q Hc)
    as [resp [st [written [Hrun [_ [Htotal [_ [Hdisk [Hnames _]]]]]]]]].
  exists resp, st. split; [exact Hrun|]. split; [exact Htotal|].
  rewrite Hdisk. exact Hnames.
Defined.


(** A body that only switches the signals off. *)
Lemma bulk_request_files_witness :
  exists (resp : BulkResponse) (st : BulkState (list Q)),
    generate_all_data 739923
      (mkBulkGenerationRequest 90 true true true false) [] [0.6; 0.5]%Q
    = Ok (resp, st)
    /\ b_total_files resp = 30
    /\ Forall (fun filename =>
                 exists df : list Row,
                   read_file (disk st) filename = Some df
                   /\ Z.of_nat (List.length df) = 90)
              (b_files resp).
Proof.
  destruct (bulk_request_files 739923
              (mkBulkBody None None None None (Some false))
              (mkBulkGenerationRequest 90 true true true false)
              [] [0.6; 0.5]%Q eq_refl)
    as [resp [st [Hrun [Hdays [_ [Htotal [_ Hfiles]]]]]]].
  exists resp, st. split; [exact Hrun|]. split; [exact Htotal|].
  cbn in Hdays. rewrite Hdays in Hfiles. exact Hfiles.
Defined.

End FilesFacts.

(** ** The transport-type endpoint against the single-location endpoint *)

Module AgreementFacts.

Import Prediction PredictionBulk Spec PyFacts CollectionFacts ScriptedService.

Local Open Scope string_scope.

(** The stations the type map lists under a type are the locations
    [get_transport_type] gives that type. *)
Lemma type_map_type (t : DataGen.TransportType) (stations : list string)
      (location : string) :
  dict_lookup type_map (DataGen.value t) = Some stations ->
  In location stations ->
  get_transport_type location = Some (DataGen.value t).
Proof.
  intros Hlookup Hin.
  destruct t; cbn in Hlookup; injection Hlookup as <-; cbn in Hin;
    repeat (destruct Hin as [<-|Hin]; [reflexivity|]); contradiction.
Qed.

(** Every entry of a transport-type result carries the footfall and the
    level the single-location endpoint gives that location at the same hour
    and for the same reply; this holds for the traffic signals too, which
    this endpoint requests under their own type. *)
Theorem transport_type_agrees_with_location :
  forall (client : HttpClient) (hour : Z) (t : DataGen.TransportType)
         (r : TypeData) (e : TypeLocation) (lp : LocationPrediction),
    get_transport_type_data client hour (DataGen.value t) = Ok r ->
    In e (td_locations r) ->
    get_location_prediction client hour (t_location e) = Ok lp ->
    lp_transport_type lp = DataGen.value t
    /\ t_footfall e = lp_current_footfall lp
    /\ t_congestion e = lp_congestion_level lp.
Proof.
  intros client hour t r e lp Hr He Hlp.
  unfold get_transport_type_data in Hr.
  destruct (dict_lookup type_map (DataGen.value t)) as [stations|] eqn:Hlookup;
    [|discriminate].
  destruct stations as [|s0 rest] eqn:Est; [discriminate|].
  rewrite <- Est in *.
  assert (Hr' : r = {| td_transport_type := DataGen.value t;
                       td_locations :=
                         fold_left
                           (type_member client
                              (dict_get Z.eqb HOUR_MULTIPLIERS hour 0.8%Q)
                              (DataGen.value t)) stations [];
                       td_total_locations :=
                         Z.of_nat
                           (List.length
                              (fold_left
                                 (type_member client
                                    (dict_get Z.eqb HOUR_MULTIPLIERS hour 0.8%Q)
                                    (DataGen.value t)) stations []));
                       td_current_hour := hour |}).
  { rewrite Est. rewrite Est in Hr. now injection Hr as <-. }
  rewrite Hr' in He. cbn [td_locations] in He.
  rewrite fold_type_member in He. cbn [app] in He.
  apply in_flat_map in He. destruct He as [location [Hloc He]].
  destruct (fetched client (DataGen.value t, location))
    as [data|] eqn:E; [|contradiction].
  destruct He as [<-|[]]. cbn [t_location t_footfall t_congestion] in *.
  pose proof (type_map_type t stations location Hlookup Hloc) as Htype.
  pose proof (AreaFacts.get_location_data_fetched
                client (DataGen.value t, location)) as Hfetched.
  cbn [fst snd] in Hfetched.
  unfold get_location_prediction in Hlp. rewrite Htype, Hfetched, E in Hlp.
  unfold calculate_current_footfall in Hlp. injection Hlp as <-.
  cbn. repeat split.
Qed.

(** Bandra among the railway stations, at hour 9. *)
Lemma transport_type_agrees_with_location_witness :
  exists (r : TypeData) (lp : LocationPrediction),
    get_transport_type_data bandra_client 9 "railway" = Ok r
    /\ get_location_prediction bandra_client 9 "Bandra" = Ok lp
    /\ In (mkTypeLocation "Bandra" 9000 High) (td_locations r)
    /\ lp_current_footfall lp = 9000%Z
    /\ lp_congestion_level lp = High.
Proof.
  eexists. eexists. split; [reflexivity|]. split; [reflexivity|].
  assert (Hin : In (mkTypeLocation "Bandra" 9000 High)
                   (match get_transport_type_data bandra_client 9 "railway" with
                    | Ok r => td_locations r
                    | Raise _ => []
                    end)) by (vm_compute; tauto).
  split; [exact Hin|].
  destruct (transport_type_agrees_with_location bandra_client 9
              DataGen.railway _ (mkTypeLocation "Bandra" 9000 High) _
              eq_refl Hin eq_refl) as [_ [Hfootfall Hlevel]].
  split; [symmetry; exact Hfootfall|symmetry; exact Hlevel].
Defined.

End AgreementFacts.
